(** * The mmap extension of the xv6 teaching kernel (sysproc.c)

    A shallow embedding of the memory-mapping code of [sysproc.c]:
    [find_available_address], [sys_mmap], [sys_munmap], [fork] (with
    [allocproc]) and [page_fault_handler].  C integers are [Z] with the
    32-bit wrap-around written out, the per-process mapping array is a list
    of slots next to its count, page tables are two-level finite maps, and
    every kernel routine is a function from the kernel state to a [result]
    that is a return value with the next state, a kernel panic, an access
    outside an array, or an exhausted iteration budget. *)

From Stdlib Require Import ZArith Lia.
From stdpp Require Import base option list gmap strings.

Local Open Scope Z_scope.

(** ** Machine integers *)

(** [uint] arithmetic of the 32-bit target. *)
Definition u32 (x : Z) : Z := x mod 2 ^ 32.

(** The value of a 32-bit pattern read as [int]. *)
Definition s32 (x : Z) : Z := (x + 2 ^ 31) mod 2 ^ 32 - 2 ^ 31.

(** ** Constants of the included headers *)

(** [sysproc.c], lines 16-17. *)
Definition MMAP_AREA_START : Z := 0x60000000.
Definition MMAP_AREA_END : Z := 0x80000000.

(** Modelled from the spec: [mmu.h], [param.h] and [memlayout.h] are not among
    the sources.  The page size is the spec's 4096; the table capacity is the
    spec's [MAX_MAPPINGS] = 32, which is also the number of entries [exit]
    clears; the remaining values are those of the x86 page-table format and
    of the xv6 kernel this code extends. *)
Definition PGSIZE : Z := 4096.
Definition MAX_MAPPINGS : Z := 32.
Definition NOFILE : Z := 16.
Definition KERNBASE : Z := 0x80000000.
Definition PTE_P : Z := 1.
Definition PTE_W : Z := 2.
Definition PTE_U : Z := 4.

Definition PGROUNDUP (sz : Z) : Z := Z.land (sz + PGSIZE - 1) (Z.lnot (PGSIZE - 1)).
Definition PGROUNDDOWN (a : Z) : Z := Z.land a (Z.lnot (PGSIZE - 1)).
Definition PDX (va : Z) : Z := Z.land (Z.shiftr va 22) 0x3FF.
Definition PTX (va : Z) : Z := Z.land (Z.shiftr va 12) 0x3FF.
Definition PTE_ADDR (pte : Z) : Z := Z.land pte (Z.lxor 0xFFF 0xFFFFFFFF).
Definition PTE_FLAGS (pte : Z) : Z := Z.land pte 0xFFF.
Definition V2P (a : Z) : Z := u32 (a - KERNBASE).
Definition P2V (a : Z) : Z := u32 (a + KERNBASE).

(** The values [mmap.h] and [mmu.h] give the flag constants are not among
    the sources; the code only tests them with [&].  They are taken as
    parameters.  The spec fixes that [PTE_COW] is one of the page-table
    entry's software bits, which on x86 are bits 9 to 11. *)
Class Header := {
  MAP_SHARED : Z;
  MAP_PRIVATE : Z;
  MAP_ANONYMOUS : Z;
  MAP_FIXED : Z;
  MAP_GROWSUP : Z;
  PTE_COW_bit : Z;
  PTE_COW_software : 9 <= PTE_COW_bit <= 11
}.

Definition PTE_COW `{Header} : Z := 2 ^ PTE_COW_bit.

(** C truth of [x & mask]. *)
Definition has (x mask : Z) : bool := negb (Z.land x mask =? 0).

Arguments u32 : simpl never.
Arguments s32 : simpl never.
Arguments PGROUNDUP : simpl never.
Arguments PGROUNDDOWN : simpl never.
Arguments PDX : simpl never.
Arguments PTX : simpl never.
Arguments PTE_ADDR : simpl never.
Arguments PTE_FLAGS : simpl never.
Arguments V2P : simpl never.
Arguments P2V : simpl never.
Arguments PTE_COW : simpl never.
Arguments has : simpl never.

(** ** Results *)

Inductive result (A : Type) : Type :=
  | Ret (a : A)            (* the routine returns *)
  | Panic (msg : string)   (* [panic(msg)] *)
  | Undef                  (* an array is accessed outside its bounds *)
  | Timeout.               (* the iteration budget of the model ran out *)
Arguments Ret {A} a.
Arguments Panic {A} msg.
Arguments Undef {A}.
Arguments Timeout {A}.

#[global] Instance result_ret : MRet result := @Ret.
#[global] Instance result_bind : MBind result := fun A B f r =>
  match r with
  | Ret a => f a
  | Panic msg => Panic msg
  | Undef => Undef
  | Timeout => Timeout
  end.

(** ** Data model *)

(** [struct mem_mapping].  Modelled from the spec: the declaration ([mmap.h])
    is not among the sources; the code uses [addr], [length], [flags], [fd],
    [originalLength] and [allocated], the spec's table adds [prot] and
    [offset]. *)
Record mem_mapping := {
  m_addr : Z;            (* uint *)
  m_length : Z;          (* int *)
  m_originalLength : Z;
  m_flags : Z;
  m_prot : Z;
  m_fd : Z;
  m_offset : Z;
  m_allocated : Z
}.

Definition set_length (m : mem_mapping) (l : Z) : mem_mapping :=
  {| m_addr := m_addr m; m_length := l; m_originalLength := m_originalLength m;
     m_flags := m_flags m; m_prot := m_prot m; m_fd := m_fd m;
     m_offset := m_offset m; m_allocated := m_allocated m |}.

(** [struct file]: only the inode pointer is read ([0] is the null pointer). *)
Record file := { f_ip : Z }.

Inductive procstate := UNUSED | EMBRYO | SLEEPING | RUNNABLE | RUNNING | ZOMBIE.

#[global] Instance procstate_eq_dec : EqDecision procstate.
Proof. solve_decision. Defined.

(** A page table page maps [PTX] to an entry (an absent key reads 0); a
    page directory maps [PDX] to the page table page behind a present
    directory entry. *)
Abbreviation pgtab_t := (gmap Z Z).
Abbreviation pgdir_t := (gmap Z (gmap Z Z)).

(** [struct proc], the fields this code reads or writes. *)
Record proc := {
  state : procstate;
  pid : Z;
  sz : Z;
  pgdir : pgdir_t;
  kstack : Z;
  ofile : list (option file);          (* [NOFILE] slots, [None] is the null pointer *)
  memoryMappings : list mem_mapping;   (* [MAX_MAPPINGS] slots *)
  num_mappings : Z
}.

Definition set_mappings (p : proc) (t : list mem_mapping) (n : Z) : proc :=
  {| state := state p; pid := pid p; sz := sz p; pgdir := pgdir p;
     kstack := kstack p; ofile := ofile p; memoryMappings := t; num_mappings := n |}.

Definition set_pgdir (p : proc) (pd : pgdir_t) : proc :=
  {| state := state p; pid := pid p; sz := sz p; pgdir := pd;
     kstack := kstack p; ofile := ofile p; memoryMappings := memoryMappings p;
     num_mappings := num_mappings p |}.

(** Calls into the file layer, the TLB and the console, in the order made. *)
Inductive event :=
  | Ebegin_op
  | Eend_op
  | Eilock (ip : Z)
  | Eiunlock (ip : Z)
  | Ereadi (ip off n : Z)
  | Ewritei (ip off n : Z)
  | Elcr3 (pid : Z)
  | Ecprintf (s : string).

(** The file layer and [copyuvm] are external collaborators whose code is not
    among the sources; they are parameters.  [readi d ip dst off n] gives the
    return value and the destination buffer afterwards, [writei d ip src off n]
    the return value and the inodes afterwards, [copyuvm pd sz mem] the child's
    page directory with the free list and the frames afterwards, or [None]
    for the null pointer. *)
Class Extern := {
  Disk : Type;
  readi : Disk -> Z -> list Z -> Z -> Z -> Z * list Z;
  writei : Disk -> Z -> list Z -> Z -> Z -> Z * Disk;
  copyuvm : pgdir_t -> Z -> list Z * gmap Z (list Z) ->
            option (pgdir_t * (list Z * gmap Z (list Z)))
}.

Section Kernel.
Context `{Header} `{Extern}.

(** The kernel state seen by the running process: [cur] is [myproc()],
    [ptable] the other entries of the process table in table order, [kmem]
    the free list of [kalloc] (kernel virtual addresses of frames), [phys] the
    contents of the frames, [trace] the external calls made, latest first. *)
Record kernel := {
  cur : proc;
  ptable : list proc;
  nextpid : Z;
  kmem : list Z;
  phys : gmap Z (list Z);
  disk : Disk;
  trace : list event
}.

Definition set_cur (k : kernel) (p : proc) : kernel :=
  {| cur := p; ptable := ptable k; nextpid := nextpid k; kmem := kmem k;
     phys := phys k; disk := disk k; trace := trace k |}.

Definition set_kmem (k : kernel) (fl : list Z) : kernel :=
  {| cur := cur k; ptable := ptable k; nextpid := nextpid k; kmem := fl;
     phys := phys k; disk := disk k; trace := trace k |}.

Definition set_phys (k : kernel) (ph : gmap Z (list Z)) : kernel :=
  {| cur := cur k; ptable := ptable k; nextpid := nextpid k; kmem := kmem k;
     phys := ph; disk := disk k; trace := trace k |}.

Definition set_disk (k : kernel) (d : Disk) : kernel :=
  {| cur := cur k; ptable := ptable k; nextpid := nextpid k; kmem := kmem k;
     phys := phys k; disk := d; trace := trace k |}.

Definition log (k : kernel) (e : event) : kernel :=
  {| cur := cur k; ptable := ptable k; nextpid := nextpid k; kmem := kmem k;
     phys := phys k; disk := disk k; trace := e :: trace k |}.

(** [memoryMappings[i]], undefined outside the array. *)
Definition read_mapping (t : list mem_mapping) (i : Z) : result mem_mapping :=
  if i <? 0 then Undef else
  match t !! Z.to_nat i with
  | Some m => Ret m
  | None => Undef
  end.

(** [memoryMappings[i] = m]. *)
Definition write_mapping (t : list mem_mapping) (i : Z) (m : mem_mapping)
  : result (list mem_mapping) :=
  if (i <? 0) || (Z.of_nat (length t) <=? i) then Undef
  else Ret (<[Z.to_nat i := m]> t).

(** [ofile[fd]]. *)
Definition read_ofile (p : proc) (fd : Z) : result (option file) :=
  if fd <? 0 then Undef else
  match ofile p !! Z.to_nat fd with
  | Some f => Ret f
  | None => Undef
  end.

(** ** The address allocator *)

(** The [for] loop of [find_available_address] from index [i] on, with [n]
    iterations left: whether some mapping overlaps the candidate. *)
Fixpoint overlap_from (t : list mem_mapping) (addr len : Z) (i : Z) (n : nat)
  : result bool :=
  match n with
  | O => Ret false
  | S n' =>
      m ← read_mapping t i;
      let existing_start := m_addr m in
      let existing_end := u32 (existing_start + PGROUNDUP (m_length m)) in
      let new_end := u32 (addr + len) in
      if (existing_start <? new_end) && (existing_end >? addr)
      then Ret true
      else overlap_from t addr len (i + 1) n'
  end.

(** The [while] loop of [find_available_address]. *)
Fixpoint find_loop (fuel : nat) (p : proc) (len addr : Z) : result Z :=
  match fuel with
  | O => Timeout
  | S fuel' =>
      if u32 (addr + len) <=? MMAP_AREA_END then
        overlap ← overlap_from (memoryMappings p) addr len 0
                     (Z.to_nat (num_mappings p));
        if overlap : bool then find_loop fuel' p len (u32 (addr + PGSIZE))
        else Ret addr
      else Ret 0
  end.

Definition find_available_address (fuel : nat) (p : proc) (len : Z) : result Z :=
  find_loop fuel p len MMAP_AREA_START.

(** ** mmap *)

(** [argint(n, &x)]: the [n]-th int argument of the system call, [None]
    when it cannot be fetched. *)
Definition argint (argv : list Z) (n : nat) : option Z := argv !! n.

(** [sys_mmap].  [new_mapping0] is the indeterminate initial value of the
    local [new_mapping], of which only five fields are assigned. *)
Definition sys_mmap (fuel : nat) (argv : list Z) (new_mapping0 : mem_mapping)
    (k : kernel) : result (Z * kernel) :=
  match argint argv 0, argint argv 1, argint argv 2,
        argint argv 3, argint argv 4, argint argv 5 with
  | Some a, Some len, Some prot, Some flags, Some fd, Some offset =>
      let addr := u32 a in
      let currproc := cur k in
      if len <=? 0 then Ret (-1, k) else
      if negb (addr =? 0) &&
         ((s32 addr <? s32 MMAP_AREA_START)
          || (s32 addr >? s32 (u32 (MMAP_AREA_END - PGSIZE)))
          || negb (Z.rem (s32 addr) PGSIZE =? 0))
      then Ret (-1, k) else
      if negb (has flags MAP_SHARED || has flags MAP_PRIVATE) then Ret (-1, k) else
      if has flags MAP_ANONYMOUS && (negb (fd =? -1) || negb (offset =? 0))
      then Ret (-1, k) else
      if has flags MAP_FIXED && ((addr =? 0) || negb (addr mod PGSIZE =? 0))
      then Ret (-1, k) else
      bad_fd ←
        (if negb (has flags MAP_ANONYMOUS) then
           if (fd <? 0) || (fd >=? NOFILE) then Ret true
           else f ← read_ofile currproc fd; Ret (bool_decide (f = None))
         else Ret false);
      if bad_fd : bool then Ret (-1, k) else
      new_address ←
        (if has flags MAP_FIXED then Ret addr
         else find_available_address fuel currproc len);
      if negb (has flags MAP_FIXED) && (new_address =? 0) then Ret (-1, k) else
      let new_mapping :=
        {| m_addr := new_address; m_length := len; m_originalLength := len;
           m_flags := flags; m_prot := m_prot new_mapping0; m_fd := fd;
           m_offset := m_offset new_mapping0;
           m_allocated := m_allocated new_mapping0 |} in
      t ← write_mapping (memoryMappings currproc) (num_mappings currproc) new_mapping;
      Ret (s32 new_address,
           set_cur k (set_mappings currproc t (s32 (num_mappings currproc + 1))))
  | _, _, _, _, _, _ => Ret (-1, k)
  end.


(** ** Frames and page tables *)

(** Modelled from the spec: the frame allocator ([kalloc.c]) is not among
    the sources; [kalloc] yields a frame of the free list or the null pointer,
    [kfree] reclaims one. *)
Definition kalloc (k : kernel) : option Z * kernel :=
  match kmem k with
  | [] => (None, k)
  | r :: fl => (Some r, set_kmem k fl)
  end.

Definition kfree (k : kernel) (v : Z) : kernel := set_kmem k (v :: kmem k).

Definition frame (ph : gmap Z (list Z)) (a : Z) : list Z := default [] (ph !! a).

(** Modelled from the spec: the page-table walker ([vm.c]) is not among the
    sources.  [walkpgdir pd fl va alloc] gives the slot of the entry for [va]
    (the null pointer when the page table page is absent and [alloc] is
    false, or no frame is left for it), with the page directory and the free
    list afterwards; a new page table page is cleared. *)
Definition walkpgdir (pd : pgdir_t) (fl : list Z) (va : Z) (alloc : bool)
  : option (Z * Z) * pgdir_t * list Z :=
  match pd !! PDX va with
  | Some _ => (Some (PDX va, PTX va), pd, fl)
  | None =>
      if alloc then
        match fl with
        | [] => (None, pd, fl)
        | _ :: fl' => (Some (PDX va, PTX va), <[PDX va := ∅]> pd, fl')
        end
      else (None, pd, fl)
  end.

(** [*pte] and [*pte = v] through a slot. *)
Definition pte_read (pd : pgdir_t) (slot : Z * Z) : Z :=
  match pd !! slot.1 with
  | Some pt => default 0 (pt !! slot.2)
  | None => 0
  end.

Definition pte_write (pd : pgdir_t) (slot : Z * Z) (v : Z) : pgdir_t :=
  match pd !! slot.1 with
  | Some pt => <[slot.1 := <[slot.2 := v]> pt]> pd
  | None => pd
  end.

(** The entry of [va] as [walkpgdir(pd, va, 0)] finds it. *)
Definition lookup_pte (pd : pgdir_t) (va : Z) : option Z :=
  match walkpgdir pd [] va false with
  | (Some slot, _, _) => Some (pte_read pd slot)
  | (None, _, _) => None
  end.

(** Modelled from the spec: [mappages] ([vm.c]) is not among the sources; it
    installs [pa | perm | PTE_P] for every page from [PGROUNDDOWN(va)] to
    [PGROUNDDOWN(va + size - 1)], creating page table pages, returns -1
    when one cannot be created and panics on an entry already present.  [n]
    counts the pages after the first. *)
Fixpoint mappages_loop (n : nat) (pd : pgdir_t) (fl : list Z) (a last pa perm : Z)
  : result (Z * (pgdir_t * list Z)) :=
  match walkpgdir pd fl a true with
  | (None, pd', fl') => Ret (-1, (pd', fl'))
  | (Some slot, pd', fl') =>
      if has (pte_read pd' slot) PTE_P then Panic "remap"
      else
        let pd'' := pte_write pd' slot (Z.lor (Z.lor pa perm) PTE_P) in
        if a =? last then Ret (0, (pd'', fl'))
        else
          match n with
          | O => Timeout
          | S n' => mappages_loop n' pd'' fl' (u32 (a + PGSIZE)) last
                      (u32 (pa + PGSIZE)) perm
          end
  end.

Definition mappages (pd : pgdir_t) (fl : list Z) (va size pa perm : Z)
  : result (Z * (pgdir_t * list Z)) :=
  let a := PGROUNDDOWN va in
  let last := PGROUNDDOWN (u32 (va + size - 1)) in
  mappages_loop (Z.to_nat (u32 (last - a) / PGSIZE)) pd fl a last pa perm.

(** Modelled from the spec: [ilock] ([fs.c]) is not among the sources; it
    panics on the null inode pointer and otherwise takes the inode lock. *)
Definition ilock (k : kernel) (ip : Z) : result kernel :=
  if ip =? 0 then Panic "ilock" else Ret (log k (Eilock ip)).

(** ** munmap *)

(** The page sweep of [sys_munmap]: [Some (-1)] is the early [return -1]. *)
Fixpoint munmap_sweep (fuel : nat) (map : mem_mapping) (ip : Z) (bound va : Z)
    (k : kernel) : result (option Z * kernel) :=
  match fuel with
  | O => Timeout
  | S fuel' =>
      if va <? bound then
        r ← match lookup_pte (pgdir (cur k)) va with
            | Some pte =>
                if has pte PTE_P
                   && (has (m_flags map) MAP_SHARED
                       && negb (has (m_flags map) MAP_ANONYMOUS)) then
                  let pa := P2V (PTE_ADDR pte) in
                  let buffer := frame (phys k) pa in
                  let offset_into_file := u32 (va - m_addr map) in
                  k1 ← ilock (log k Ebegin_op) ip;
                  let '(written_bytes, d) :=
                    writei (disk k1) ip buffer offset_into_file PGSIZE in
                  let k2 := log (set_disk k1 d) (Ewritei ip offset_into_file PGSIZE) in
                  let k3 := log (log k2 (Eiunlock ip)) Eend_op in
                  if written_bytes <? 0 then Ret (Some (-1), k3) else Ret (None, k3)
                else Ret (None, k)
            | None => Ret (None, k)
            end;
        match r with
        | (Some v, k') => Ret (Some v, k')
        | (None, k') => munmap_sweep fuel' map ip bound (u32 (va + PGSIZE)) k'
        end
      else Ret (None, k)
  end.

(** The shifting loop: [n] copies [t[j] = t[j + 1]] from [j] on. *)
Fixpoint shift_down (t : list mem_mapping) (j : Z) (n : nat)
  : result (list mem_mapping) :=
  match n with
  | O => Ret t
  | S n' =>
      m ← read_mapping t (j + 1);
      t' ← write_mapping t j m;
      shift_down t' (j + 1) n'
  end.

(** The shift, the decrement and the [break] that end the body of the
    search loop of [sys_munmap]. *)
Definition munmap_remove (k : kernel) (i : Z) (found_mapping : bool)
  : result (Z * kernel) :=
  let curproc := cur k in
  t ← shift_down (memoryMappings curproc) i
        (Z.to_nat (num_mappings curproc - 1 - i));
  let k' := set_cur k (set_mappings curproc t (s32 (num_mappings curproc - 1))) in
  Ret (if found_mapping then 0 else -1, k').

(** [sys_munmap].  Every path through the body of the search loop ends in
    the [break] of line 291 or in a [return], so the body runs for [i = 0]
    only, and only when [0 < num_mappings]. *)
Definition sys_munmap (fuel : nat) (argv : list Z) (k : kernel)
  : result (Z * kernel) :=
  match argint argv 0, argint argv 1 with
  | Some a, Some len =>
      let addr := u32 a in
      let curproc := cur k in
      if 0 <? num_mappings curproc then
        let i := 0 in
        map ← read_mapping (memoryMappings curproc) i;
        if (addr >=? m_addr map)
           && (u32 (addr + len) <=? u32 (m_addr map + m_length map)) then
          ip ← (if has (m_flags map) MAP_SHARED
                   && negb (has (m_flags map) MAP_ANONYMOUS)
                   && (m_fd map >=? 0) then
                  f ← read_ofile curproc (m_fd map);
                  match f with
                  | None => Panic "mapping failed 1"
                  | Some f => Ret (f_ip f)
                  end
                else Ret 0);
          r ← munmap_sweep fuel map ip (u32 (addr + len)) addr k;
          match r with
          | (Some v, k') => Ret (v, k')
          | (None, k') => munmap_remove k' i true
          end
        else munmap_remove k i false
      else Ret (-1, k)
  | _, _ => Ret (-1, k)
  end.

(** ** fork *)

Definition set_state (p : proc) (st : procstate) : proc :=
  {| state := st; pid := pid p; sz := sz p; pgdir := pgdir p;
     kstack := kstack p; ofile := ofile p; memoryMappings := memoryMappings p;
     num_mappings := num_mappings p |}.

Definition set_pid (p : proc) (n : Z) : proc :=
  {| state := state p; pid := n; sz := sz p; pgdir := pgdir p;
     kstack := kstack p; ofile := ofile p; memoryMappings := memoryMappings p;
     num_mappings := num_mappings p |}.

Definition set_kstack (p : proc) (a : Z) : proc :=
  {| state := state p; pid := pid p; sz := sz p; pgdir := pgdir p;
     kstack := a; ofile := ofile p; memoryMappings := memoryMappings p;
     num_mappings := num_mappings p |}.

Definition set_sz_ofile (p : proc) (n : Z) (fs : list (option file)) : proc :=
  {| state := state p; pid := pid p; sz := n; pgdir := pgdir p;
     kstack := kstack p; ofile := fs; memoryMappings := memoryMappings p;
     num_mappings := num_mappings p |}.

Definition set_ptable (k : kernel) (t : list proc) (np : Z) : kernel :=
  {| cur := cur k; ptable := t; nextpid := np; kmem := kmem k;
     phys := phys k; disk := disk k; trace := trace k |}.

(** [allocproc]: the first [UNUSED] entry becomes [EMBRYO] with the next pid
    and a kernel stack; its index, or [None] for the null pointer, in which
    case [kstack] holds the null result of [kalloc] (line 402).  The
    running process is not [UNUSED], so the scan is over [ptable]. *)
Definition allocproc (k : kernel) : option nat * kernel :=
  match list_find (fun p => state p = UNUSED) (ptable k) with
  | None => (None, k)
  | Some (j, p) =>
      let p1 := set_pid (set_state p EMBRYO) (nextpid k) in
      let k1 := set_ptable k (<[j := p1]> (ptable k)) (s32 (nextpid k + 1)) in
      match kalloc k1 with
      | (None, k2) =>
          (None, set_ptable k2 (<[j := set_state (set_kstack p1 0) UNUSED]> (ptable k2))
                   (nextpid k2))
      | (Some ks, k2) =>
          (Some j, set_ptable k2 (<[j := set_kstack p1 ks]> (ptable k2)) (nextpid k2))
      end
  end.

(** The loop state of the copy-on-write marking: the parent's and the child's
    page directories, the free list and the trace. *)
Definition fork_st : Type := pgdir_t * pgdir_t * list Z * list event.

(** The inner [for] loop of [fork] over the pages of one mapping. *)
Fixpoint fork_pages (fuel : nat) (ppid bound address : Z) (s : fork_st)
  : result fork_st :=
  match fuel with
  | O => Timeout
  | S fuel' =>
      if address <? bound then
        let '(ppd, cpd, fl, tr) := s in
        s' ← match walkpgdir ppd fl address false with
             | (Some slot, _, _) =>
                 if has (pte_read ppd slot) PTE_P then
                   let e1 := Z.land (pte_read ppd slot) (Z.lnot PTE_W) in
                   let e2 := Z.lor e1 PTE_COW in
                   let ppd' := pte_write ppd slot e2 in
                   let tr' := Elcr3 ppid :: tr in
                   match walkpgdir cpd fl address true with
                   | (Some child_slot, cpd', fl') =>
                       Ret (ppd', pte_write cpd' child_slot (pte_read ppd' slot),
                            fl', tr')
                   | (None, _, _) => Panic "Failed to allocate PTE for child."
                   end
                 else Ret s
             | (None, _, _) => Ret s
             end;
        fork_pages fuel' ppid bound (u32 (address + PGSIZE)) s'
      else Ret s
  end.

(** The outer [for] loop of [fork] from index [i] on, [n] iterations left;
    [ct] is the child's mapping array. *)
Fixpoint fork_mappings (fuel : nat) (ppid : Z) (pt : list mem_mapping) (i : Z)
    (n : nat) (ct : list mem_mapping) (s : fork_st)
  : result (list mem_mapping * fork_st) :=
  match n with
  | O => Ret (ct, s)
  | S n' =>
      map ← read_mapping pt i;
      s' ← (if has (m_flags map) MAP_PRIVATE then
              fork_pages fuel ppid (u32 (m_addr map + m_length map)) (m_addr map) s
            else Ret s);
      ct' ← write_mapping ct i map;
      fork_mappings fuel ppid pt (i + 1) n' ct' s'
  end.

(** [np->ofile[i] = filedup(curproc->ofile[i])] for the open files of the
    parent; the other slots of the child keep what they held. *)
Fixpoint dup_ofile (pf cf : list (option file)) : list (option file) :=
  match pf, cf with
  | Some f :: pf', _ :: cf' => Some f :: dup_ofile pf' cf'
  | None :: pf', c :: cf' => c :: dup_ofile pf' cf'
  | _, _ => cf
  end.

(** [fork]: the returned pid with the state afterwards; the child is the
    entry of [ptable] that [allocproc] picked. *)
Definition fork (fuel : nat) (k : kernel) : result (Z * kernel) :=
  let curproc := cur k in
  match allocproc k with
  | (None, k1) => Ret (-1, k1)
  | (Some j, k1) =>
      match ptable k1 !! j with
      | None => Undef
      | Some np =>
          let np1 := set_mappings np (memoryMappings np) (num_mappings curproc) in
          match copyuvm (pgdir curproc) (sz curproc) (kmem k1, phys k1) with
          | None =>
              let k2 := kfree k1 (kstack np1) in
              let np2 := set_state (set_kstack np1 0) UNUSED in
              Ret (-1, set_ptable k2 (<[j := np2]> (ptable k2)) (nextpid k2))
          | Some (cpd, (fl, ph)) =>
              r ← fork_mappings fuel (pid curproc) (memoryMappings curproc) 0
                    (Z.to_nat (num_mappings curproc)) (memoryMappings np1)
                    (pgdir curproc, cpd, fl, trace k1);
              let '(ct, (ppd, cpd', fl', tr)) := r in
              let np2 := set_pgdir (set_mappings np1 ct (num_mappings np1)) cpd' in
              let np3 := set_sz_ofile np2 (sz curproc)
                           (dup_ofile (ofile curproc) (ofile np2)) in
              let np4 := set_state np3 RUNNABLE in
              Ret (pid np4,
                   {| cur := set_pgdir curproc ppd;
                      ptable := <[j := np4]> (ptable k1);
                      nextpid := nextpid k1; kmem := fl'; phys := ph;
                      disk := disk k1; trace := tr |})
          end
      end
  end.

(** ** The page-fault handler *)

(** The text of [cprintf("Segmentation Fault\n")]: the words and a line feed. *)
Definition segfault_msg : string :=
  String.append "Segmentation Fault" (String (Ascii.ascii_of_nat 10) EmptyString).

(** The epilogue of [page_fault_handler], also reached by [break]. *)
Definition segfault (k : kernel) : result (Z * kernel) :=
  Ret (-1, log k (Ecprintf segfault_msg)).

(** The search for the next mapping above [end_of_mapping]. *)
Fixpoint next_mapping (t : list mem_mapping) (end_of_mapping : Z) (j : Z) (n : nat)
  : result Z :=
  match n with
  | O => Ret 0xFFFFFFFF
  | S n' =>
      m ← read_mapping t j;
      if (m_addr m >=? end_of_mapping) && (m_addr m <? 0xFFFFFFFF)
      then Ret (m_addr m)
      else next_mapping t end_of_mapping (j + 1) n'
  end.

(** The [MAP_GROWSUP] block (lines 998-1024): [None] is its [break]. *)
Definition growsup (k : kernel) (num_mappings0 i : Z) (map : mem_mapping)
  : result (option kernel) :=
  if has (m_flags map) MAP_GROWSUP then
    let t := memoryMappings (cur k) in
    let end_of_mapping := u32 (PGROUNDUP (u32 (m_addr map + m_length map)) + PGSIZE) in
    next_mapping_start ← next_mapping t end_of_mapping 0 (Z.to_nat num_mappings0);
    if PGSIZE >=? u32 (next_mapping_start - end_of_mapping) then Ret None
    else
      m ← read_mapping t i;
      t' ← write_mapping t i (set_length m (s32 (m_length m + PGSIZE)));
      Ret (Some (set_cur k (set_mappings (cur k) t' (num_mappings (cur k)))))
  else Ret (Some k).

(** The fill (lines 1026-1053): the new frame [mem] receives one page read
    from the inode, or zeroes.  [buffer0] is the indeterminate initial content
    of the local [buffer]. *)
Definition fill (k : kernel) (buffer0 : list Z) (va : Z) (map : mem_mapping)
    (ip mem : Z) : result kernel :=
  if negb (has (m_flags map) MAP_ANONYMOUS) then
    let page_in_file := PGROUNDDOWN va in
    let offset_into_file := s32 (s32 page_in_file - s32 (m_addr map)) in
    k1 ← ilock (log k Ebegin_op) ip;
    let '(_, buffer) := readi (disk k1) ip buffer0 (u32 offset_into_file) PGSIZE in
    let k2 := log k1 (Ereadi ip (u32 offset_into_file) PGSIZE) in
    let k3 := log (log k2 (Eiunlock ip)) Eend_op in
    Ret (set_phys k3 (<[mem := buffer]> (phys k3)))
  else
    Ret (set_phys k (<[mem := replicate (Z.to_nat PGSIZE) 0]> (phys k))).

(** The install (lines 1055-1067). *)
Definition install (k : kernel) (va mem : Z) : result (Z * kernel) :=
  r ← mappages (pgdir (cur k)) (kmem k) va PGSIZE (V2P mem) (Z.lor PTE_W PTE_U);
  let '(rc, (pd, fl)) := r in
  let k' := set_kmem (set_cur k (set_pgdir (cur k) pd)) fl in
  if rc <? 0 then Ret (1, kfree k' mem) else Ret (1, k').

(** The body of the mapping loop once [va] lies in mapping [i]. *)
Definition pf_found (k : kernel) (buffer0 : list Z) (va num_mappings0 i : Z)
    (map : mem_mapping) : result (Z * kernel) :=
  ip ← (if m_fd map >? 0 then
          f ← read_ofile (cur k) (m_fd map);
          match f with
          | None => Panic "mapping failed 1"
          | Some f => Ret (f_ip f)
          end
        else Ret 0);
  match kalloc k with
  | (None, _) => Panic "mapping failed 2"
  | (Some mem, k1) =>
      g ← growsup k1 num_mappings0 i map;
      match g with
      | None => segfault k1
      | Some k2 =>
          k3 ← fill k2 buffer0 va map ip mem;
          install k3 va mem
      end
  end.

(** The mapping loop from index [i] on, [n] iterations left. *)
Fixpoint pf_scan (k : kernel) (buffer0 : list Z) (va num_mappings0 i : Z) (n : nat)
  : result (Z * kernel) :=
  match n with
  | O => segfault k
  | S n' =>
      map ← read_mapping (memoryMappings (cur k)) i;
      if (va >=? m_addr map)
         && (va <? u32 (PGROUNDUP (u32 (m_addr map + m_length map))))
      then pf_found k buffer0 va num_mappings0 i map
      else pf_scan k buffer0 va num_mappings0 (i + 1) n'
  end.

(** The copy-on-write branch (lines 943-961) on the entry [pte] at [slot]. *)
Definition cow_fault (k : kernel) (slot : Z * Z) (pte : Z) : result (Z * kernel) :=
  match kalloc k with
  | (None, _) => Panic "Out of memory - COW page fault handler"
  | (Some mem, k1) =>
      let old_page := P2V (PTE_ADDR pte) in
      let k2 := set_phys k1 (<[mem := frame (phys k1) old_page]> (phys k1)) in
      let e1 := Z.lor (Z.lor (V2P mem) (PTE_FLAGS pte)) PTE_W in
      let e2 := Z.land e1 (Z.lnot PTE_COW) in
      let currproc := cur k2 in
      let k3 := set_cur k2 (set_pgdir currproc (pte_write (pgdir currproc) slot e2)) in
      Ret (1, log k3 (Elcr3 (pid currproc)))
  end.

Definition page_fault_handler (buffer0 : list Z) (va : Z) (k : kernel)
  : result (Z * kernel) :=
  let currproc := cur k in
  let scan := pf_scan k buffer0 va (num_mappings currproc) 0
                (Z.to_nat (num_mappings currproc)) in
  match walkpgdir (pgdir currproc) (kmem k) va false with
  | (Some slot, _, _) =>
      let pte := pte_read (pgdir currproc) slot in
      if has pte PTE_COW && negb (has pte PTE_W) then cow_fault k slot pte
      else scan
  | (None, _, _) => scan
  end.

End Kernel.

(** * Specification vocabulary *)

Section Vocabulary.
Context `{Hdr : Header} `{Ext : Extern}.

(** The live descriptors: entries [0, num_mappings) of the array. *)
Definition live (p : proc) : list mem_mapping :=
  take (Z.to_nat (num_mappings p)) (memoryMappings p).

(** A descriptor of the data model: positive length, and its rounded range
    ends inside the 32-bit address space. *)
Definition wf_mapping (m : mem_mapping) : Prop :=
  0 <= m_addr m /\ 0 < m_length m /\ m_addr m + PGROUNDUP (m_length m) < 2 ^ 32.

Definition wf_table (p : proc) : Prop :=
  0 <= num_mappings p <= Z.of_nat (length (memoryMappings p))
  /\ Forall wf_mapping (live p).

(** [[A, A + len)] meets the rounded range of [m]. *)
Definition overlaps (A len : Z) (m : mem_mapping) : Prop :=
  exists x, A <= x < A + len /\ m_addr m <= x < m_addr m + PGROUNDUP (m_length m).

(** [A] is a page-aligned place for [len] bytes inside the arena that meets
    no live descriptor. *)
Definition fits (p : proc) (len A : Z) : Prop :=
  MMAP_AREA_START <= A /\ A mod PGSIZE = 0 /\ A + len <= MMAP_AREA_END
  /\ Forall (fun m => ~ overlaps A len m) (live p).

(** The overlap test of one iteration of the inner loop. *)
Definition ov_test (addr len : Z) (m : mem_mapping) : bool :=
  (m_addr m <? u32 (addr + len))
  && (u32 (m_addr m + PGROUNDUP (m_length m)) >? addr).

(** The validation failures of [mmap], on the hint read as an address. *)
Definition mmap_invalid (p : proc) (addr len flags fd offset : Z) : Prop :=
  len <= 0
  \/ (addr <> 0 /\ (addr < MMAP_AREA_START \/ MMAP_AREA_END - PGSIZE < addr
                   \/ addr mod PGSIZE <> 0))
  \/ (has flags MAP_SHARED = false /\ has flags MAP_PRIVATE = false)
  \/ (has flags MAP_ANONYMOUS = true /\ (fd <> -1 \/ offset <> 0))
  \/ (has flags MAP_FIXED = true /\ (addr = 0 \/ addr mod PGSIZE <> 0))
  \/ (has flags MAP_ANONYMOUS = false
      /\ (fd < 0 \/ NOFILE <= fd \/ ofile p !! Z.to_nat fd = Some None)).

(** The address [mmap] places the region at, when there is one. *)
Definition mmap_place (fuel : nat) (p : proc) (addr len flags : Z) (A : Z) : Prop :=
  if has flags MAP_FIXED then A = addr
  else find_available_address fuel p len = Ret A /\ A <> 0.

(** The state after a successful [mmap]: the descriptor is stored in slot
    [num_mappings] and the count grows by one. *)
Definition mmap_appended (k : kernel) (m : mem_mapping) : kernel :=
  set_cur k (set_mappings (cur k)
               (<[Z.to_nat (num_mappings (cur k)) := m]> (memoryMappings (cur k)))
               (num_mappings (cur k) + 1)).

(** The entry written by the copy-on-write branch. *)
Definition cow_entry (mem pte : Z) : Z :=
  Z.land (Z.lor (Z.lor (V2P mem) (PTE_FLAGS pte)) PTE_W) (Z.lnot PTE_COW).

(** The state after the copy-on-write branch resolved the fault at [va]. *)
Definition cow_resolved (k : kernel) (va pte mem : Z) (fl : list Z) : kernel :=
  log (set_cur
         (set_phys (set_kmem k fl)
            (<[mem := frame (phys k) (P2V (PTE_ADDR pte))]> (phys k)))
         (set_pgdir (cur k)
            (pte_write (pgdir (cur k)) (PDX va, PTX va) (cow_entry mem pte))))
      (Elcr3 (pid (cur k))).

(** The entry behind a slot, [None] when its page table page is absent. *)
Definition pte_at (pd : pgdir_t) (sl : Z * Z) : option Z :=
  match pd !! sl.1 with
  | Some pt => Some (default 0 (pt !! sl.2))
  | None => None
  end.

Definition slot_of (va : Z) : Z * Z := (PDX va, PTX va).



Definition st_free (s : fork_st) : list Z := s.1.2.

(** The pages the copy-on-write loop of [fork] visits for descriptor [m]. *)
Definition fork_page_count (m : mem_mapping) : nat :=
  if has (m_flags m) MAP_PRIVATE
  then Z.to_nat ((m_length m + PGSIZE - 1) / PGSIZE) else 0%nat.



(** A descriptor whose page walk in [fork] stays inside the 32-bit address
    space: page-aligned base, end at most one page below the top. *)
Definition wf_fork (m : mem_mapping) : Prop :=
  0 <= m_addr m /\ m_addr m mod PGSIZE = 0
  /\ 0 <= m_addr m + m_length m <= 2 ^ 32 - PGSIZE.

(** [va] lies in the range the fault handler gives descriptor [m]. *)
Definition in_mapping (va : Z) (m : mem_mapping) : Prop :=
  m_addr m <= va /\ va < u32 (PGROUNDUP (u32 (m_addr m + m_length m))).

#[global] Instance in_mapping_dec va m : Decision (in_mapping va m).
Proof. unfold in_mapping. apply _. Defined.

(** The first live descriptor whose range holds [va], with its index. *)
Definition fault_mapping (p : proc) (va : Z) : option (nat * mem_mapping) :=
  list_find (in_mapping va) (live p).

(** The address the growth check measures from. *)
Definition end_of_mapping (m : mem_mapping) : Z :=
  u32 (PGROUNDUP (u32 (m_addr m + m_length m)) + PGSIZE).



(** The copy-on-write test of the handler on the entry of [va]. *)
Definition cow_pending (pd : pgdir_t) (va : Z) : bool :=
  match lookup_pte pd va with
  | Some pte => has pte PTE_COW && negb (has pte PTE_W)
  | None => false
  end.

(** The inode pointer the handler takes from the descriptor's file. *)
Definition ip_of (k : kernel) (map : mem_mapping) : result Z :=
  if m_fd map >? 0 then
    f ← read_ofile (cur k) (m_fd map);
    match f with
    | None => Panic "mapping failed 1"
    | Some f => Ret (f_ip f)
    end
  else Ret 0.


(** The entry of [va] exists and has [PTE_P]. *)
Definition present (pd : pgdir_t) (va : Z) : bool :=
  match lookup_pte pd va with
  | Some e => has e PTE_P
  | None => false
  end.

(** The containment test of [sys_munmap] (line 236) on descriptor [d]. *)
Definition munmap_hit (addr len : Z) (d : mem_mapping) : bool :=
  (addr >=? m_addr d) && (u32 (addr + len) <=? u32 (m_addr d + m_length d)).

(** The descriptor's resident pages are written to its file at [munmap]. *)
Definition writes_back (d : mem_mapping) : bool :=
  has (m_flags d) MAP_SHARED && negb (has (m_flags d) MAP_ANONYMOUS).

(** ** The process-table functions *)
(** An entry of [ptable.proc] as [kill], [wakeup1] and [count_children] see
    it: the fields of [proc] and, beside them, [killed], [chan] and [parent]
    (the two pointers as addresses). *)
Record slot := {
  entry : proc;
  killed : Z;
  chan : Z;
  parent : Z;
}.

Definition set_entry_state (p : slot) (st : procstate) : slot :=
  {| entry := set_state (entry p) st; killed := killed p; chan := chan p;
     parent := parent p |}.

Definition set_killed (p : slot) (v : Z) : slot :=
  {| entry := entry p; killed := v; chan := chan p; parent := parent p |}.

(** [wakeup1]: the loop visits every entry. *)
Definition wakeup1 (chan0 : Z) (pt : list slot) : list slot :=
  (fun p => if bool_decide (state (entry p) = SLEEPING) && (chan p =? chan0)
            then set_entry_state p RUNNABLE else p) <$> pt.

(** [kill]: the value returned and the table afterwards. *)
Fixpoint kill (pid0 : Z) (pt : list slot) : Z * list slot :=
  match pt with
  | [] => (-1, [])
  | p :: rest =>
      if pid (entry p) =? pid0 then
        let p1 := set_killed p 1 in
        let p2 := if bool_decide (state (entry p1) = SLEEPING)
                  then set_entry_state p1 RUNNABLE else p1 in
        (0, p2 :: rest)
      else
        let '(r, rest') := kill pid0 rest in (r, p :: rest')
  end.

(** [count_children]: [count] is an [int]. *)
Definition count_children (parent_proc : Z) (pt : list slot) : Z :=
  fold_left (fun count p => if parent p =? parent_proc then s32 (count + 1) else count)
            pt 0.

(** What [kill] leaves in the entry it found. *)
Definition killed_entry (p : slot) : slot :=
  {| entry := if bool_decide (state (entry p) = SLEEPING)
              then set_state (entry p) RUNNABLE else entry p;
     killed := 1; chan := chan p; parent := parent p |}.

End Vocabulary.

(** * A concrete configuration *)

(** The flag values of the course's [mmap.h], and bit 9 for [PTE_COW]. *)
Definition stock_header : Header :=
  {| MAP_SHARED := 2; MAP_PRIVATE := 1; MAP_ANONYMOUS := 4; MAP_FIXED := 8;
     MAP_GROWSUP := 16; PTE_COW_bit := 9;
     PTE_COW_software := conj (Zle_bool_imp_le 9 9 eq_refl) (Zle_bool_imp_le 9 11 eq_refl) |}.

(** A file layer over inodes that are byte lists: a read or write that starts
    past the end of the file fails. *)
Definition file_readi (d : gmap Z (list Z)) (ip : Z) (dst : list Z) (off n : Z)
  : Z * list Z :=
  let data := default [] (d !! ip) in
  if Z.of_nat (length data) <? off then (-1, dst)
  else
    let bytes := take (Z.to_nat n) (drop (Z.to_nat off) data) in
    (Z.of_nat (length bytes), bytes ++ drop (length bytes) dst).

Definition file_writei (d : gmap Z (list Z)) (ip : Z) (src : list Z) (off n : Z)
  : Z * gmap Z (list Z) :=
  let data := default [] (d !! ip) in
  if Z.of_nat (length data) <? off then (-1, d)
  else (n, <[ip := take (Z.to_nat off) data ++ take (Z.to_nat n) src
                    ++ drop (Z.to_nat (off + n)) data]> d).

(** [copyuvm] of a process without user memory below [sz]. *)
Definition empty_copyuvm (pd : pgdir_t) (sz : Z) (mem : list Z * gmap Z (list Z))
  : option (pgdir_t * (list Z * gmap Z (list Z))) :=
  if sz =? 0 then Some (∅, mem) else None.

Definition stock_extern : Extern :=
  {| Disk := gmap Z (list Z); readi := file_readi; writei := file_writei;
     copyuvm := empty_copyuvm |}.

Section Examples.
#[local] Existing Instance stock_header.
#[local] Existing Instance stock_extern.

Definition mapping (a l fl f : Z) : mem_mapping :=
  {| m_addr := a; m_length := l; m_originalLength := l; m_flags := fl;
     m_prot := 0; m_fd := f; m_offset := 0; m_allocated := 0 |}.

(** A private anonymous mapping. *)
Definition anon (a l : Z) : mem_mapping := mapping a l 5 (-1).

Definition empty_table : list mem_mapping := replicate 32 (mapping 0 0 0 0).

Definition table_of (l : list mem_mapping) : list mem_mapping :=
  l ++ drop (length l) empty_table.

Definition proc_with (l : list mem_mapping) : proc :=
  {| state := RUNNING; pid := 1; sz := 0; pgdir := ∅; kstack := 0;
     ofile := replicate 16 None; memoryMappings := table_of l;
     num_mappings := Z.of_nat (length l) |}.

(** A kernel whose running process holds the descriptors [l], with the
    free frames [fl] and no other process. *)
Definition kernel_with (l : list mem_mapping) (fl : list Z) : kernel :=
  {| cur := proc_with l; ptable := []; nextpid := 2; kmem := fl; phys := ∅;
     disk := ∅; trace := [] |}.

Definition frames : list Z := [0x80400000; 0x80401000; 0x80402000].

(** [n] calls of [mmap(0, 4096, 3, MAP_PRIVATE|MAP_ANONYMOUS, -1, 0)]: the
    values returned and the final outcome. *)
Fixpoint mmap_times (n : nat) (k : kernel) : list Z * result kernel :=
  match n with
  | O => ([], Ret k)
  | S n' =>
      match mmap_times n' k with
      | (rs, Ret k1) =>
          match sys_mmap 64 [0; 4096; 3; 5; -1; 0] (mapping 0 0 0 0) k1 with
          | Ret (v, k2) => (rs ++ [v], Ret k2)
          | Panic msg => (rs, Panic msg)
          | Undef => (rs, Undef)
          | Timeout => (rs, Timeout)
          end
      | r => r
      end
  end.

(** A two-page file: a page of 65 then a page of 66. *)
Definition two_pages : list Z :=
  replicate (Z.to_nat PGSIZE) 65 ++ replicate (Z.to_nat PGSIZE) 66.

(** A kernel whose running process has inode 7 open as descriptor 3. *)
Definition kernel_file : kernel :=
  {| cur := {| state := RUNNING; pid := 1; sz := 0; pgdir := ∅; kstack := 0;
               ofile := <[3%nat := Some {| f_ip := 7 |}]> (replicate 16 None);
               memoryMappings := empty_table; num_mappings := 0 |};
     ptable := []; nextpid := 2; kmem := frames; phys := ∅;
     disk := {[ 7 := two_pages ]}; trace := [] |}.


(** A page directory with one present, user, copy-on-write entry for the
    first page of the arena, on frame [0x500000]. *)
Definition cow_pgdir : pgdir_t := {[ 384 := {[ 0 := 0x500205 ]} ]}.

Definition kernel_cow : kernel :=
  {| cur := set_pgdir (proc_with [anon 0x60000000 4096]) cow_pgdir;
     ptable := []; nextpid := 2; kmem := frames;
     phys := {[ 0x80500000 := replicate (Z.to_nat PGSIZE) 7 ]};
     disk := ∅; trace := [] |}.


(** Two private anonymous pages side by side. *)
Definition kernel_two : kernel :=
  kernel_with [anon 0x60000000 4096; anon 0x60001000 4096] frames.

(** A shared mapping of inode 7 (descriptor 3) whose first page is resident
    on frame [0x500000]. *)
Definition kernel_shared_file : kernel :=
  {| cur := {| state := RUNNING; pid := 1; sz := 0;
               pgdir := {[ 384 := {[ 0 := 0x500007 ]} ]}; kstack := 0;
               ofile := <[3%nat := Some {| f_ip := 7 |}]> (replicate 16 None);
               memoryMappings := table_of [mapping 0x60000000 4096 2 3];
               num_mappings := 1 |};
     ptable := []; nextpid := 2; kmem := frames;
     phys := {[ 0x80500000 := replicate (Z.to_nat PGSIZE) 7 ]};
     disk := {[ 7 := two_pages ]}; trace := [] |}.

Definition unused_proc : proc :=
  {| state := UNUSED; pid := 0; sz := 0; pgdir := ∅; kstack := 0;
     ofile := replicate 16 None; memoryMappings := empty_table;
     num_mappings := 0 |}.

(** A parent with user memory, which [empty_copyuvm] cannot copy. *)
Definition kernel_big : kernel :=
  {| cur := set_sz_ofile (proc_with []) 4096 (replicate 16 None);
     ptable := [proc_with []; unused_proc]; nextpid := 2; kmem := frames;
     phys := ∅; disk := ∅; trace := [] |}.


(** A parent with inode 7 open as descriptor 3, a private mapping of two
    resident pages, and a free entry in the table. *)
Definition kernel_file_fork : kernel :=
  {| cur := {| state := RUNNING; pid := 1; sz := 0;
               pgdir := {[ 384 := {[ 0 := 0x500007; 1 := 0x501007 ]} ]};
               kstack := 0;
               ofile := <[3%nat := Some {| f_ip := 7 |}]> (replicate 16 None);
               memoryMappings := table_of [anon 0x60000000 8192];
               num_mappings := 1 |};
     ptable := [unused_proc]; nextpid := 2; kmem := frames; phys := ∅;
     disk := {[ 7 := two_pages ]}; trace := [] |}.

Definition slot_of_state (st : procstate) (p c par : Z) : slot :=
  {| entry := set_pid (set_state unused_proc st) p; killed := 0; chan := c;
     parent := par |}.

End Examples.

(** * Properties of the model *)

(** ** Specification vocabulary *)

Lemma PGROUNDUP_div x : PGROUNDUP x = PGSIZE * ((x + PGSIZE - 1) / PGSIZE).
Proof.
  unfold PGROUNDUP, PGSIZE.
  change (4096 - 1) with (Z.ones 12).
  rewrite <- Z.ldiff_land, Z.ldiff_ones_r by lia.
  rewrite Z.shiftl_mul_pow2, Z.shiftr_div_pow2 by lia.
  change (2 ^ 12) with 4096. lia.
Qed.

Lemma PGROUNDDOWN_div x : PGROUNDDOWN x = PGSIZE * (x / PGSIZE).
Proof.
  unfold PGROUNDDOWN, PGSIZE.
  change (4096 - 1) with (Z.ones 12).
  rewrite <- Z.ldiff_land, Z.ldiff_ones_r by lia.
  rewrite Z.shiftl_mul_pow2, Z.shiftr_div_pow2 by lia.
  change (2 ^ 12) with 4096. lia.
Qed.

Lemma PGROUNDUP_pos x : 0 < x -> x <= PGROUNDUP x < x + PGSIZE.
Proof.
  intros Hx. rewrite PGROUNDUP_div. unfold PGSIZE.
  pose proof (Z.div_mod (x + 4096 - 1) 4096 ltac:(lia)).
  pose proof (Z.mod_pos_bound (x + 4096 - 1) 4096 ltac:(lia)). lia.
Qed.

Lemma u32_small x : 0 <= x < 2 ^ 32 -> u32 x = x.
Proof. intros. unfold u32. apply Z.mod_small. lia. Qed.

Section Allocator.
Context `{Header} `{Extern}.

Lemma read_mapping_lookup (t : list mem_mapping) (i : nat) m :
  t !! i = Some m -> read_mapping t (Z.of_nat i) = Ret m.
Proof.
  intros Hl. unfold read_mapping.
  destruct (Z.ltb_spec (Z.of_nat i) 0); [lia|].
  by rewrite Nat2Z.id, Hl.
Qed.

Lemma overlap_from_existsb (t : list mem_mapping) addr len (n i : nat) :
  (i + n <= length t)%nat ->
  overlap_from t addr len (Z.of_nat i) n
  = Ret (existsb (ov_test addr len) (take n (drop i t))).
Proof.
  revert i. induction n as [|n IH]; intros i Hn; [done|].
  destruct (lookup_lt_is_Some_2 t i ltac:(lia)) as [m Hm].
  rewrite (drop_S _ _ _ Hm). simpl.
  rewrite (read_mapping_lookup _ _ _ Hm). simpl.
  fold (ov_test addr len m).
  destruct (ov_test addr len m); [done|]. simpl.
  replace (Z.of_nat i + 1) with (Z.of_nat (S i)) by lia.
  apply IH. lia.
Qed.

Lemma ov_test_overlaps addr len m :
  wf_mapping m -> 0 <= addr -> 0 < len -> addr + len < 2 ^ 32 ->
  ov_test addr len m = true <-> overlaps addr len m.
Proof.
  intros (Ha & Hl & Hend) Haddr Hlen Hsum.
  pose proof (PGROUNDUP_pos _ Hl) as Hr.
  unfold ov_test, overlaps.
  rewrite !u32_small by lia.
  rewrite andb_true_iff, Z.ltb_lt, Z.gtb_lt. split.
  - intros [? ?]. exists (Z.max addr (m_addr m)). lia.
  - intros (x & ? & ?). lia.
Qed.

Lemma existsb_overlaps p addr len :
  wf_table p -> 0 <= addr -> 0 < len -> addr + len < 2 ^ 32 ->
  existsb (ov_test addr len) (live p) = false
  <-> Forall (fun m => ~ overlaps addr len m) (live p).
Proof.
  intros [_ Hwf] Ha Hl Hs. induction Hwf as [|m l Hm Hwf IH]; simpl.
  - split; [constructor | done].
  - rewrite orb_false_iff, Forall_cons, IH.
    pose proof (ov_test_overlaps addr len m Hm Ha Hl Hs) as Hov.
    destruct (ov_test addr len m); split; intros [? ?]; split; auto.
    + by intros ?%Hov.
    + exfalso. tauto.
    + intros ?%Hov. done.
Qed.

Lemma overlap_live p addr len :
  wf_table p ->
  overlap_from (memoryMappings p) addr len 0 (Z.to_nat (num_mappings p))
  = Ret (existsb (ov_test addr len) (live p)).
Proof.
  intros [Hn _]. change 0 with (Z.of_nat 0).
  rewrite overlap_from_existsb by (simpl; lia). done.
Qed.

Lemma find_loop_first_fit p len fuel addr :
  wf_table p -> 0 < len < 2 ^ 31 ->
  MMAP_AREA_START <= addr < MMAP_AREA_END + PGSIZE -> addr + len < 2 ^ 32 ->
  addr mod PGSIZE = 0 ->
  MMAP_AREA_END + PGSIZE - addr <= PGSIZE * Z.of_nat fuel ->
  (forall A, A < addr -> ~ fits p len A) ->
  exists r, find_loop fuel p len addr = Ret r
    /\ ((fits p len r /\ forall A, fits p len A -> r <= A)
        \/ (r = 0 /\ forall A, ~ fits p len A)).
Proof.
  intros Hwf Hlen. revert addr.
  induction fuel as [|fuel IH]; intros addr Ha Hsum Hal Hfuel Hbelow.
  { unfold MMAP_AREA_END, PGSIZE in *. lia. }
  simpl. rewrite u32_small by (unfold MMAP_AREA_START in *; lia).
  destruct (Z.leb_spec (addr + len) MMAP_AREA_END) as [Hin|Hout].
  - rewrite overlap_live by done. simpl.
    destruct (existsb (ov_test addr len) (live p)) eqn:Hov.
    + rewrite u32_small
        by (unfold MMAP_AREA_END, MMAP_AREA_START, PGSIZE in *; lia).
      apply IH.
      * unfold MMAP_AREA_END, MMAP_AREA_START, PGSIZE in *; lia.
      * unfold MMAP_AREA_END, MMAP_AREA_START, PGSIZE in *; lia.
      * rewrite <- Hal. unfold PGSIZE.
        rewrite <- (Z.mul_1_l 4096) at 1. by rewrite Z.mod_add.
      * lia.
      * intros A HA Hfit.
        destruct (Z.lt_ge_cases A addr) as [Hlt|Hge]; [by eapply Hbelow|].
        assert (A = addr) as ->.
        { destruct Hfit as (_ & HAal & _).
          unfold PGSIZE in *.
          pose proof (Z.div_mod A 4096 ltac:(lia)).
          pose proof (Z.div_mod addr 4096 ltac:(lia)). lia. }
        destruct Hfit as (_ & _ & _ & Hno).
        apply existsb_overlaps in Hno;
          [congruence | done | unfold MMAP_AREA_START in *; lia | lia | lia].
    + exists addr. split; [done|]. left. split.
      * repeat split; [lia | done | lia |].
        apply existsb_overlaps;
          [done | unfold MMAP_AREA_START in *; lia | lia | lia | done].
      * intros A HA. destruct (Z.lt_ge_cases A addr); [|lia].
        exfalso. by eapply Hbelow.
  - exists 0. split; [done|]. right. split; [done|].
    intros A Hfit. destruct (Z.lt_ge_cases A addr); [by eapply Hbelow|].
    destruct Hfit as (_ & _ & ? & _). lia.
Qed.

(** C9: on a table of descriptors of the data model and for a positive
    [int] length, [find_available_address] returns the smallest page-aligned
    address [A] with [[A, A + len)] inside the arena that overlaps no live
    descriptor's [[addr, addr + PGROUNDUP(length))], or 0 when there is no
    such address; on an empty table it returns [MMAP_AREA_START]. *)
Theorem find_available_address_first_fit (fuel : nat) (p : proc) (len : Z) :
  wf_table p -> 0 < len < 2 ^ 31 ->
  (MMAP_AREA_END - MMAP_AREA_START) / PGSIZE < Z.of_nat fuel ->
  exists r, find_available_address fuel p len = Ret r
    /\ ((fits p len r /\ forall A, fits p len A -> r <= A)
        \/ (r = 0 /\ forall A, ~ fits p len A))
    /\ (num_mappings p = 0 -> len <= MMAP_AREA_END - MMAP_AREA_START ->
        r = MMAP_AREA_START).
Proof.
  intros Hwf Hlen Hfuel.
  change ((MMAP_AREA_END - MMAP_AREA_START) / PGSIZE) with 131072 in Hfuel.
  destruct (find_loop_first_fit p len fuel MMAP_AREA_START Hwf Hlen)
    as (r & Hr & Hspec).
  - unfold MMAP_AREA_START, MMAP_AREA_END, PGSIZE. lia.
  - unfold MMAP_AREA_START. lia.
  - done.
  - unfold MMAP_AREA_START, MMAP_AREA_END, PGSIZE. lia.
  - intros A HA (? & _). lia.
  - exists r. split; [done|]. split; [done|].
    intros Hempty Hroom.
    assert (Hfit : fits p len MMAP_AREA_START).
    { split; [lia|]. split; [done|]. split; [lia|].
      unfold live. rewrite Hempty. constructor. }
    destruct Hspec as [[(Hlo & _) Hmin] | [_ Hnone]].
    + specialize (Hmin _ Hfit). lia.
    + by destruct (Hnone _ Hfit).
Qed.
End Allocator.

Section Mmap.
Context `{Header} `{Extern}.

Lemma s32_small x : - 2 ^ 31 <= x < 2 ^ 31 -> s32 x = x.
Proof. intros. unfold s32. rewrite Z.mod_small; lia. Qed.

Lemma s32_high x : 2 ^ 31 <= x < 2 ^ 32 -> s32 x = x - 2 ^ 32.
Proof.
  intros. unfold s32.
  replace (x + 2 ^ 31) with (x - 2 ^ 31 + 1 * 2 ^ 32) by lia.
  rewrite Z.mod_add, Z.mod_small; lia.
Qed.

Lemma u32_range x : 0 <= u32 x < 2 ^ 32.
Proof. unfold u32. apply Z.mod_pos_bound. lia. Qed.

(** The hint test of line 152, made on [int]s, decides the arena bounds of
    the address. *)
Lemma hint_test addr :
  0 <= addr < 2 ^ 32 ->
  (s32 addr <? s32 MMAP_AREA_START)
  || (s32 addr >? s32 (u32 (MMAP_AREA_END - PGSIZE)))
  || negb (Z.rem (s32 addr) PGSIZE =? 0) = true
  <-> (addr < MMAP_AREA_START \/ MMAP_AREA_END - PGSIZE < addr
       \/ addr mod PGSIZE <> 0).
Proof.
  intros Hr.
  change (s32 MMAP_AREA_START) with MMAP_AREA_START.
  change (s32 (u32 (MMAP_AREA_END - PGSIZE))) with (MMAP_AREA_END - PGSIZE).
  rewrite !orb_true_iff, Z.ltb_lt, Z.gtb_lt, negb_true_iff, Z.eqb_neq.
  unfold MMAP_AREA_START, MMAP_AREA_END, PGSIZE.
  destruct (Z.lt_ge_cases addr (2 ^ 31)) as [Hlo|Hhi].
  - rewrite s32_small by lia. rewrite Z.rem_mod_nonneg by lia. tauto.
  - rewrite s32_high by lia. split; [lia|]. intros _. left. left. lia.
Qed.

(** A call that passes every validation and is given a place stores its
    descriptor in slot [num_mappings] and returns the address. *)
Lemma sys_mmap_placed (fuel : nat) (a len prot flags fd offset : Z)
    (new_mapping0 : mem_mapping) (k : kernel) (A : Z) (f : file) :
  has flags MAP_SHARED || has flags MAP_PRIVATE = true ->
  0 < len ->
  (u32 a = 0 \/ (MMAP_AREA_START <= u32 a <= MMAP_AREA_END - PGSIZE
                 /\ u32 a mod PGSIZE = 0)) ->
  (if has flags MAP_ANONYMOUS then fd = -1 /\ offset = 0
   else 0 <= fd < NOFILE /\ ofile (cur k) !! Z.to_nat fd = Some (Some f)) ->
  (has flags MAP_FIXED = true -> u32 a <> 0) ->
  mmap_place fuel (cur k) (u32 a) len flags A ->
  0 <= num_mappings (cur k) < Z.of_nat (length (memoryMappings (cur k))) ->
  0 <= A < 2 ^ 31 -> num_mappings (cur k) < 2 ^ 31 - 1 ->
  sys_mmap fuel [a; len; prot; flags; fd; offset] new_mapping0 k
  = Ret (A, mmap_appended k
              {| m_addr := A; m_length := len; m_originalLength := len;
                 m_flags := flags; m_prot := m_prot new_mapping0;
                 m_fd := fd; m_offset := m_offset new_mapping0;
                 m_allocated := m_allocated new_mapping0 |}).
Proof.
  intros Hsp Hlen Haddr Hfd Hfix Hplace Hnum HA Hn31.
  pose proof (u32_range a) as Hu.
  pose proof (hint_test (u32 a) Hu) as Hhint.
  unfold sys_mmap, argint. cbn [lookup list_lookup].
  destruct (Z.leb_spec len 0) as [|_]; [lia|].
  assert (Hh : negb (u32 a =? 0)
               && ((s32 (u32 a) <? s32 MMAP_AREA_START)
                   || (s32 (u32 a) >? s32 (u32 (MMAP_AREA_END - PGSIZE)))
                   || negb (Z.rem (s32 (u32 a)) PGSIZE =? 0)) = false).
  { destruct Haddr as [->|[? ?]]; [done|].
    apply andb_false_iff. right. apply not_true_is_false.
    intros Hx%Hhint. lia. }
  rewrite Hh, Hsp. cbn [negb].
  assert (Hfx : has flags MAP_FIXED
                && ((u32 a =? 0) || negb (u32 a mod PGSIZE =? 0)) = false).
  { destruct (has flags MAP_FIXED); [|done]. simpl.
    specialize (Hfix eq_refl).
    destruct Haddr as [?|[_ ->]]; [done|].
    by destruct (Z.eqb_spec (u32 a) 0). }
  unfold mmap_place in Hplace.
  assert (Hw : write_mapping (memoryMappings (cur k)) (num_mappings (cur k))
                 {| m_addr := A; m_length := len; m_originalLength := len;
                    m_flags := flags; m_prot := m_prot new_mapping0;
                    m_fd := fd; m_offset := m_offset new_mapping0;
                    m_allocated := m_allocated new_mapping0 |}
               = Ret (<[Z.to_nat (num_mappings (cur k)) :=
                        {| m_addr := A; m_length := len; m_originalLength := len;
                           m_flags := flags; m_prot := m_prot new_mapping0;
                           m_fd := fd; m_offset := m_offset new_mapping0;
                           m_allocated := m_allocated new_mapping0 |}]>
                        (memoryMappings (cur k)))).
  { unfold write_mapping.
    destruct (Z.ltb_spec (num_mappings (cur k)) 0); [lia|].
    destruct (Z.leb_spec (Z.of_nat (length (memoryMappings (cur k))))
                (num_mappings (cur k))); [lia|]. done. }
  assert (Hfin : forall t,
    Ret (s32 A, set_cur k (set_mappings (cur k) t (s32 (num_mappings (cur k) + 1))))
    = Ret (A, set_cur k (set_mappings (cur k) t (num_mappings (cur k) + 1)))).
  { intros t. rewrite !s32_small by lia. done. }
  destruct (has flags MAP_ANONYMOUS) eqn:Han; simpl.
  + destruct Hfd as [-> ->]. simpl. rewrite Hfx. simpl.
    destruct (has flags MAP_FIXED) eqn:Hf; simpl.
    * subst A. rewrite Hw. simpl. apply Hfin.
    * destruct Hplace as [-> HA0]. simpl.
      destruct (Z.eqb_spec A 0); [done|]. rewrite Hw. simpl. apply Hfin.
  + rewrite Hfx. simpl. destruct Hfd as [[? ?] Hof].
    destruct (Z.ltb_spec fd 0); [lia|].
    destruct (Z.geb_spec fd NOFILE); [lia|]. simpl.
    unfold read_ofile. destruct (Z.ltb_spec fd 0); [lia|].
    rewrite Hof. simpl.
    destruct (has flags MAP_FIXED) eqn:Hf; simpl.
    * subst A. rewrite Hw. simpl. apply Hfin.
    * destruct Hplace as [-> HA0]. simpl.
      destruct (Z.eqb_spec A 0); [done|]. rewrite Hw. simpl. apply Hfin.
Qed.

(** C10: an [mmap] call that fails one of the validations returns -1 and
    leaves the whole kernel state, so the table and its count, unchanged; a
    call with both [MAP_SHARED] and [MAP_PRIVATE] set that passes the other
    validations is placed and recorded. *)
Theorem sys_mmap_validation (fuel : nat) (a len prot flags fd offset : Z)
    (new_mapping0 : mem_mapping) (k : kernel) :
  let argv := [a; len; prot; flags; fd; offset] in
  (mmap_invalid (cur k) (u32 a) len flags fd offset ->
   sys_mmap fuel argv new_mapping0 k = Ret (-1, k))
  /\ (forall A f,
        has flags MAP_SHARED = true -> has flags MAP_PRIVATE = true ->
        0 < len ->
        (u32 a = 0 \/ (MMAP_AREA_START <= u32 a <= MMAP_AREA_END - PGSIZE
                       /\ u32 a mod PGSIZE = 0)) ->
        (if has flags MAP_ANONYMOUS then fd = -1 /\ offset = 0
         else 0 <= fd < NOFILE /\ ofile (cur k) !! Z.to_nat fd = Some (Some f)) ->
        (has flags MAP_FIXED = true -> u32 a <> 0) ->
        mmap_place fuel (cur k) (u32 a) len flags A ->
        0 <= num_mappings (cur k) < Z.of_nat (length (memoryMappings (cur k))) ->
        0 <= A < 2 ^ 31 -> num_mappings (cur k) < 2 ^ 31 - 1 ->
        sys_mmap fuel argv new_mapping0 k
        = Ret (A, mmap_appended k
                    {| m_addr := A; m_length := len; m_originalLength := len;
                       m_flags := flags; m_prot := m_prot new_mapping0;
                       m_fd := fd; m_offset := m_offset new_mapping0;
                       m_allocated := m_allocated new_mapping0 |})).
Proof.
  intros argv. subst argv.
  pose proof (u32_range a) as Hu.
  pose proof (hint_test (u32 a) Hu) as Hhint.
  unfold sys_mmap, argint. simpl. split.
  - intros Hbad.
    destruct (Z.leb_spec len 0) as [|Hlen]; [done|].
    destruct Hbad as [?|Hbad]; [lia|].
    destruct (u32 a =? 0) eqn:Ha0; simpl.
    + apply Z.eqb_eq in Ha0.
      destruct Hbad as [[? _]|Hbad]; [done|].
      destruct (has flags MAP_SHARED) eqn:Hs, (has flags MAP_PRIVATE) eqn:Hp; simpl;
        try done;
        (destruct Hbad as [[? ?]|Hbad]; [done|]);
        (destruct (has flags MAP_ANONYMOUS) eqn:Han; simpl;
         [ destruct (Z.eqb_spec fd (-1)), (Z.eqb_spec offset 0); simpl; try done;
           destruct Hbad as [[_ [?|?]]|Hbad]; try done
         | destruct Hbad as [[? _]|Hbad]; [done|] ]);
        (destruct (has flags MAP_FIXED) eqn:Hf; simpl; [done|]);
        (destruct Hbad as [[? _]|Hbad]; [done|]);
        destruct Hbad as [? Hfd]; try done;
        (destruct (Z.ltb_spec fd 0); simpl; [done|]);
        (destruct (Z.geb_spec fd NOFILE); simpl; [done|]);
        (destruct Hfd as [?|[?|Hfd]]; [lia|lia|]);
        unfold read_ofile;
        (destruct (Z.ltb_spec fd 0); [lia|]);
        by rewrite Hfd.
    + apply Z.eqb_neq in Ha0.
      destruct (_ || _ || _) eqn:Hh in |- *; simpl; [done|].
      assert (Hok : ~ (u32 a < MMAP_AREA_START \/ MMAP_AREA_END - PGSIZE < u32 a
                       \/ u32 a mod PGSIZE <> 0)).
      { intros Hx%Hhint. congruence. }
      destruct Hbad as [[_ ?]|Hbad]; [done|].
      destruct (has flags MAP_SHARED) eqn:Hs, (has flags MAP_PRIVATE) eqn:Hp; simpl;
        try done;
        (destruct Hbad as [[? ?]|Hbad]; [done|]);
        (destruct (has flags MAP_ANONYMOUS) eqn:Han; simpl;
         [ destruct (Z.eqb_spec fd (-1)), (Z.eqb_spec offset 0); simpl; try done;
           destruct Hbad as [[_ [?|?]]|Hbad]; try done
         | destruct Hbad as [[? _]|Hbad]; [done|] ]);
        (destruct (has flags MAP_FIXED) eqn:Hf; simpl;
         [ destruct (Z.eqb_spec (u32 a mod PGSIZE) 0); simpl; [|done];
           destruct Hbad as [[_ [?|?]]|Hbad]; try done
         | destruct Hbad as [[? _]|Hbad]; [done|] ]);
        destruct Hbad as [? Hfd]; try done;
        (destruct (Z.ltb_spec fd 0); simpl; [done|]);
        (destruct (Z.geb_spec fd NOFILE); simpl; [done|]);
        (destruct Hfd as [?|[?|Hfd]]; [lia|lia|]);
        unfold read_ofile;
        (destruct (Z.ltb_spec fd 0); [lia|]);
        by rewrite Hfd.
  - intros A f Hs Hp Hlen Haddr Hfd Hfix Hplace Hnum HA Hn31.
    destruct (Z.leb_spec len 0) as [|_]; [lia|].
    assert (Hh : negb (u32 a =? 0)
                 && ((s32 (u32 a) <? s32 MMAP_AREA_START)
                     || (s32 (u32 a) >? s32 (u32 (MMAP_AREA_END - PGSIZE)))
                     || negb (Z.rem (s32 (u32 a)) PGSIZE =? 0)) = false).
    { destruct Haddr as [->|[? ?]]; [done|].
      apply andb_false_iff. right. apply not_true_is_false.
      intros Hx%Hhint. lia. }
    rewrite Hh, Hs. simpl.
    assert (Hfx : has flags MAP_FIXED
                  && ((u32 a =? 0) || negb (u32 a mod PGSIZE =? 0)) = false).
    { destruct (has flags MAP_FIXED); [|done]. simpl.
      specialize (Hfix eq_refl).
      destruct Haddr as [?|[_ ->]]; [done|].
      by destruct (Z.eqb_spec (u32 a) 0). }
    unfold mmap_place in Hplace.
    assert (Hw : write_mapping (memoryMappings (cur k)) (num_mappings (cur k))
                   {| m_addr := A; m_length := len; m_originalLength := len;
                      m_flags := flags; m_prot := m_prot new_mapping0;
                      m_fd := fd; m_offset := m_offset new_mapping0;
                      m_allocated := m_allocated new_mapping0 |}
                 = Ret (<[Z.to_nat (num_mappings (cur k)) :=
                          {| m_addr := A; m_length := len; m_originalLength := len;
                             m_flags := flags; m_prot := m_prot new_mapping0;
                             m_fd := fd; m_offset := m_offset new_mapping0;
                             m_allocated := m_allocated new_mapping0 |}]>
                          (memoryMappings (cur k)))).
    { unfold write_mapping.
      destruct (Z.ltb_spec (num_mappings (cur k)) 0); [lia|].
      destruct (Z.leb_spec (Z.of_nat (length (memoryMappings (cur k))))
                  (num_mappings (cur k))); [lia|]. done. }
    assert (Hfin : forall t,
      Ret (s32 A, set_cur k (set_mappings (cur k) t (s32 (num_mappings (cur k) + 1))))
      = Ret (A, set_cur k (set_mappings (cur k) t (num_mappings (cur k) + 1)))).
    { intros t. rewrite !s32_small by lia. done. }
    destruct (has flags MAP_ANONYMOUS) eqn:Han; simpl.
    + destruct Hfd as [-> ->]. simpl. rewrite Hfx. simpl.
      destruct (has flags MAP_FIXED) eqn:Hf; simpl.
      * subst A. rewrite Hw. simpl. apply Hfin.
      * destruct Hplace as [-> HA0]. simpl.
        destruct (Z.eqb_spec A 0); [done|]. rewrite Hw. simpl. apply Hfin.
    + rewrite Hfx. simpl. destruct Hfd as [[? ?] Hof].
      destruct (Z.ltb_spec fd 0); [lia|].
      destruct (Z.geb_spec fd NOFILE); [lia|]. simpl.
      unfold read_ofile. destruct (Z.ltb_spec fd 0); [lia|].
      rewrite Hof. simpl.
      destruct (has flags MAP_FIXED) eqn:Hf; simpl.
      * subst A. rewrite Hw. simpl. apply Hfin.
      * destruct Hplace as [-> HA0]. simpl.
        destruct (Z.eqb_spec A 0); [done|]. rewrite Hw. simpl. apply Hfin.
Qed.
End Mmap.

Lemma has_pow2 x b : 0 <= b -> has x (2 ^ b) = Z.testbit x b.
Proof.
  intros Hb. unfold has.
  destruct (Z.testbit x b) eqn:Hx.
  - apply negb_true_iff, Z.eqb_neq. intros H0.
    assert (Hbit : Z.testbit (Z.land x (2 ^ b)) b = true).
    { by rewrite Z.land_spec, Hx, Z.pow2_bits_true. }
    rewrite H0, Z.bits_0 in Hbit. done.
  - apply negb_false_iff, Z.eqb_eq. apply Z.bits_inj'. intros i Hi.
    rewrite Z.land_spec, Z.bits_0, Z.pow2_bits_eqb by done.
    destruct (Z.eqb_spec b i) as [->|]; [by rewrite Hx | apply andb_false_r].
Qed.

Lemma testbit_high x i : 0 <= x < 2 ^ 32 -> 32 <= i -> Z.testbit x i = false.
Proof.
  intros Hx Hi. rewrite <- (Z.mod_small x (2 ^ 32)) by done.
  apply Z.mod_pow2_bits_high. lia.
Qed.

Lemma testbit_aligned x i : x mod PGSIZE = 0 -> 0 <= i < 12 -> Z.testbit x i = false.
Proof.
  intros Hx Hi. unfold PGSIZE in Hx.
  pose proof (Z.div_mod x 4096 ltac:(lia)) as Hd.
  rewrite Hd, Hx, Z.add_0_r, Z.mul_comm.
  change 4096 with (2 ^ 12). apply Z.mul_pow2_bits_low. lia.
Qed.

Section Cow.
Context `{Header} `{Extern}.

Lemma has_PTE_COW x : has x PTE_COW = Z.testbit x PTE_COW_bit.
Proof. pose proof PTE_COW_software. apply has_pow2. lia. Qed.

Lemma has_PTE_W x : has x PTE_W = Z.testbit x 1.
Proof. change PTE_W with (2 ^ 1). by apply has_pow2. Qed.

Lemma has_PTE_P x : has x PTE_P = Z.testbit x 0.
Proof. change PTE_P with (2 ^ 0). by apply has_pow2. Qed.

Lemma walkpgdir_noalloc pd fl va :
  walkpgdir pd fl va false
  = (match pd !! PDX va with
     | Some _ => Some (PDX va, PTX va)
     | None => None
     end, pd, fl).
Proof. unfold walkpgdir. by destruct (pd !! PDX va). Qed.

Lemma lookup_pte_Some pd va pte :
  lookup_pte pd va = Some pte ->
  is_Some (pd !! PDX va) /\ pte = pte_read pd (PDX va, PTX va).
Proof.
  unfold lookup_pte. rewrite walkpgdir_noalloc.
  destruct (pd !! PDX va) eqn:E; [|done].
  intros [= <-]. eauto.
Qed.

Lemma lookup_pte_write pd va v :
  is_Some (pd !! PDX va) ->
  lookup_pte (pte_write pd (PDX va, PTX va) v) va = Some v.
Proof.
  intros [pt Hpt]. unfold lookup_pte, pte_write. cbn [fst snd]. rewrite Hpt.
  rewrite walkpgdir_noalloc, lookup_insert_eq.
  unfold pte_read. cbn [fst snd]. by rewrite !lookup_insert_eq.
Qed.

Lemma V2P_frame mem :
  KERNBASE <= mem < 2 ^ 32 -> mem mod PGSIZE = 0 ->
  0 <= V2P mem < 2 ^ 32 /\ V2P mem mod PGSIZE = 0.
Proof.
  intros Hm Hal. unfold V2P. rewrite u32_small by (unfold KERNBASE in *; lia).
  split; [unfold KERNBASE in *; lia|].
  unfold KERNBASE, PGSIZE in *.
  replace (mem - 0x80000000) with (mem + (-524288) * 4096) by lia.
  by rewrite Z.mod_add.
Qed.

Lemma cow_entry_bits mem pte i :
  KERNBASE <= mem < 2 ^ 32 -> mem mod PGSIZE = 0 -> 0 <= i ->
  Z.testbit (cow_entry mem pte) i
  = if i <? 12 then (Z.testbit pte i || (i =? 1)) && negb (i =? PTE_COW_bit)
    else Z.testbit (V2P mem) i.
Proof.
  intros Hm Hal Hi. pose proof PTE_COW_software as Hb.
  destruct (V2P_frame mem Hm Hal) as [Hv Hva].
  unfold cow_entry, PTE_FLAGS, PTE_COW.
  change 0xFFF with (Z.ones 12). change PTE_W with (2 ^ 1).
  rewrite Z.land_spec, Z.lnot_spec, !Z.lor_spec, Z.land_spec by done.
  rewrite Z.testbit_ones, !Z.pow2_bits_eqb by lia.
  destruct (Z.ltb_spec i 12).
  - rewrite (testbit_aligned (V2P mem)) by (done || lia).
    rewrite (Z.eqb_sym 1 i), (Z.eqb_sym PTE_COW_bit i).
    destruct (Z.leb_spec 0 i); [|lia].
    by rewrite orb_false_l, andb_true_l, andb_true_r.
  - destruct (Z.eqb_spec 1 i); [lia|]. destruct (Z.eqb_spec PTE_COW_bit i); [lia|].
    by rewrite !andb_false_r, !orb_false_r, andb_true_r.
Qed.

Lemma cow_fault_run (buffer0 : list Z) (va : Z) (k : kernel) (pte mem : Z)
    (fl : list Z) :
  lookup_pte (pgdir (cur k)) va = Some pte ->
  has pte PTE_COW = true -> has pte PTE_W = false -> kmem k = mem :: fl ->
  page_fault_handler buffer0 va k = Ret (1, cow_resolved k va pte mem fl).
Proof.
  intros Hpte HC HW Hfl.
  destruct (lookup_pte_Some _ _ _ Hpte) as [[pt Hpt] Hrd].
  unfold page_fault_handler. rewrite walkpgdir_noalloc.
  rewrite Hpt, <- Hrd, HC, HW. cbn [andb negb].
  unfold cow_fault, kalloc. rewrite Hfl. done.
Qed.

(** C7: a fault on a present entry with [PTE_COW] set and [PTE_W] clear
    takes a frame from the free list, copies the old frame into it, makes the
    entry point at the new frame with the old flags, [PTE_W] set and
    [PTE_COW] clear, flushes the TLB and returns 1. *)
Theorem cow_fault_copies (buffer0 : list Z) (va : Z) (k : kernel)
    (pte mem : Z) (fl : list Z) :
  lookup_pte (pgdir (cur k)) va = Some pte ->
  has pte PTE_P = true -> has pte PTE_COW = true -> has pte PTE_W = false ->
  kmem k = mem :: fl -> KERNBASE <= mem < 2 ^ 32 -> mem mod PGSIZE = 0 ->
  exists k' pte',
    page_fault_handler buffer0 va k = Ret (1, k')
    /\ kmem k' = fl
    /\ frame (phys k') mem = frame (phys k) (P2V (PTE_ADDR pte))
    /\ lookup_pte (pgdir (cur k')) va = Some pte'
    /\ PTE_ADDR pte' = V2P mem
    /\ PTE_FLAGS pte' = Z.land (Z.lor (PTE_FLAGS pte) PTE_W) (Z.lnot PTE_COW)
    /\ has pte' PTE_W = true /\ has pte' PTE_COW = false
    /\ trace k' = Elcr3 (pid (cur k)) :: trace k
    /\ memoryMappings (cur k') = memoryMappings (cur k)
    /\ num_mappings (cur k') = num_mappings (cur k).
Proof.
  intros Hpte HP HC HW Hfl Hm Hal.
  pose proof PTE_COW_software as Hb.
  destruct (lookup_pte_Some _ _ _ Hpte) as [Hdir Hrd].
  destruct (V2P_frame mem Hm Hal) as [Hv Hva].
  assert (Hbits := fun i => cow_entry_bits mem pte i Hm Hal).
  unfold page_fault_handler. rewrite walkpgdir_noalloc.
  destruct Hdir as [pt Hpt]. rewrite Hpt, <- Hrd, HC, HW. cbn [andb negb].
  unfold cow_fault, kalloc. rewrite Hfl.
  fold (cow_entry mem pte).
  eexists _, (cow_entry mem pte). split; [reflexivity|].
  cbn [kmem phys cur pgdir trace memoryMappings num_mappings pid
       log set_cur set_phys set_kmem set_pgdir].
  split; [done|]. split.
  { unfold frame. by rewrite lookup_insert_eq. }
  split. { apply lookup_pte_write. eauto. }
  split.
  { apply Z.bits_inj'. intros i Hi. unfold PTE_ADDR.
    change (Z.lxor 0xFFF 0xFFFFFFFF) with (Z.lxor (Z.ones 12) (Z.ones 32)).
    rewrite Z.land_spec, Z.lxor_spec, !Z.testbit_ones, Hbits by lia.
    destruct (Z.leb_spec 0 i); [|lia]. simpl.
    destruct (Z.ltb_spec i 12), (Z.ltb_spec i 32); try lia; simpl.
    - rewrite andb_false_r. symmetry. apply testbit_aligned; [done|lia].
    - apply andb_true_r.
    - rewrite andb_false_r. symmetry. apply testbit_high; [done|lia]. }
  split.
  { apply Z.bits_inj'. intros i Hi. unfold PTE_FLAGS, PTE_COW.
    change 0xFFF with (Z.ones 12). change PTE_W with (2 ^ 1).
    rewrite !Z.land_spec, Z.lnot_spec, Z.lor_spec, Z.land_spec by done.
    rewrite Z.testbit_ones, !Z.pow2_bits_eqb, Hbits by lia.
    rewrite (Z.eqb_sym 1 i), (Z.eqb_sym PTE_COW_bit i).
    destruct (Z.leb_spec 0 i); [|lia]. rewrite andb_true_l.
    destruct (Z.ltb_spec i 12); simpl.
    - by rewrite !andb_true_r.
    - rewrite !andb_false_r. simpl.
      destruct (Z.eqb_spec i 1); [lia|]. done. }
  split.
  { rewrite has_PTE_W, Hbits by lia.
    destruct (Z.ltb_spec 1 12); [|lia].
    destruct (Z.eqb_spec 1 PTE_COW_bit); [lia|].
    change (1 =? 1) with true. by rewrite orb_true_r. }
  split; [|done].
  rewrite has_PTE_COW, Hbits by lia.
  destruct (Z.ltb_spec PTE_COW_bit 12); [|lia].
  rewrite Z.eqb_refl. apply andb_false_r.
Qed.
End Cow.

Lemma lookup_pte_at pd va : lookup_pte pd va = pte_at pd (slot_of va).
Proof.
  unfold lookup_pte, pte_at, slot_of, pte_read. rewrite walkpgdir_noalloc. cbn [fst snd].
  destruct (pd !! PDX va) eqn:E; cbn [fst snd]; by rewrite ?E.
Qed.

Lemma pte_read_at pd sl e : pte_at pd sl = Some e -> pte_read pd sl = e.
Proof. unfold pte_at, pte_read. destruct (pd !! sl.1); by intros [= <-]. Qed.

Lemma pte_at_write pd sl v sl' :
  is_Some (pd !! sl.1) ->
  pte_at (pte_write pd sl v) sl' = if decide (sl' = sl) then Some v else pte_at pd sl'.
Proof.
  intros [pt Hpt]. unfold pte_at, pte_write. rewrite Hpt.
  destruct sl as [d t], sl' as [d' t']. cbn [fst snd] in *.
  destruct (decide (d = d')) as [<-|Hd].
  - rewrite lookup_insert_eq, Hpt.
    destruct (decide (t = t')) as [<-|Ht].
    + rewrite lookup_insert_eq. by rewrite decide_True.
    + rewrite lookup_insert_ne by done. rewrite decide_False by congruence. done.
  - rewrite lookup_insert_ne by done. rewrite decide_False by congruence. done.
Qed.

Lemma walkpgdir_create pd fl va sl pd' fl' :
  walkpgdir pd fl va true = (Some sl, pd', fl') ->
  sl = slot_of va /\ is_Some (pd' !! sl.1)
  /\ forall sl', pte_at pd' sl' = pte_at pd sl'
                \/ (pte_at pd sl' = None /\ pte_at pd' sl' = Some 0).
Proof.
  unfold walkpgdir. destruct (pd !! PDX va) eqn:E.
  - intros [= <- <- <-]. cbn [fst snd slot_of]. rewrite E. eauto.
  - destruct fl as [|a fl0]; [done|]. intros Heq.
    apply pair_equal_spec in Heq as [Heq <-].
    apply pair_equal_spec in Heq as [Heq <-].
    apply (inj Some) in Heq as <-. cbn [fst snd slot_of].
    rewrite lookup_insert_eq. split; [done|]. split; [eauto|].
    intros [d t]. unfold pte_at. cbn [fst snd].
    destruct (decide (PDX va = d)) as [<-|Hd].
    + right. by rewrite E, lookup_insert_eq, lookup_empty.
    + left. by rewrite lookup_insert_ne.
Qed.

Lemma slot_of_page va A :
  A mod PGSIZE = 0 -> A <= va < A + PGSIZE -> slot_of va = slot_of A.
Proof.
  intros HA Hva. unfold PGSIZE in *.
  assert (Hq : va / 2 ^ 12 = A / 2 ^ 12).
  { change (2 ^ 12) with 4096.
    pose proof (Z.div_mod A 4096 ltac:(lia)).
    symmetry. apply (Z.div_unique va 4096 (A / 4096) (va - A)); lia. }
  unfold slot_of, PDX, PTX. rewrite !Z.shiftr_div_pow2 by lia.
  change (2 ^ 22) with (2 ^ 12 * 2 ^ 10).
  rewrite <- !Z.div_div by lia. by rewrite Hq.
Qed.

Section Fork.
Context `{Hdr : Header} `{Ext : Extern}.










Lemma write_mapping_Ret (t : list mem_mapping) i m t' :
  write_mapping t i m = Ret t' ->
  0 <= i < Z.of_nat (length t) /\ t' = <[Z.to_nat i := m]> t.
Proof.
  unfold write_mapping.
  destruct (Z.ltb_spec i 0); [done|].
  destruct (Z.leb_spec (Z.of_nat (length t)) i); [done|].
  intros [= <-]. split; [lia|done].
Qed.



(** ** [fork] returns *)

(** What a successful [allocproc] did. *)
Lemma allocproc_Some k j k1 :
  allocproc k = (Some j, k1) ->
  exists p ks fl,
    list_find (fun p => state p = UNUSED) (ptable k) = Some (j, p)
    /\ kmem k = ks :: fl
    /\ ptable k1 = <[j := set_kstack (set_pid (set_state p EMBRYO) (nextpid k)) ks]>
                     (ptable k)
    /\ kmem k1 = fl /\ nextpid k1 = s32 (nextpid k + 1)
    /\ cur k1 = cur k /\ phys k1 = phys k /\ disk k1 = disk k /\ trace k1 = trace k.
Proof.
  unfold allocproc.
  destruct (list_find _ (ptable k)) as [[j' p]|] eqn:Hf; [|done].
  unfold kalloc. cbn [kmem set_ptable].
  destruct (kmem k) as [|ks fl] eqn:Hk; [done|].
  intros Heq. apply pair_equal_spec in Heq as [Hj <-].
  apply (inj Some) in Hj as ->.
  exists p, ks, fl. split; [done|]. split; [done|].
  cbn [ptable kmem nextpid cur phys disk trace set_ptable set_kmem].
  split; [apply list_insert_insert_eq|]. done.
Qed.

Lemma fork_pages_returns ppid bound (n : nat) :
  forall (fuel : nat) address (s : fork_st),
  0 <= address -> bound <= 2 ^ 32 - PGSIZE ->
  bound <= address + PGSIZE * Z.of_nat n ->
  (n < fuel)%nat -> (n <= length (st_free s))%nat ->
  exists s',
    fork_pages fuel ppid bound address s = Ret s'
    /\ (length (st_free s) <= length (st_free s') + n)%nat.
Proof.
  induction n as [|n IH]; intros fuel address s Ha Hb Hn Hfuel Hfr;
    (destruct fuel as [|fuel]; [lia|]); cbn [fork_pages].
  { destruct (Z.ltb_spec address bound); [lia|]. exists s. split; [done|lia]. }
  destruct (Z.ltb_spec address bound) as [Hlt|]; [|exists s; split; [done|lia]].
  destruct s as [[[ppd cpd] fl] tr]. cbn [st_free fst snd] in Hfr.
  match goal with |- exists s', (?step ≫= _) = _ /\ _ =>
    assert (Hstep : exists s1,
      step = Ret s1 /\ (length fl <= S (length (st_free s1)))%nat) end.
  { destruct (walkpgdir ppd fl address false) as [[[slot|] ?] ?];
      [|eexists; split; [reflexivity|cbn [st_free fst snd]; lia]].
    destruct (has (pte_read ppd slot) PTE_P);
      [|eexists; split; [reflexivity|cbn [st_free fst snd]; lia]].
    cbv zeta. unfold walkpgdir at 1.
    destruct (cpd !! PDX address).
    - eexists; split; [reflexivity|cbn [st_free fst snd]; lia].
    - destruct fl as [|f fl]; [cbn [length] in Hfr; lia|].
      eexists; split; [reflexivity|cbn [st_free fst snd length]; lia]. }
  destruct Hstep as (s1 & -> & Hfl1). cbn [mbind result_bind].
  rewrite u32_small by (unfold PGSIZE in *; lia).
  destruct (IH fuel (address + PGSIZE) s1) as (s' & -> & Hfl');
    [unfold PGSIZE; lia | done | lia | lia | lia |].
  exists s'. split; [done|]. cbn [st_free fst snd]. lia.
Qed.

Lemma fork_page_count_bound m :
  wf_fork m -> has (m_flags m) MAP_PRIVATE = true ->
  m_addr m + m_length m <= m_addr m + PGSIZE * Z.of_nat (fork_page_count m).
Proof.
  intros _ Hp. unfold fork_page_count. rewrite Hp. unfold PGSIZE.
  destruct (Z.le_gt_cases (m_length m) 0) as [Hle|Hgt]; [lia|].
  rewrite Z2Nat.id by (apply Z.div_pos; lia).
  pose proof (Z.div_mod (m_length m + 4096 - 1) 4096 ltac:(lia)).
  pose proof (Z.mod_pos_bound (m_length m + 4096 - 1) 4096 ltac:(lia)). lia.
Qed.

Lemma fork_mappings_returns fuel ppid (pt : list mem_mapping) n :
  forall (i : nat) (ct : list mem_mapping) (s : fork_st),
  (i + n <= length pt)%nat -> (i + n <= length ct)%nat ->
  (forall j m, (i <= j < i + n)%nat -> pt !! j = Some m ->
     wf_fork m /\ (fork_page_count m < fuel)%nat) ->
  (sum_list (fork_page_count <$> take n (drop i pt)) <= length (st_free s))%nat ->
  exists ct' s', fork_mappings fuel ppid pt (Z.of_nat i) n ct s = Ret (ct', s').
Proof.
  induction n as [|n IH]; intros i ct s Hpt Hct Hwf Hfr; [by eexists _, _|].
  cbn [fork_mappings].
  destruct (lookup_lt_is_Some_2 pt i ltac:(lia)) as [m Hm].
  rewrite (read_mapping_lookup _ _ _ Hm). cbn [mbind result_bind].
  destruct (Hwf i m ltac:(lia) Hm) as [Hm_wf Hm_fuel].
  rewrite (drop_S _ _ _ Hm), firstn_cons, fmap_cons in Hfr.
  cbn [sum_list_with id] in Hfr.
  assert (Hpages : exists s1,
    (if has (m_flags m) MAP_PRIVATE
     then fork_pages fuel ppid (u32 (m_addr m + m_length m)) (m_addr m) s
     else Ret s) = Ret s1
    /\ (length (st_free s) <= length (st_free s1) + fork_page_count m)%nat).
  { destruct (has (m_flags m) MAP_PRIVATE) eqn:Hpriv;
      [|exists s; split; [done|lia]].
    destruct Hm_wf as (Ha & Hal & Hend).
    rewrite u32_small by (unfold PGSIZE in *; lia).
    apply fork_pages_returns; [done | lia | | done | lia].
    apply fork_page_count_bound; [done|done]. }
  destruct Hpages as (s1 & -> & Hfl1). cbn [mbind result_bind].
  unfold write_mapping.
  destruct (Z.ltb_spec (Z.of_nat i) 0); [lia|].
  destruct (Z.leb_spec (Z.of_nat (length ct)) (Z.of_nat i)); [lia|].
  cbn [orb mbind result_bind]. rewrite Nat2Z.id.
  replace (Z.of_nat i + 1) with (Z.of_nat (S i)) by lia.
  apply IH; [lia | rewrite length_insert; lia | | lia].
  intros j mj Hj. apply Hwf. lia.
Qed.

(** With fuel beyond the page count of every private descriptor and a frame
    for every such page, [fork] returns once [allocproc] and [copyuvm] have
    succeeded. *)
Lemma fork_returns (fuel : nat) (k k1 : kernel) (j : nat)
    (cpd0 : pgdir_t) (fl0 : list Z) (ph0 : gmap Z (list Z)) :
  allocproc k = (Some j, k1) ->
  copyuvm (pgdir (cur k)) (sz (cur k)) (kmem k1, phys k1) = Some (cpd0, (fl0, ph0)) ->
  Forall wf_fork (live (cur k)) ->
  0 <= num_mappings (cur k) <= Z.of_nat (length (memoryMappings (cur k))) ->
  (forall np, ptable k !! j = Some np ->
     num_mappings (cur k) <= Z.of_nat (length (memoryMappings np))) ->
  Forall (fun m => (fork_page_count m < fuel)%nat) (live (cur k)) ->
  (sum_list (fork_page_count <$> live (cur k)) <= length fl0)%nat ->
  exists r k', fork fuel k = Ret (r, k').
Proof.
  intros Halloc Hcopy Hwf Hn Hroom Hfuel Hframes.
  destruct (allocproc_Some _ _ _ Halloc)
    as (p & ks & fl & Hf & Hk & Hpt & _).
  apply list_find_Some in Hf as (Hj & _ & _).
  assert (Hlt : (j < length (ptable k))%nat) by by eapply lookup_lt_Some.
  specialize (Hroom _ Hj).
  unfold fork. rewrite Halloc, Hpt, list_lookup_insert_eq by done.
  cbn [num_mappings memoryMappings set_mappings set_kstack set_pid set_state].
  rewrite Hcopy. change 0 with (Z.of_nat 0).
  destruct (fork_mappings_returns fuel (pid (cur k)) (memoryMappings (cur k))
              (Z.to_nat (num_mappings (cur k))) 0 (memoryMappings p)
              (pgdir (cur k), cpd0, fl0, trace k1))
    as (ct & [[[ppd cpd] fl1] tr] & ->).
  - cbn [Nat.add]. lia.
  - cbn [Nat.add]. lia.
  - intros i m Hi Hm.
    assert (Hl : live (cur k) !! i = Some m).
    { unfold live. rewrite lookup_take_lt by lia. done. }
    rewrite Forall_lookup in Hwf. rewrite Forall_lookup in Hfuel. eauto.
  - rewrite drop_0. exact Hframes.
  - cbn [mbind result_bind]. by eexists _, _.
Qed.

End Fork.

Section Fault.
Context `{Hdr : Header} `{Ext : Extern}.

Lemma handler_no_cow buffer0 va k :
  cow_pending (pgdir (cur k)) va = false ->
  page_fault_handler buffer0 va k
  = pf_scan k buffer0 va (num_mappings (cur k)) 0 (Z.to_nat (num_mappings (cur k))).
Proof.
  unfold cow_pending, lookup_pte, page_fault_handler.
  rewrite !walkpgdir_noalloc.
  destruct (pgdir (cur k) !! PDX va); [|done].
  by intros ->.
Qed.

Lemma pf_scan_find_from k buffer0 va num0 (n i : nat) :
  (i + n <= length (memoryMappings (cur k)))%nat ->
  pf_scan k buffer0 va num0 (Z.of_nat i) n
  = match list_find (in_mapping va) (take n (drop i (memoryMappings (cur k)))) with
    | Some (j, map) => pf_found k buffer0 va num0 (Z.of_nat (i + j)) map
    | None => segfault k
    end.
Proof.
  revert i. induction n as [|n IH]; intros i Hn; [done|].
  destruct (lookup_lt_is_Some_2 (memoryMappings (cur k)) i ltac:(lia)) as [m Hm].
  rewrite (drop_S _ _ _ Hm). cbn [pf_scan take list_find].
  rewrite (read_mapping_lookup _ _ _ Hm). cbn [mbind result_bind].
  destruct (decide (in_mapping va m)) as [[Hlo Hhi]|Hno].
  - destruct (Z.geb_spec va (m_addr m)); [|lia].
    destruct (Z.ltb_spec va (u32 (PGROUNDUP (u32 (m_addr m + m_length m))))); [|lia].
    cbn [andb]. by rewrite Nat.add_0_r.
  - assert ((va >=? m_addr m)
            && (va <? u32 (PGROUNDUP (u32 (m_addr m + m_length m)))) = false) as ->.
    { apply not_true_is_false. rewrite andb_true_iff, Z.geb_le, Z.ltb_lt.
      intros [? ?]. apply Hno. by split. }
    replace (Z.of_nat i + 1) with (Z.of_nat (S i)) by lia.
    rewrite IH by lia.
    destruct (list_find (in_mapping va) (take n (drop (S i) (memoryMappings (cur k)))))
      as [[j map]|]; cbn [fmap option_fmap option_map prod_map fst snd id]; [|done].
    by replace (i + S j)%nat with (S i + j)%nat by lia.
Qed.

Lemma pf_scan_find k buffer0 va :
  0 <= num_mappings (cur k) <= Z.of_nat (length (memoryMappings (cur k))) ->
  pf_scan k buffer0 va (num_mappings (cur k)) 0 (Z.to_nat (num_mappings (cur k)))
  = match fault_mapping (cur k) va with
    | Some (i, map) => pf_found k buffer0 va (num_mappings (cur k)) (Z.of_nat i) map
    | None => segfault k
    end.
Proof.
  intros Hn. change 0 with (Z.of_nat 0).
  rewrite pf_scan_find_from by (simpl; lia). done.
Qed.



Lemma fault_mapping_lookup p va i map :
  fault_mapping p va = Some (i, map) ->
  memoryMappings p !! i = Some map /\ in_mapping va map.
Proof.
  unfold fault_mapping, live. intros (Hl & Hin & _)%list_find_Some.
  apply lookup_take_Some in Hl as [Hl _]. done.
Qed.
End Fault.

Section Handler.
Context `{Hdr : Header} `{Ext : Extern}.




(** ** Installing a page *)

Lemma has_lor_P x : 0 <= x -> has (Z.lor x PTE_P) PTE_P = true.
Proof.
  intros _. rewrite has_PTE_P, Z.lor_spec. change PTE_P with 1.
  apply orb_true_r.
Qed.

Lemma walkpgdir_null pd fl va alloc pd' fl' :
  walkpgdir pd fl va alloc = (None, pd', fl') -> pd' = pd /\ fl' = fl.
Proof.
  unfold walkpgdir. destruct (pd !! PDX va); [done|].
  destruct alloc; [destruct fl|]; by intros [= <- <-].
Qed.

Lemma mappages_loop_keeps n :
  forall pd fl a last pa perm rc pd' fl',
  mappages_loop n pd fl a last pa perm = Ret (rc, (pd', fl')) ->
  forall sl e, pte_at pd sl = Some e -> has e PTE_P = true -> pte_at pd' sl = Some e.
Proof.
  induction n as [|n IH]; intros pd fl a last pa perm rc pd' fl' Hrun sl e He HP;
    cbn [mappages_loop] in Hrun;
    destruct (walkpgdir pd fl a true) as [[[slot|] pd1] fl1] eqn:Hw.
  - destruct (walkpgdir_create _ _ _ _ _ _ Hw) as (-> & Hdir & Hcre).
    destruct (has (pte_read pd1 (slot_of a)) PTE_P) eqn:Hp1; [done|].
    destruct (a =? last); [|done]. injection Hrun as <- <- <-.
    assert (H1 : pte_at pd1 sl = Some e).
    { destruct (Hcre sl) as [->|[Hno _]]; [done|congruence]. }
    rewrite pte_at_write by done.
    destruct (decide (sl = slot_of a)) as [->|]; [|done].
    rewrite (pte_read_at _ _ _ H1) in Hp1. congruence.
  - injection Hrun as <- <- <-.
    by destruct (walkpgdir_null _ _ _ _ _ _ Hw) as [-> _].
  - destruct (walkpgdir_create _ _ _ _ _ _ Hw) as (-> & Hdir & Hcre).
    destruct (has (pte_read pd1 (slot_of a)) PTE_P) eqn:Hp1; [done|].
    assert (H1 : pte_at pd1 sl = Some e).
    { destruct (Hcre sl) as [->|[Hno _]]; [done|congruence]. }
    assert (H2 : pte_at (pte_write pd1 (slot_of a) (Z.lor (Z.lor pa perm) PTE_P)) sl
                 = Some e).
    { rewrite pte_at_write by done.
      destruct (decide (sl = slot_of a)) as [->|]; [|done].
      rewrite (pte_read_at _ _ _ H1) in Hp1. congruence. }
    destruct (a =? last).
    + by injection Hrun as <- <- <-.
    + eapply IH; [exact Hrun|exact H2|done].
  - injection Hrun as <- <- <-.
    by destruct (walkpgdir_null _ _ _ _ _ _ Hw) as [-> _].
Qed.

Lemma pgrounddown_page va :
  PGROUNDDOWN va mod PGSIZE = 0 /\ PGROUNDDOWN va <= va < PGROUNDDOWN va + PGSIZE.
Proof.
  rewrite PGROUNDDOWN_div. unfold PGSIZE.
  pose proof (Z.div_mod va 4096 ltac:(lia)).
  pose proof (Z.mod_pos_bound va 4096 ltac:(lia)).
  split; [|lia]. rewrite Z.mul_comm. apply Z.mod_mul. lia.
Qed.

(** When [mappages] succeeds, the entry of [va] is the one asked for. *)
Lemma mappages_installs pd fl va size pa perm pd' fl' :
  mappages pd fl va size pa perm = Ret (0, (pd', fl')) -> 0 <= Z.lor pa perm ->
  lookup_pte pd' va = Some (Z.lor (Z.lor pa perm) PTE_P).
Proof.
  unfold mappages. intros Hrun Hpos.
  destruct (pgrounddown_page va) as [Hal Hin].
  rewrite lookup_pte_at, (slot_of_page va (PGROUNDDOWN va)) by done.
  set (a := PGROUNDDOWN va) in *.
  destruct (Z.to_nat _) as [|n]; cbn [mappages_loop] in Hrun;
    destruct (walkpgdir pd fl a true) as [[[slot|] pd1] fl1] eqn:Hw; try done;
    destruct (walkpgdir_create _ _ _ _ _ _ Hw) as (-> & Hdir & Hcre);
    destruct (has (pte_read pd1 (slot_of a)) PTE_P); try done;
    destruct (a =? _); try done.
  - injection Hrun as <- <-. rewrite pte_at_write by done. by rewrite decide_True.
  - injection Hrun as <- <-. rewrite pte_at_write by done. by rewrite decide_True.
  - eapply mappages_loop_keeps; [exact Hrun| |by apply has_lor_P].
    rewrite pte_at_write by done. by rewrite decide_True.
Qed.

Lemma slot_of_next a :
  0 <= a -> a + PGSIZE < 2 ^ 32 -> slot_of a <> slot_of (a + PGSIZE).
Proof.
  intros Ha Hb Heq. unfold slot_of, PDX, PTX, PGSIZE in *.
  apply pair_equal_spec in Heq as [Hd Ht].
  change 0x3FF with (Z.ones 10) in *.
  rewrite !Z.land_ones, !Z.shiftr_div_pow2 in Hd, Ht by lia.
  change (2 ^ 22) with (2 ^ 12 * 2 ^ 10) in Hd.
  rewrite <- !Z.div_div in Hd by lia.
  change (2 ^ 12) with 4096 in *. change (2 ^ 10) with 1024 in *.
  replace (a + 4096) with (a + 1 * 4096) in Hd, Ht by lia.
  rewrite Z.div_add in Hd, Ht by lia.
  set (q := a / 4096) in *.
  assert (Hq : 0 <= q /\ q + 1 < 1048576).
  { subst q. split; [apply Z.div_pos; lia|].
    assert (a / 4096 < 1048575); [|lia].
    apply Z.div_lt_upper_bound; lia. }
  rewrite (Z.mod_small (q / 1024)) in Hd
    by (split; [apply Z.div_pos; lia | apply Z.div_lt_upper_bound; lia]).
  rewrite (Z.mod_small ((q + 1) / 1024)) in Hd
    by (split; [apply Z.div_pos; lia | apply Z.div_lt_upper_bound; lia]).
  pose proof (Z.div_mod q 1024 ltac:(lia)).
  pose proof (Z.div_mod (q + 1) 1024 ltac:(lia)). lia.
Qed.

Lemma present_at pd va :
  present pd va = false ->
  forall e, pte_at pd (slot_of va) = Some e -> has e PTE_P = false.
Proof.
  unfold present. rewrite lookup_pte_at. intros Hp e He. by rewrite He in Hp.
Qed.

(** One page of [mappages] on an entry that is not present. *)
Lemma mappages_step pd fl a :
  (forall e, pte_at pd (slot_of a) = Some e -> has e PTE_P = false) ->
  fl <> [] ->
  exists pd1 fl1,
    walkpgdir pd fl a true = (Some (slot_of a), pd1, fl1)
    /\ has (pte_read pd1 (slot_of a)) PTE_P = false
    /\ is_Some (pd1 !! (slot_of a).1)
    /\ (length fl <= S (length fl1))%nat
    /\ (forall sl, pte_at pd1 sl = pte_at pd sl
                   \/ (pte_at pd sl = None /\ pte_at pd1 sl = Some 0)).
Proof.
  intros Habs Hfl.
  assert (Hw : exists pd1 fl1,
    walkpgdir pd fl a true = (Some (slot_of a), pd1, fl1)
    /\ (length fl <= S (length fl1))%nat).
  { unfold walkpgdir, slot_of. destruct (pd !! PDX a).
    - eexists _, _. split; [reflexivity|lia].
    - destruct fl as [|f fl]; [done|]. eexists _, _. split; [reflexivity|].
      cbn [length]. lia. }
  destruct Hw as (pd1 & fl1 & Hw & Hlen). exists pd1, fl1.
  destruct (walkpgdir_create _ _ _ _ _ _ Hw) as (_ & Hdir & Hcre).
  split; [done|]. split; [|done].
  destruct Hdir as [pt Hpt].
  assert (Hat : pte_at pd1 (slot_of a) = Some (pte_read pd1 (slot_of a))).
  { unfold pte_at, pte_read. by rewrite Hpt. }
  destruct (Hcre (slot_of a)) as [Heq|[_ Hz]].
  - apply Habs. by rewrite <- Heq.
  - rewrite Hz in Hat. injection Hat as <-. done.
Qed.

(** The one-page install of the handler returns 0 when the entries it
    writes are not present and two frames are left for page tables. *)
Lemma mappages_returns pd fl va pa perm :
  0 <= va -> va + PGSIZE <= 2 ^ 32 ->
  present pd va = false ->
  (va mod PGSIZE <> 0 -> present pd (va + PGSIZE) = false) ->
  (2 <= length fl)%nat ->
  exists pd' fl',
    mappages pd fl va PGSIZE pa perm = Ret (0, (pd', fl'))
    /\ (length fl <= length fl' + 2)%nat.
Proof.
  intros Hva Hend Hp1 Hp2 Hfl. unfold mappages.
  destruct (pgrounddown_page va) as [Hal Hin].
  assert (Hlo : 0 <= PGROUNDDOWN va).
  { rewrite PGROUNDDOWN_div. unfold PGSIZE. apply Z.mul_nonneg_nonneg; [lia|].
    apply Z.div_pos; lia. }
  pose proof (present_at _ _ Hp1) as Ha1.
  rewrite (slot_of_page va (PGROUNDDOWN va)) in Ha1 by done.
  destruct (decide (va mod PGSIZE = 0)) as [Hz|Hnz].
  - (* one page *)
    assert (Hlast : PGROUNDDOWN (u32 (va + PGSIZE - 1)) = PGROUNDDOWN va).
    { rewrite u32_small by (unfold PGSIZE in *; lia).
      rewrite !PGROUNDDOWN_div. unfold PGSIZE in *.
      pose proof (Z.div_mod va 4096 ltac:(lia)).
      rewrite <- (Z.div_unique (va + 4096 - 1) 4096 (va / 4096) 4095) by lia.
      done. }
    rewrite Hlast, Z.sub_diag. change (Z.to_nat (u32 0 / PGSIZE)) with 0%nat.
    cbn [mappages_loop].
    destruct (mappages_step pd fl (PGROUNDDOWN va) Ha1)
      as (pd1 & fl1 & -> & -> & _ & Hlen & _); [intros ->; cbn [length] in Hfl; lia|].
    rewrite Z.eqb_refl. eexists _, _. split; [reflexivity|lia].
  - (* two pages *)
    specialize (Hp2 Hnz).
    assert (Hlast : PGROUNDDOWN (u32 (va + PGSIZE - 1)) = PGROUNDDOWN va + PGSIZE).
    { rewrite u32_small by (unfold PGSIZE in *; lia).
      rewrite !PGROUNDDOWN_div. unfold PGSIZE in *.
      pose proof (Z.div_mod va 4096 ltac:(lia)).
      pose proof (Z.mod_pos_bound va 4096 ltac:(lia)).
      rewrite <- (Z.div_unique (va + 4096 - 1) 4096 (va / 4096 + 1) (va mod 4096 - 1))
        by lia. lia. }
    rewrite Hlast. set (a := PGROUNDDOWN va) in *.
    assert (Hlt : a < va).
    { destruct (Z.eq_dec a va) as [e|]; [|lia]. rewrite e in Hal. done. }
    replace (a + PGSIZE - a) with PGSIZE by lia.
    change (Z.to_nat (u32 PGSIZE / PGSIZE)) with 1%nat.
    pose proof (present_at _ _ Hp2) as Ha2.
    rewrite (slot_of_page (va + PGSIZE) (a + PGSIZE)) in Ha2.
    2:{ rewrite <- Hal. unfold PGSIZE.
        rewrite <- (Z.mul_1_l 4096) at 1. by rewrite Z.mod_add. }
    2:{ lia. }
    pose proof (slot_of_next a Hlo ltac:(lia)) as Hne.
    cbn [mappages_loop].
    destruct (mappages_step pd fl a Ha1)
      as (pd1 & fl1 & -> & -> & Hdir1 & Hlen1 & Hcre1); [intros ->; cbn [length] in Hfl; lia|].
    destruct (Z.eqb_spec a (a + PGSIZE)); [unfold PGSIZE in *; lia|].
    rewrite (u32_small (a + PGSIZE)) by (unfold PGSIZE in *; lia).
    match goal with |- context [walkpgdir ?pd2 fl1 (a + PGSIZE) true] =>
      destruct (mappages_step pd2 fl1 (a + PGSIZE))
        as (pd3 & fl3 & -> & -> & _ & Hlen3 & _) end.
    + intros e. rewrite pte_at_write by done.
      rewrite decide_False by (intros E; by rewrite E in Hne).
      destruct (Hcre1 (slot_of (a + PGSIZE))) as [->|[_ ->]]; [apply Ha2|].
      by intros [= <-].
    + intros ->. cbn [length] in Hlen1. lia.
    + rewrite Z.eqb_refl. eexists _, _. split; [reflexivity|lia].
Qed.


Lemma u32_s32 x : u32 (s32 x) = u32 x.
Proof.
  unfold u32, s32.
  rewrite Zminus_mod_idemp_l.
  replace (x + 2 ^ 31 - 2 ^ 31) with x by lia. done.
Qed.

Lemma u32_sub_s32 x y : u32 (s32 (s32 x - s32 y)) = u32 (x - y).
Proof.
  rewrite u32_s32. unfold u32.
  rewrite Zminus_mod. fold (u32 (s32 x)) (u32 (s32 y)).
  rewrite !u32_s32. unfold u32. by rewrite <- Zminus_mod.
Qed.

(** What a fault resolved on a file-backed descriptor has done: one page
    read from the inode at offset [PGROUNDDOWN(va) - addr], the descriptor's
    [offset] not added, between [begin_op]/[ilock] and [iunlock]/[end_op]; the
    buffer read is the content of the new frame, which [mappages] installs at
    [va]. *)
Lemma file_fault_spec (buffer0 : list Z) (va : Z) (k k' : kernel) (i : nat)
    (map : mem_mapping) :
  cow_pending (pgdir (cur k)) va = false ->
  0 <= num_mappings (cur k) <= Z.of_nat (length (memoryMappings (cur k))) ->
  fault_mapping (cur k) va = Some (i, map) ->
  has (m_flags map) MAP_ANONYMOUS = false ->
  page_fault_handler buffer0 va k = Ret (1, k') ->
  exists f mem fl,
    0 < m_fd map /\ ofile (cur k) !! Z.to_nat (m_fd map) = Some (Some f)
    /\ f_ip f <> 0 /\ kmem k = mem :: fl
    /\ let ip := f_ip f in
       let off := u32 (PGROUNDDOWN va - m_addr map) in
       trace k' = Eend_op :: Eiunlock ip :: Ereadi ip off PGSIZE :: Eilock ip
                  :: Ebegin_op :: trace k
       /\ frame (phys k') mem = (readi (disk k) ip buffer0 off PGSIZE).2
       /\ disk k' = disk k
       /\ (m_addr map mod PGSIZE = 0 -> 0 <= m_addr map -> va < 2 ^ 32 ->
           off = PGROUNDDOWN va - m_addr map)
       /\ (forall pd' fl',
             mappages (pgdir (cur k)) fl va PGSIZE (V2P mem) (Z.lor PTE_W PTE_U)
             = Ret (0, (pd', fl')) ->
             pgdir (cur k') = pd'
             /\ lookup_pte (pgdir (cur k')) va
                = Some (Z.lor (Z.lor (V2P mem) (Z.lor PTE_W PTE_U)) PTE_P)).
Proof.
  intros Hcow Hn Hfind Hanon Hrun.
  destruct (fault_mapping_lookup _ _ _ _ Hfind) as [Hi [Hlo Hhi]].
  rewrite handler_no_cow, pf_scan_find, Hfind in Hrun by done.
  unfold pf_found in Hrun.
  (* the file *)
  fold (ip_of k map) in Hrun.
  assert (Hfile :
    (exists f, 0 < m_fd map
       /\ ofile (cur k) !! Z.to_nat (m_fd map) = Some (Some f)
       /\ ip_of k map = Ret (f_ip f))
    \/ ip_of k map = Ret 0
    \/ (forall ip, ip_of k map <> Ret ip)).
  { unfold ip_of.
    destruct (Z.gtb_spec (m_fd map) 0) as [Hfd|Hfd]; [|by right; left].
    unfold read_ofile. destruct (Z.ltb_spec (m_fd map) 0); [lia|].
    destruct (ofile (cur k) !! Z.to_nat (m_fd map)) as [[f|]|]; cbn [mbind result_bind].
    - left. exists f. done.
    - right. right. done.
    - right. right. done. }
  assert (Hgrow : forall k1, cur k1 = cur k ->
    forall g, growsup k1 (num_mappings (cur k)) (Z.of_nat i) map = Ret (Some g) ->
    pgdir (cur g) = pgdir (cur k) /\ kmem g = kmem k1 /\ phys g = phys k1
    /\ trace g = trace k1 /\ disk g = disk k1).
  { intros k1 Hc g. unfold growsup.
    destruct (has (m_flags map) MAP_GROWSUP); [|by intros [= <-]; rewrite Hc].
    destruct (next_mapping _ _ _ _) as [nx| | |]; try done. cbn [mbind result_bind].
    destruct (PGSIZE >=? _); [done|].
    destruct (read_mapping _ _) as [m| | |]; try done. cbn [mbind result_bind].
    destruct (write_mapping _ _ _) as [t'| | |]; try done. cbn [mbind result_bind].
    intros [= <-]. cbn [cur set_cur set_mappings pgdir kmem phys trace disk].
    by rewrite Hc. }
  assert (Hbody : forall ip,
    match kalloc k with
    | (None, _) => Panic "mapping failed 2"
    | (Some mem, k1) =>
        g ← growsup k1 (num_mappings (cur k)) (Z.of_nat i) map;
        match g with
        | None => segfault k1
        | Some k2 => k3 ← fill k2 buffer0 va map ip mem; install k3 va mem
        end
    end = Ret (1, k') ->
    ip <> 0 /\ exists mem fl, kmem k = mem :: fl
    /\ trace k' = Eend_op :: Eiunlock ip
                  :: Ereadi ip (u32 (PGROUNDDOWN va - m_addr map)) PGSIZE
                  :: Eilock ip :: Ebegin_op :: trace k
    /\ frame (phys k') mem
       = (readi (disk k) ip buffer0 (u32 (PGROUNDDOWN va - m_addr map)) PGSIZE).2
    /\ disk k' = disk k
    /\ (forall pd' fl',
          mappages (pgdir (cur k)) fl va PGSIZE (V2P mem) (Z.lor PTE_W PTE_U)
          = Ret (0, (pd', fl')) ->
          pgdir (cur k') = pd'
          /\ lookup_pte (pgdir (cur k')) va
             = Some (Z.lor (Z.lor (V2P mem) (Z.lor PTE_W PTE_U)) PTE_P))).
  { intros ip Hb. unfold kalloc in Hb.
    destruct (kmem k) as [|mem fl] eqn:Hmem; [done|].
    destruct (growsup _ _ _ _) as [[g|]| | |] eqn:Hg; try done.
    cbn [mbind result_bind] in Hb.
    destruct (Hgrow (set_kmem k fl) eq_refl _ Hg) as (Hgp & Hgk & Hgph & Hgt & Hgd).
    cbn [kmem phys trace disk set_kmem] in Hgk, Hgph, Hgt, Hgd.
    unfold fill in Hb. rewrite Hanon in Hb. cbn [negb] in Hb.
    unfold ilock in Hb. destruct (Z.eqb_spec ip 0) as [|Hip]; [done|].
    cbn [mbind result_bind disk log] in Hb.
    rewrite u32_sub_s32, Hgd in Hb.
    destruct (readi (disk k) ip buffer0 (u32 (PGROUNDDOWN va - m_addr map)) PGSIZE)
      as [rc buffer] eqn:Hread.
    cbn [mbind result_bind] in Hb.
    unfold install in Hb.
    cbn [cur pgdir kmem set_phys log] in Hb. rewrite Hgp, Hgk in Hb.
    destruct (mappages (pgdir (cur k)) fl va PGSIZE (V2P mem) (Z.lor PTE_W PTE_U))
      as [[rc' [pd fl1]]| | |] eqn:Hmap; try done.
    cbn [mbind result_bind] in Hb.
    split; [done|]. exists mem, fl. split; [done|].
    assert (Hk' : trace k' = Eend_op :: Eiunlock ip
                  :: Ereadi ip (u32 (PGROUNDDOWN va - m_addr map)) PGSIZE
                  :: Eilock ip :: Ebegin_op :: trace k
            /\ phys k' = <[mem := buffer]> (phys k) /\ disk k' = disk k
            /\ pgdir (cur k') = pd).
    { destruct (rc' <? 0); injection Hb as <-;
        cbn [trace phys disk cur pgdir kfree set_kmem set_cur set_pgdir set_phys log];
        by rewrite Hgt, Hgph, Hgd. }
    destruct Hk' as (Ht & Hp & Hd & Hpd).
    split; [done|]. split.
    { unfold frame. by rewrite Hp, lookup_insert_eq. }
    split; [done|].
    intros pd' fl' Heq. rewrite Hmap in Heq. injection Heq as -> <- <-.
    split; [done|]. rewrite Hpd.
    eapply mappages_installs; [exact Hmap|].
    unfold V2P. pose proof (u32_range (mem - KERNBASE)).
    apply Z.lor_nonneg. split; [lia|done]. }
  destruct Hfile as [(f & Hfd & Hof & Hip)|[Hip|Hip]].
  - rewrite Hip in Hrun. cbn [mbind result_bind] in Hrun.
    destruct (Hbody _ Hrun) as (Hne & mem & fl & Hmem & Ht & Hfr & Hd & Hinst).
    exists f, mem, fl. cbn zeta.
    repeat (split; [done|]). split; [|done].
    intros Hal Ha Hva.
    destruct (pgrounddown_page va). destruct (pgrounddown_page (m_addr map)).
    apply u32_small.
    assert (m_addr map <= PGROUNDDOWN va).
    { rewrite PGROUNDDOWN_div. unfold PGSIZE in *.
      pose proof (Z.div_mod (m_addr map) 4096 ltac:(lia)).
      assert (m_addr map / 4096 <= va / 4096) by (apply Z.div_le_mono; lia). lia. }
    lia.
  - rewrite Hip in Hrun. cbn [mbind result_bind] in Hrun.
    by destruct (Hbody _ Hrun) as [? _].
  - match type of Hrun with (?x ≫= _) = _ => destruct x as [ip| | |] eqn:E end; try done.
    by destruct (Hip ip).
Qed.
End Handler.

Section Munmap.
Context `{Hdr : Header} `{Ext : Extern}.

Lemma shift_down_spec n :
  forall (t : list mem_mapping) (j : nat),
  (j + n < length t)%nat ->
  shift_down t (Z.of_nat j) n
  = Ret (take j t ++ take n (drop (S j) t) ++ drop (j + n) t).
Proof.
  induction n as [|n IH]; intros t j Hlen.
  - cbn [shift_down]. rewrite Nat.add_0_r. change (take 0 (drop (S j) t)) with (@nil mem_mapping).
    cbn [app]. by rewrite take_drop.
  - cbn [shift_down].
    destruct (lookup_lt_is_Some_2 t (S j) ltac:(lia)) as [m Hm].
    replace (Z.of_nat j + 1) with (Z.of_nat (S j)) by lia.
    rewrite (read_mapping_lookup _ _ _ Hm). cbn [mbind result_bind].
    unfold write_mapping.
    destruct (Z.ltb_spec (Z.of_nat j) 0); [lia|].
    destruct (Z.leb_spec (Z.of_nat (length t)) (Z.of_nat j)); [lia|].
    cbn [orb mbind result_bind]. rewrite Nat2Z.id.
    rewrite IH by (rewrite length_insert; lia). f_equal.
    rewrite (take_S_r (<[j:=m]> t) j m) by (apply list_lookup_insert_eq; lia).
    rewrite take_insert_ge by lia.
    rewrite !drop_insert_lt by lia.
    rewrite (drop_S t m (S j) Hm).
    change (take (S n) (m :: drop (S (S j)) t)) with (m :: take n (drop (S (S j)) t)).
    rewrite <- app_assoc. cbn [app].
    by replace (S j + n)%nat with (j + S n)%nat by lia.
Qed.

Lemma munmap_remove_spec (k : kernel) (found : bool) :
  0 < num_mappings (cur k) <= Z.of_nat (length (memoryMappings (cur k))) ->
  num_mappings (cur k) <= 2 ^ 31 ->
  exists t',
    munmap_remove k 0 found
    = Ret (if found then 0 else -1,
           set_cur k (set_mappings (cur k) t' (num_mappings (cur k) - 1)))
    /\ length t' = length (memoryMappings (cur k))
    /\ take (Z.to_nat (num_mappings (cur k) - 1)) t' = drop 1 (live (cur k)).
Proof.
  intros Hn Hint. unfold munmap_remove.
  pose proof (shift_down_spec (Z.to_nat (num_mappings (cur k) - 1 - 0))
                (memoryMappings (cur k)) 0 ltac:(lia)) as Hs.
  change (Z.of_nat 0) with 0 in Hs. rewrite Hs. cbn [mbind result_bind take app].
  rewrite s32_small by lia. eexists. split; [reflexivity|].
  rewrite Z.sub_0_r. cbn [Nat.add].
  change (take 0 (memoryMappings (cur k))) with (@nil mem_mapping). cbn [app].
  split.
  - rewrite length_app, length_take, !length_drop. lia.
  - rewrite take_app_le by (rewrite length_take, length_drop; lia).
    rewrite take_take, Nat.min_id. unfold live.
    rewrite take_drop_commute. f_equal. f_equal. lia.
Qed.

(** The sweep leaves the process, the frames and the free list alone. *)
Lemma munmap_sweep_keeps fuel map ip bound :
  forall va k o k',
  munmap_sweep fuel map ip bound va k = Ret (o, k') ->
  cur k' = cur k /\ kmem k' = kmem k /\ phys k' = phys k /\ ptable k' = ptable k
  /\ nextpid k' = nextpid k.
Proof.
  induction fuel as [|fuel IH]; intros va k o k' Hrun; [done|].
  cbn [munmap_sweep] in Hrun.
  destruct (va <? bound); [|by injection Hrun as <- <-].
  match type of Hrun with (?step ≫= _) = _ =>
    destruct step as [[o1 k1]| | |] eqn:Hstep end; try done.
  cbn [mbind result_bind] in Hrun.
  assert (Hk1 : cur k1 = cur k /\ kmem k1 = kmem k /\ phys k1 = phys k
                /\ ptable k1 = ptable k /\ nextpid k1 = nextpid k).
  { destruct (lookup_pte (pgdir (cur k)) va) as [pte|]; [|by injection Hstep as <- <-].
    destruct (has pte PTE_P && _); [|by injection Hstep as <- <-].
    unfold ilock in Hstep. destruct (ip =? 0); [done|].
    cbn [mbind result_bind] in Hstep.
    destruct (writei _ _ _ _ _) as [w d].
    destruct (w <? 0); by injection Hstep as <- <-. }
  destruct o1 as [v|].
  - injection Hrun as <- <-. done.
  - destruct (IH _ _ _ _ Hrun) as (-> & -> & -> & -> & ->). done.
Qed.

(** Without write-back the sweep only walks the pages. *)
Lemma munmap_sweep_private map ip bound fuel :
  forall va k,
  writes_back map = false ->
  0 <= va -> bound <= 2 ^ 32 - PGSIZE ->
  (0 < fuel)%nat -> bound - va + PGSIZE <= PGSIZE * Z.of_nat fuel ->
  munmap_sweep fuel map ip bound va k = Ret (None, k).
Proof.
  unfold writes_back. intros va k Hwb. revert va.
  induction fuel as [|fuel IH]; intros va Hva Hb Hpos Hfuel; [lia|].
  cbn [munmap_sweep].
  destruct (Z.ltb_spec va bound); [|done].
  assert (Hnext : munmap_sweep fuel map ip bound (u32 (va + PGSIZE)) k = Ret (None, k)).
  { rewrite u32_small by (unfold PGSIZE in *; lia).
    apply IH; unfold PGSIZE in *; lia. }
  destruct (lookup_pte (pgdir (cur k)) va) as [pte|]; [|done].
  by rewrite Hwb, andb_false_r.
Qed.

(** X1: [munmap] of a range inside the first descriptor, when that
    descriptor has no write-back, returns 0, drops the first descriptor and
    moves the later live ones down one slot; nothing else changes. *)
Theorem munmap_first_descriptor (fuel : nat) (a len : Z) (k : kernel)
    (d : mem_mapping) :
  0 < num_mappings (cur k) <= Z.of_nat (length (memoryMappings (cur k))) ->
  num_mappings (cur k) <= 2 ^ 31 ->
  memoryMappings (cur k) !! 0%nat = Some d ->
  munmap_hit (u32 a) len d = true -> writes_back d = false ->
  0 <= len -> u32 a + len <= 2 ^ 32 - PGSIZE ->
  len + PGSIZE <= PGSIZE * Z.of_nat fuel ->
  exists t',
    sys_munmap fuel [a; len] k
    = Ret (0, set_cur k (set_mappings (cur k) t' (num_mappings (cur k) - 1)))
    /\ length t' = length (memoryMappings (cur k))
    /\ take (Z.to_nat (num_mappings (cur k) - 1)) t' = drop 1 (live (cur k)).
Proof.
  intros Hn Hint Hd Hhit Hwb Hlen Hend Hfuel.
  pose proof (u32_range a) as Ha.
  unfold sys_munmap, argint. cbn [lookup list_lookup].
  destruct (Z.ltb_spec 0 (num_mappings (cur k))); [|lia].
  pose proof (read_mapping_lookup _ _ _ Hd) as Hrd.
  change (Z.of_nat 0) with 0 in Hrd. rewrite Hrd. cbn [mbind result_bind].
  fold (munmap_hit (u32 a) len d). rewrite Hhit.
  fold (writes_back d). rewrite Hwb. cbn [andb mbind result_bind].
  rewrite (u32_small (u32 a + len)) by (unfold PGSIZE in *; lia).
  rewrite munmap_sweep_private;
    [| done | lia | done | unfold PGSIZE in *; lia | lia].
  cbn [mbind result_bind]. apply munmap_remove_spec; done.
Qed.
End Munmap.

Section Munmap2.
Context `{Hdr : Header} `{Ext : Extern}.

(** X2: when the first descriptor does not hold the range, [munmap]
    returns -1 without looking at the later descriptors, and the first
    descriptor is dropped from the table. *)
Theorem munmap_miss_drops_first (fuel : nat) (a len : Z) (k : kernel)
    (d : mem_mapping) :
  0 < num_mappings (cur k) <= Z.of_nat (length (memoryMappings (cur k))) ->
  num_mappings (cur k) <= 2 ^ 31 ->
  memoryMappings (cur k) !! 0%nat = Some d ->
  munmap_hit (u32 a) len d = false ->
  exists t',
    sys_munmap fuel [a; len] k
    = Ret (-1, set_cur k (set_mappings (cur k) t' (num_mappings (cur k) - 1)))
    /\ length t' = length (memoryMappings (cur k))
    /\ take (Z.to_nat (num_mappings (cur k) - 1)) t' = drop 1 (live (cur k)).
Proof.
  intros Hn Hint Hd Hmiss.
  unfold sys_munmap, argint. cbn [lookup list_lookup].
  destruct (Z.ltb_spec 0 (num_mappings (cur k))); [|lia].
  pose proof (read_mapping_lookup _ _ _ Hd) as Hrd.
  change (Z.of_nat 0) with 0 in Hrd. rewrite Hrd. cbn [mbind result_bind].
  fold (munmap_hit (u32 a) len d). rewrite Hmiss.
  apply (munmap_remove_spec k false); done.
Qed.

(** X3: whatever it returns, [munmap] frees no frame and clears no
    page-table entry: the page directory, the free list and the frames are
    as before, and so are the other processes. *)
Theorem munmap_keeps_frames (fuel : nat) (argv : list Z) (k k' : kernel) (r : Z) :
  sys_munmap fuel argv k = Ret (r, k') ->
  pgdir (cur k') = pgdir (cur k) /\ kmem k' = kmem k /\ phys k' = phys k
  /\ ptable k' = ptable k /\ ofile (cur k') = ofile (cur k).
Proof.
  unfold sys_munmap. intros Hrun.
  destruct (argint argv 0) as [a|]; [|by injection Hrun as <- <-].
  destruct (argint argv 1) as [len|]; [|by injection Hrun as <- <-].
  destruct (0 <? num_mappings (cur k)); [|by injection Hrun as <- <-].
  destruct (read_mapping (memoryMappings (cur k)) 0) as [map| | |]; try done.
  cbn [mbind result_bind] in Hrun.
  assert (Hrem : forall k1 found r1 k2,
    munmap_remove k1 0 found = Ret (r1, k2) ->
    pgdir (cur k2) = pgdir (cur k1) /\ kmem k2 = kmem k1 /\ phys k2 = phys k1
    /\ ptable k2 = ptable k1 /\ ofile (cur k2) = ofile (cur k1)).
  { intros k1 found r1 k2. unfold munmap_remove.
    destruct (shift_down _ _ _) as [t| | |]; try done. cbn [mbind result_bind].
    by intros [= <- <-]. }
  destruct (_ && _) in Hrun; [|by eapply Hrem].
  match type of Hrun with (?x ≫= _) = _ => destruct x as [ip| | |] end; try done.
  cbn [mbind result_bind] in Hrun.
  destruct (munmap_sweep _ _ _ _ _ _) as [[o k1]| | |] eqn:Hsweep; try done.
  cbn [mbind result_bind] in Hrun.
  destruct (munmap_sweep_keeps _ _ _ _ _ _ _ _ Hsweep) as (Hc & Hk & Hp & Ht & _).
  destruct o as [v|].
  - injection Hrun as <- <-. by rewrite Hc.
  - destruct (Hrem _ _ _ _ Hrun) as (-> & -> & -> & -> & ->). by rewrite Hc.
Qed.

(** X4: [munmap] of one resident page of a shared file mapping in the
    first slot writes the frame to the inode at offset [va - addr] inside
    [begin_op]/[ilock] ... [iunlock]/[end_op]; a negative result of [writei]
    makes the call return -1 with the descriptor still in the table. *)
Theorem munmap_writes_page_back (fuel : nat) (a len : Z) (k : kernel)
    (d : mem_mapping) (f : file) (pte : Z) :
  0 < num_mappings (cur k) <= Z.of_nat (length (memoryMappings (cur k))) ->
  num_mappings (cur k) <= 2 ^ 31 ->
  memoryMappings (cur k) !! 0%nat = Some d ->
  munmap_hit (u32 a) len d = true -> writes_back d = true ->
  0 <= m_fd d -> ofile (cur k) !! Z.to_nat (m_fd d) = Some (Some f) -> f_ip f <> 0 ->
  0 < len <= PGSIZE -> u32 a + len <= 2 ^ 32 - PGSIZE -> (2 <= fuel)%nat ->
  lookup_pte (pgdir (cur k)) (u32 a) = Some pte -> has pte PTE_P = true ->
  let ip := f_ip f in
  let off := u32 (u32 a - m_addr d) in
  let w := writei (disk k) ip (frame (phys k) (P2V (PTE_ADDR pte))) off PGSIZE in
  exists k',
    sys_munmap fuel [a; len] k = Ret (if w.1 <? 0 then -1 else 0, k')
    /\ trace k' = Eend_op :: Eiunlock ip :: Ewritei ip off PGSIZE :: Eilock ip
                  :: Ebegin_op :: trace k
    /\ disk k' = w.2
    /\ (w.1 < 0 -> cur k' = cur k)
    /\ (0 <= w.1 -> num_mappings (cur k') = num_mappings (cur k) - 1
                    /\ take (Z.to_nat (num_mappings (cur k) - 1))
                         (memoryMappings (cur k'))
                       = drop 1 (live (cur k))).
Proof.
  intros Hn Hint Hd Hhit Hwb Hfd Hof Hip Hlen Hend Hfuel Hpte HP ip off w.
  pose proof (u32_range a) as Ha.
  unfold sys_munmap, argint. cbn [lookup list_lookup].
  destruct (Z.ltb_spec 0 (num_mappings (cur k))); [|lia].
  pose proof (read_mapping_lookup _ _ _ Hd) as Hrd.
  change (Z.of_nat 0) with 0 in Hrd. rewrite Hrd. cbn [mbind result_bind].
  fold (munmap_hit (u32 a) len d). rewrite Hhit.
  fold (writes_back d). rewrite Hwb.
  destruct (Z.geb_spec (m_fd d) 0); [|lia]. cbn [andb].
  unfold read_ofile. destruct (Z.ltb_spec (m_fd d) 0); [lia|]. rewrite Hof.
  cbn [mbind result_bind]. fold ip.
  rewrite (u32_small (u32 a + len)) by (unfold PGSIZE in *; lia).
  destruct fuel as [|[|fuel]]; [lia|lia|].
  cbn [munmap_sweep].
  destruct (Z.ltb_spec (u32 a) (u32 a + len)); [|lia].
  rewrite Hpte, HP. unfold writes_back in Hwb. rewrite Hwb. cbn [andb].
  unfold ilock. destruct (Z.eqb_spec ip 0); [done|]. cbn [mbind result_bind disk log].
  fold off. fold w. destruct w as [wb dsk] eqn:Hw. cbn [fst snd].
  destruct (Z.ltb_spec wb 0).
  - cbn [mbind result_bind]. eexists. split; [reflexivity|].
    cbn [trace disk cur log set_disk].
    split; [done|]. split; [done|]. split; [done|]. intros. lia.
  - cbn [mbind result_bind].
    rewrite (u32_small (u32 a + PGSIZE)) by (unfold PGSIZE in *; lia).
    destruct (Z.ltb_spec (u32 a + PGSIZE) (u32 a + len)); [lia|].
    cbn [mbind result_bind].
    match goal with |- context [munmap_remove ?k1 0 true] =>
      destruct (munmap_remove_spec k1 true) as (t' & -> & Hl & Ht); [done|done|] end.
    eexists. split; [reflexivity|].
    cbn [trace disk cur log set_disk set_cur set_mappings num_mappings memoryMappings]
      in *.
    split; [done|]. split; [done|]. split; [intros; lia|]. by intros.
Qed.
End Munmap2.

Section MmapMore.
Context `{Hdr : Header} `{Ext : Extern}.

Lemma find_loop_sound p len fuel :
  wf_table p -> 0 < len < 2 ^ 31 ->
  forall addr r, MMAP_AREA_START <= addr -> addr + len < 2 ^ 32 ->
  addr mod PGSIZE = 0 ->
  find_loop fuel p len addr = Ret r -> r <> 0 -> fits p len r.
Proof.
  intros Hwf Hlen.
  induction fuel as [|fuel IH]; intros addr r Ha Hsum Hal Hrun Hr0; [done|].
  cbn [find_loop] in Hrun.
  rewrite u32_small in Hrun by (unfold MMAP_AREA_START in *; lia).
  destruct (Z.leb_spec (addr + len) MMAP_AREA_END) as [Hin|];
    [|by injection Hrun as <-].
  rewrite overlap_live in Hrun by done. cbn [mbind result_bind] in Hrun.
  destruct (existsb (ov_test addr len) (live p)) eqn:Hov.
  - rewrite u32_small in Hrun
      by (unfold MMAP_AREA_END, MMAP_AREA_START, PGSIZE in *; lia).
    eapply IH; [| | |exact Hrun|done].
    + unfold PGSIZE; lia.
    + unfold MMAP_AREA_END, MMAP_AREA_START, PGSIZE in *; lia.
    + rewrite <- Hal. unfold PGSIZE.
      rewrite <- (Z.mul_1_l 4096) at 1. by rewrite Z.mod_add.
  - injection Hrun as <-. repeat split; [lia | done | lia |].
    apply existsb_overlaps;
      [done | unfold MMAP_AREA_START in *; lia | lia | lia | done].
Qed.

(** What a returning [mmap] has left alone. *)
Lemma sys_mmap_lazy_spec (fuel : nat) (argv : list Z) (new_mapping0 : mem_mapping)
    (k k' : kernel) (r : Z) :
  sys_mmap fuel argv new_mapping0 k = Ret (r, k') ->
  pgdir (cur k') = pgdir (cur k) /\ kmem k' = kmem k /\ phys k' = phys k
  /\ disk k' = disk k /\ trace k' = trace k /\ ptable k' = ptable k
  /\ ofile (cur k') = ofile (cur k)
  /\ live (cur k) `prefix_of` memoryMappings (cur k')
  /\ length (memoryMappings (cur k')) = length (memoryMappings (cur k)).
Proof.
  intros Hrun.
  assert (Hsame : pgdir (cur k) = pgdir (cur k) /\ kmem k = kmem k /\ phys k = phys k
    /\ disk k = disk k /\ trace k = trace k /\ ptable k = ptable k
    /\ ofile (cur k) = ofile (cur k)
    /\ live (cur k) `prefix_of` memoryMappings (cur k)
    /\ length (memoryMappings (cur k)) = length (memoryMappings (cur k))).
  { repeat (split; [done|]). split; [|done]. unfold live.
    eexists. symmetry. apply take_drop. }
  unfold sys_mmap in Hrun.
  repeat match type of Hrun with
  | match argint ?l ?n with _ => _ end = _ =>
      destruct (argint l n); [|by injection Hrun as <- <-]
  end.
  repeat match type of Hrun with
  | (if ?c then Ret (-1, k) else _) = _ =>
      destruct c; [by injection Hrun as <- <-|]
  end.
  match type of Hrun with (?x ≫= _) = _ => destruct x as [bad| | |] end; try done.
  cbn [mbind result_bind] in Hrun. destruct bad; [by injection Hrun as <- <-|].
  match type of Hrun with (?x ≫= _) = _ => destruct x as [A| | |] end; try done.
  cbn [mbind result_bind] in Hrun.
  destruct (_ && _) in Hrun; [by injection Hrun as <- <-|].
  destruct (write_mapping _ _ _) as [t| | |] eqn:Hw; try done.
  cbn [mbind result_bind] in Hrun. injection Hrun as <- <-.
  destruct (write_mapping_Ret _ _ _ _ Hw) as [Hn ->].
  cbn [cur set_cur set_mappings pgdir kmem phys disk trace ptable ofile memoryMappings].
  repeat (split; [done|]). split; [|apply length_insert].
  unfold live.
  match goal with |- _ `prefix_of` <[?i:=?x]> ?l =>
    rewrite <- (take_insert_ge l i i x) by lia; exists (drop i (<[i:=x]> l)) end.
  symmetry. apply take_drop.
Qed.

Lemma find_loop_returns (p : proc) (len : Z) (fuel : nat) :
  0 < len < 2 ^ 31 ->
  0 <= num_mappings p <= Z.of_nat (length (memoryMappings p)) ->
  forall addr,
  MMAP_AREA_START <= addr < MMAP_AREA_END + PGSIZE -> addr + len < 2 ^ 32 ->
  MMAP_AREA_END + PGSIZE - addr <= PGSIZE * Z.of_nat fuel ->
  exists r, find_loop fuel p len addr = Ret r.
Proof.
  intros Hlen Hn.
  induction fuel as [|fuel IH]; intros addr Ha Hsum Hfuel.
  { unfold MMAP_AREA_END, PGSIZE in *. lia. }
  cbn [find_loop]. rewrite u32_small by (unfold MMAP_AREA_START in *; lia).
  destruct (Z.leb_spec (addr + len) MMAP_AREA_END) as [Hin|]; [|by eexists].
  change 0 with (Z.of_nat 0).
  rewrite overlap_from_existsb by (cbn [Nat.add]; lia). cbn [mbind result_bind].
  destruct (existsb _ _); [|by eexists].
  rewrite u32_small by (unfold MMAP_AREA_END, MMAP_AREA_START, PGSIZE in *; lia).
  apply IH; unfold MMAP_AREA_END, MMAP_AREA_START, PGSIZE in *; lia.
Qed.

(** On a table with a free slot, given [int] arguments and fuel for the
    whole arena, [mmap] returns. *)
Lemma sys_mmap_returns (fuel : nat) (argv : list Z) (new_mapping0 : mem_mapping)
    (k : kernel) :
  0 <= num_mappings (cur k) < Z.of_nat (length (memoryMappings (cur k))) ->
  NOFILE <= Z.of_nat (length (ofile (cur k))) ->
  (MMAP_AREA_END - MMAP_AREA_START) / PGSIZE < Z.of_nat fuel ->
  (forall len, argv !! 1%nat = Some len -> len < 2 ^ 31) ->
  exists r k', sys_mmap fuel argv new_mapping0 k = Ret (r, k').
Proof.
  intros Hn Hof Hfuel Hint.
  change ((MMAP_AREA_END - MMAP_AREA_START) / PGSIZE) with 131072 in Hfuel.
  unfold sys_mmap, argint.
  destruct (argv !! 0%nat) as [a|]; [|by eexists _, _].
  destruct (argv !! 1%nat) as [len|] eqn:Hl; [|by eexists _, _].
  specialize (Hint len eq_refl).
  destruct (argv !! 2%nat) as [prot|]; [|by eexists _, _].
  destruct (argv !! 3%nat) as [flags|]; [|by eexists _, _].
  destruct (argv !! 4%nat) as [fd|]; [|by eexists _, _].
  destruct (argv !! 5%nat) as [offset|]; [|by eexists _, _].
  destruct (Z.leb_spec len 0); [by eexists _, _|].
  repeat match goal with
  | |- exists r k', (if ?c then Ret (-1, k) else _) = _ =>
      destruct c; [by eexists _, _|]
  end.
  assert (Hbad : exists b,
    (if negb (has flags MAP_ANONYMOUS)
     then if (fd <? 0) || (fd >=? NOFILE) then Ret true
          else f ← read_ofile (cur k) fd; Ret (bool_decide (f = None))
     else Ret false) = Ret b).
  { destruct (negb _); [|by eexists].
    destruct (Z.ltb_spec fd 0); [by eexists|].
    destruct (Z.geb_spec fd NOFILE); [by eexists|]. cbn [orb].
    unfold read_ofile. destruct (Z.ltb_spec fd 0); [lia|].
    destruct (lookup_lt_is_Some_2 (ofile (cur k)) (Z.to_nat fd) ltac:(lia)) as [f ->].
    by eexists. }
  destruct Hbad as [b ->]. cbn [mbind result_bind].
  destruct b; [by eexists _, _|].
  assert (Haddr : exists A,
    (if has flags MAP_FIXED then Ret (u32 a)
     else find_available_address fuel (cur k) len) = Ret A).
  { destruct (has flags MAP_FIXED); [by eexists|].
    apply find_loop_returns; unfold MMAP_AREA_END, MMAP_AREA_START, PGSIZE; lia. }
  destruct Haddr as [A ->]. cbn [mbind result_bind].
  destruct (_ && _); [by eexists _, _|].
  unfold write_mapping.
  destruct (Z.ltb_spec (num_mappings (cur k)) 0); [lia|].
  destruct (Z.leb_spec (Z.of_nat (length (memoryMappings (cur k))))
              (num_mappings (cur k))); [lia|].
  cbn [orb mbind result_bind]. by eexists _, _.
Qed.

(** X5: [mmap] is lazy.  On a table with a free slot, given [int]
    arguments and fuel for the whole arena, the call returns, and whatever
    value it returns, it has installed no page-table entry, taken no frame,
    touched no frame content, no inode and no other process, and made no
    external call; the descriptors that were live stay where they are and
    the array keeps its size. *)
Theorem mmap_is_lazy (fuel : nat) (argv : list Z) (new_mapping0 : mem_mapping)
    (k : kernel) :
  0 <= num_mappings (cur k) < Z.of_nat (length (memoryMappings (cur k))) ->
  NOFILE <= Z.of_nat (length (ofile (cur k))) ->
  (MMAP_AREA_END - MMAP_AREA_START) / PGSIZE < Z.of_nat fuel ->
  (forall len, argv !! 1%nat = Some len -> len < 2 ^ 31) ->
  exists r k',
    sys_mmap fuel argv new_mapping0 k = Ret (r, k')
    /\ pgdir (cur k') = pgdir (cur k) /\ kmem k' = kmem k /\ phys k' = phys k
    /\ disk k' = disk k /\ trace k' = trace k /\ ptable k' = ptable k
    /\ ofile (cur k') = ofile (cur k)
    /\ live (cur k) `prefix_of` memoryMappings (cur k')
    /\ length (memoryMappings (cur k')) = length (memoryMappings (cur k)).
Proof.
  intros Hn Hof Hfuel Hint.
  destruct (sys_mmap_returns fuel argv new_mapping0 k Hn Hof Hfuel Hint)
    as (r & k' & Hrun).
  exists r, k'. split; [exact Hrun|].
  by eapply sys_mmap_lazy_spec.
Qed.

(** A successful [mmap] without [MAP_FIXED] on a table of the data model
    appends a descriptor at an address that fits. *)
Lemma sys_mmap_success (fuel : nat) (a len prot flags fd offset : Z)
    (new_mapping0 : mem_mapping) (k k' : kernel) (r : Z) :
  wf_table (cur k) -> 0 < len < 2 ^ 31 ->
  has flags MAP_FIXED = false ->
  sys_mmap fuel [a; len; prot; flags; fd; offset] new_mapping0 k = Ret (r, k') ->
  r <> -1 ->
  fits (cur k) len r
  /\ num_mappings (cur k) < Z.of_nat (length (memoryMappings (cur k)))
  /\ k' = set_cur k (set_mappings (cur k)
            (<[Z.to_nat (num_mappings (cur k)) :=
                 {| m_addr := r; m_length := len; m_originalLength := len;
                    m_flags := flags; m_prot := m_prot new_mapping0; m_fd := fd;
                    m_offset := m_offset new_mapping0;
                    m_allocated := m_allocated new_mapping0 |}]>
               (memoryMappings (cur k)))
            (s32 (num_mappings (cur k) + 1))).
Proof.
  intros Hwf Hlen Hfix Hrun Hr.
  unfold sys_mmap, argint in Hrun. cbn [lookup list_lookup] in Hrun.
  repeat match type of Hrun with
  | (if ?c then Ret (-1, k) else _) = _ =>
      destruct c; [by injection Hrun as <- <-|]
  end.
  match type of Hrun with (?x ≫= _) = _ => destruct x as [bad| | |] end; try done.
  cbn [mbind result_bind] in Hrun. destruct bad; [by injection Hrun as <- <-|].
  rewrite Hfix in Hrun. cbn [negb andb] in Hrun.
  destruct (find_available_address fuel (cur k) len) as [A| | |] eqn:Hfind; try done.
  cbn [mbind result_bind] in Hrun.
  destruct (Z.eqb_spec A 0) as [|HA]; [by injection Hrun as <- <-|].
  destruct (write_mapping _ _ _) as [t| | |] eqn:Hw; try done.
  cbn [mbind result_bind] in Hrun. injection Hrun as <- <-.
  destruct (write_mapping_Ret _ _ _ _ Hw) as [Hn ->].
  destruct (find_loop_sound (cur k) len fuel Hwf Hlen MMAP_AREA_START A)
    as (Hlo & Hal & Hin & Hno); try done.
  { unfold MMAP_AREA_START; lia. }
  rewrite s32_small by (unfold MMAP_AREA_START, MMAP_AREA_END in *; lia).
  split; [unfold fits; tauto|]. split; [lia|]. done.
Qed.

(** X6: a successful [mmap] without [MAP_FIXED] on a table of the data
    model records a descriptor at the returned address that is page-aligned,
    lies inside the arena and overlaps no descriptor that was live. *)
Theorem mmap_placement_is_free (fuel : nat) (a len prot flags fd offset : Z)
    (new_mapping0 : mem_mapping) (k k' : kernel) (r : Z) :
  wf_table (cur k) -> 0 < len < 2 ^ 31 ->
  has flags MAP_FIXED = false ->
  sys_mmap fuel [a; len; prot; flags; fd; offset] new_mapping0 k = Ret (r, k') ->
  r <> -1 ->
  MMAP_AREA_START <= r /\ r mod PGSIZE = 0 /\ r + len <= MMAP_AREA_END
  /\ Forall (fun m => ~ overlaps r len m) (live (cur k))
  /\ (exists m, memoryMappings (cur k') !! Z.to_nat (num_mappings (cur k)) = Some m
        /\ m_addr m = r /\ m_length m = len /\ m_flags m = flags /\ m_fd m = fd)
  /\ num_mappings (cur k') = s32 (num_mappings (cur k) + 1).
Proof.
  intros Hwf Hlen Hfix Hrun Hr.
  destruct (sys_mmap_success _ _ _ _ _ _ _ _ _ _ _ Hwf Hlen Hfix Hrun Hr)
    as ((Hlo & Hal & Hin & Hno) & Hn & ->).
  destruct Hwf as [Hnum _].
  do 4 (split; [done|]).
  cbn [cur set_cur set_mappings memoryMappings num_mappings]. split; [|done].
  eexists. split; [apply list_lookup_insert_eq; lia|]. done.
Qed.

(** X7: [mmap] then [munmap] on an empty table.  A region without
    write-back that [mmap] placed in an empty table is removed by [munmap]
    of the returned address and the same length: the call returns 0 and the
    kernel is the one before [mmap] up to the content of the unused slots of
    the descriptor array. *)
Theorem mmap_munmap_round_trip (fuel fuel' : nat) (a len prot flags fd offset : Z)
    (new_mapping0 : mem_mapping) (k k1 : kernel) (r : Z) :
  num_mappings (cur k) = 0 -> 0 < len < 2 ^ 31 ->
  has flags MAP_FIXED = false ->
  has flags MAP_SHARED && negb (has flags MAP_ANONYMOUS) = false ->
  len + PGSIZE <= PGSIZE * Z.of_nat fuel' ->
  sys_mmap fuel [a; len; prot; flags; fd; offset] new_mapping0 k = Ret (r, k1) ->
  r <> -1 ->
  exists t',
    sys_munmap fuel' [r; len] k1 = Ret (0, set_cur k (set_mappings (cur k) t' 0))
    /\ length t' = length (memoryMappings (cur k)).
Proof.
  intros Hempty Hlen Hfix Hwb Hfuel Hrun Hr.
  assert (Hwf : wf_table (cur k)).
  { split; [lia|]. unfold live. rewrite Hempty. constructor. }
  destruct (sys_mmap_success _ _ _ _ _ _ _ _ _ _ _ Hwf Hlen Hfix Hrun Hr)
    as ((Hlo & Hal & Hin & Hno) & Hn & ->).
  rewrite Hempty in Hn.
  assert (Hru : u32 r = r).
  { apply u32_small. unfold MMAP_AREA_START, MMAP_AREA_END in *. lia. }
  unfold sys_munmap, argint. cbn [lookup list_lookup]. rewrite Hru.
  cbn [cur set_cur set_mappings num_mappings memoryMappings].
  rewrite Hempty. change (s32 (0 + 1)) with 1. change (0 <? 1) with true. cbv iota.
  change (Z.to_nat 0) with 0%nat.
  match goal with |- context [read_mapping (<[0%nat:=?d]> ?t) 0] =>
    pose proof (read_mapping_lookup (<[0%nat:=d]> t) 0%nat d) as Hrd;
    change (Z.of_nat 0) with 0 in Hrd; rewrite Hrd
      by (apply list_lookup_insert_eq; lia); clear Hrd end.
  cbn [mbind result_bind m_addr m_length m_flags m_fd].
  destruct (Z.geb_spec r r); [|lia].
  rewrite Z.leb_refl. cbn [andb]. rewrite Hwb. cbn [andb mbind result_bind].
  rewrite (u32_small (r + len)) by (unfold MMAP_AREA_START, MMAP_AREA_END in *; lia).
  rewrite munmap_sweep_private;
    [| exact Hwb | unfold MMAP_AREA_START in *; lia
     | unfold MMAP_AREA_END, PGSIZE in *; lia
     | unfold PGSIZE in *; lia | lia].
  cbn [mbind result_bind].
  match goal with |- context [munmap_remove ?k1 0 true] =>
    destruct (munmap_remove_spec k1 true) as (t' & -> & Hl & _) end.
  - cbn [cur set_cur set_mappings memoryMappings num_mappings].
    rewrite length_insert. lia.
  - cbn [cur set_cur set_mappings num_mappings]. lia.
  - exists t'. split.
    + cbn [cur set_cur set_mappings memoryMappings num_mappings].
      destruct k as [c ? ? ? ? ? ?]. destruct c. reflexivity.
    + rewrite Hl. cbn [cur set_cur set_mappings memoryMappings]. apply length_insert.
Qed.
End MmapMore.

Section Handler2.
Context `{Hdr : Header} `{Ext : Extern}.

Lemma fill_keeps k buffer0 va map ip mem k3 :
  fill k buffer0 va map ip mem = Ret k3 ->
  cur k3 = cur k /\ kmem k3 = kmem k /\ ptable k3 = ptable k
  /\ forall a, a <> mem -> phys k3 !! a = phys k !! a.
Proof.
  unfold fill. destruct (has (m_flags map) MAP_ANONYMOUS); cbn [negb].
  - intros [= <-]. cbn [cur kmem ptable phys set_phys].
    do 3 (split; [done|]). intros a Ha. by rewrite lookup_insert_ne.
  - unfold ilock. destruct (ip =? 0); [done|]. cbn [mbind result_bind].
    destruct (readi _ _ _ _ _) as [rc buffer]. intros [= <-].
    cbn [cur kmem ptable phys set_phys log].
    do 3 (split; [done|]). intros a Ha. by rewrite lookup_insert_ne.
Qed.

(** A fault on a descriptor that does not grow, with a frame to give, two
    more for page tables and the entries of [va] not present: the handler
    fills the frame, installs it and returns 1. *)
Lemma plain_fault_returns buffer0 va k i map ip mem fl :
  cow_pending (pgdir (cur k)) va = false ->
  0 <= num_mappings (cur k) <= Z.of_nat (length (memoryMappings (cur k))) ->
  fault_mapping (cur k) va = Some (i, map) ->
  has (m_flags map) MAP_GROWSUP = false ->
  ip_of k map = Ret ip ->
  (has (m_flags map) MAP_ANONYMOUS = false -> ip <> 0) ->
  kmem k = mem :: fl -> (2 <= length fl)%nat ->
  0 <= va -> va + PGSIZE <= 2 ^ 32 ->
  present (pgdir (cur k)) va = false ->
  (va mod PGSIZE <> 0 -> present (pgdir (cur k)) (va + PGSIZE) = false) ->
  exists k3 pd' fl',
    fill (set_kmem k fl) buffer0 va map ip mem = Ret k3
    /\ mappages (pgdir (cur k)) fl va PGSIZE (V2P mem) (Z.lor PTE_W PTE_U)
       = Ret (0, (pd', fl'))
    /\ (length fl <= length fl' + 2)%nat
    /\ page_fault_handler buffer0 va k
       = Ret (1, set_kmem (set_cur k3 (set_pgdir (cur k3) pd')) fl').
Proof.
  intros Hcow Hn Hfind Hgrow Hip Hne Hmem Hfl Hva Hend Hp1 Hp2.
  rewrite handler_no_cow, pf_scan_find, Hfind by done.
  unfold pf_found. fold (ip_of k map). rewrite Hip. cbn [mbind result_bind].
  unfold kalloc. rewrite Hmem.
  unfold growsup. rewrite Hgrow. cbn [mbind result_bind].
  assert (Hfill : exists k3, fill (set_kmem k fl) buffer0 va map ip mem = Ret k3).
  { unfold fill. destruct (has (m_flags map) MAP_ANONYMOUS); cbn [negb]; [by eexists|].
    unfold ilock. destruct (Z.eqb_spec ip 0) as [E|_]; [by destruct (Hne eq_refl)|].
    cbn [mbind result_bind]. destruct (readi _ _ _ _ _). by eexists. }
  destruct Hfill as [k3 Hfill]. rewrite Hfill. cbn [mbind result_bind].
  destruct (fill_keeps _ _ _ _ _ _ _ Hfill) as (Hc & Hk & _).
  cbn [cur kmem set_kmem] in Hc, Hk.
  destruct (mappages_returns (pgdir (cur k)) fl va (V2P mem) (Z.lor PTE_W PTE_U))
    as (pd' & fl' & Hmap & Hlen); [done..|].
  exists k3, pd', fl'. split; [done|]. split; [done|]. split; [done|].
  unfold install. rewrite Hc, Hk, Hmap. cbn [mbind result_bind].
  change (0 <? 0) with false. cbv iota. done.
Qed.

(** X8: a fault at an address that no live descriptor holds, and that is
    not a pending copy-on-write, takes no frame and changes nothing: the
    handler prints the text [segfault_msg] and returns -1. *)
Theorem fault_outside_every_mapping (buffer0 : list Z) (va : Z) (k : kernel) :
  cow_pending (pgdir (cur k)) va = false ->
  0 <= num_mappings (cur k) <= Z.of_nat (length (memoryMappings (cur k))) ->
  Forall (fun m => ~ in_mapping va m) (live (cur k)) ->
  page_fault_handler buffer0 va k
  = Ret (-1, log k (Ecprintf segfault_msg)).
Proof.
  intros Hcow Hn Hout.
  rewrite handler_no_cow, pf_scan_find by done.
  unfold fault_mapping.
  destruct (list_find (in_mapping va) (live (cur k))) as [[j m]|] eqn:Hf; [|done].
  apply list_find_Some in Hf as (Hl & Hin & _).
  rewrite Forall_lookup in Hout. by destruct (Hout _ _ Hl).
Qed.

(** X9: the first fault on a page of an anonymous descriptor that does
    not grow, when the fault is not a pending copy-on-write, the entries it
    installs are not present and two frames are left for page tables,
    returns 1: it takes the head of the free list, clears that frame and
    installs it at [va] with [PTE_W | PTE_U | PTE_P]; it reads no file and
    leaves the other frames and the descriptors as they are. *)
Theorem anonymous_fault_zero_fills (buffer0 : list Z) (va : Z) (k : kernel)
    (i : nat) (map : mem_mapping) (mem : Z) (fl : list Z) :
  cow_pending (pgdir (cur k)) va = false ->
  0 <= num_mappings (cur k) <= Z.of_nat (length (memoryMappings (cur k))) ->
  fault_mapping (cur k) va = Some (i, map) ->
  has (m_flags map) MAP_ANONYMOUS = true ->
  has (m_flags map) MAP_GROWSUP = false ->
  m_fd map <= 0 ->
  kmem k = mem :: fl -> (2 <= length fl)%nat ->
  0 <= va -> va + PGSIZE <= 2 ^ 32 ->
  present (pgdir (cur k)) va = false ->
  (va mod PGSIZE <> 0 -> present (pgdir (cur k)) (va + PGSIZE) = false) ->
  exists k',
    page_fault_handler buffer0 va k = Ret (1, k')
    /\ frame (phys k') mem = replicate (Z.to_nat PGSIZE) 0
    /\ (forall a, a <> mem -> phys k' !! a = phys k !! a)
    /\ trace k' = trace k /\ disk k' = disk k
    /\ memoryMappings (cur k') = memoryMappings (cur k)
    /\ num_mappings (cur k') = num_mappings (cur k)
    /\ lookup_pte (pgdir (cur k')) va
       = Some (Z.lor (Z.lor (V2P mem) (Z.lor PTE_W PTE_U)) PTE_P)
    /\ (length fl <= length (kmem k') + 2)%nat.
Proof.
  intros Hcow Hn Hfind Hanon Hgrow Hfd Hmem Hfl Hva Hend Hp1 Hp2.
  assert (Hip : ip_of k map = Ret 0).
  { unfold ip_of. by destruct (Z.gtb_spec (m_fd map) 0); [lia|]. }
  destruct (plain_fault_returns buffer0 va k i map 0 mem fl)
    as (k3 & pd' & fl' & Hfill & Hmap & Hlen & ->); try done.
  { by rewrite Hanon. }
  unfold fill in Hfill. rewrite Hanon in Hfill. cbn [negb] in Hfill.
  injection Hfill as <-.
  assert (Hpos : 0 <= Z.lor (V2P mem) (Z.lor PTE_W PTE_U)).
  { apply Z.lor_nonneg. split; [|done]. unfold V2P. apply u32_range. }
  eexists. split; [reflexivity|].
  cbn [phys trace disk cur pgdir kmem memoryMappings num_mappings
       set_kmem set_cur set_pgdir set_phys].
  split; [unfold frame; by rewrite lookup_insert_eq|].
  split; [by intros a Ha; rewrite lookup_insert_ne|].
  do 4 (split; [done|]).
  split; [by eapply mappages_installs|]. done.
Qed.

(** The one-page install at an address inside a page covers two pages. *)
Lemma mappages_second_page pd fl va pa perm pd' fl' :
  0 <= va -> va + PGSIZE <= 2 ^ 32 -> va mod PGSIZE <> 0 -> 0 <= Z.lor pa perm ->
  mappages pd fl va PGSIZE pa perm = Ret (0, (pd', fl')) ->
  lookup_pte pd' (va + PGSIZE) = Some (Z.lor (Z.lor (u32 (pa + PGSIZE)) perm) PTE_P).
Proof.
  intros Hva Hend Hun Hpos. unfold mappages.
  destruct (pgrounddown_page va) as [Hal Hin].
  assert (Hlast : PGROUNDDOWN (u32 (va + PGSIZE - 1)) = PGROUNDDOWN va + PGSIZE).
  { rewrite u32_small by (unfold PGSIZE in *; lia).
    rewrite !PGROUNDDOWN_div. unfold PGSIZE in *.
    pose proof (Z.div_mod va 4096 ltac:(lia)).
    pose proof (Z.mod_pos_bound va 4096 ltac:(lia)).
    rewrite <- (Z.div_unique (va + 4096 - 1) 4096 (va / 4096 + 1) (va mod 4096 - 1))
      by lia. lia. }
  assert (Hlo : 0 <= PGROUNDDOWN va).
  { rewrite PGROUNDDOWN_div. unfold PGSIZE. apply Z.mul_nonneg_nonneg; [lia|].
    apply Z.div_pos; lia. }
  rewrite Hlast. set (a := PGROUNDDOWN va) in *.
  assert (Hlt : a < va).
  { destruct (Z.eq_dec a va) as [e|]; [|lia]. rewrite e in Hal. done. }
  replace (a + PGSIZE - a) with PGSIZE by lia.
  change (Z.to_nat (u32 PGSIZE / PGSIZE)) with 1%nat.
  assert (Hsl : slot_of (va + PGSIZE) = slot_of (a + PGSIZE)).
  { apply slot_of_page; [|lia]. rewrite <- Hal. unfold PGSIZE.
    rewrite <- (Z.mul_1_l 4096) at 1. by rewrite Z.mod_add. }
  rewrite lookup_pte_at, Hsl.
  cbn [mappages_loop].
  destruct (walkpgdir pd fl a true) as [[[slot|] pd1] fl1] eqn:Hw; [|done].
  destruct (has (pte_read pd1 slot) PTE_P); [done|].
  destruct (Z.eqb_spec a (a + PGSIZE)); [unfold PGSIZE in *; lia|].
  rewrite (u32_small (a + PGSIZE)) by (unfold PGSIZE in *; lia).
  destruct (walkpgdir _ fl1 (a + PGSIZE) true) as [[[slot2|] pd2] fl2] eqn:Hw2; [|done].
  destruct (walkpgdir_create _ _ _ _ _ _ Hw2) as (-> & Hdir & _).
  destruct (has (pte_read pd2 _) PTE_P); [done|].
  rewrite Z.eqb_refl. intros [= <- <-].
  rewrite pte_at_write by done. by rewrite decide_True.
Qed.

(** X10: the handler hands the faulting address itself to [mappages].
    When the address is not page-aligned, the first fault on an anonymous
    descriptor that does not grow (not a pending copy-on-write, entries of
    both pages not present, two frames left for page tables) returns 1 with
    two entries installed: the page of [va] at the new frame, and the page
    after it at the physical page that follows the new frame, a page whose
    content the handler leaves as it was. *)
Theorem unaligned_fault_maps_two_pages (buffer0 : list Z) (va : Z)
    (k : kernel) (i : nat) (map : mem_mapping) (mem : Z) (fl : list Z) :
  cow_pending (pgdir (cur k)) va = false ->
  0 <= num_mappings (cur k) <= Z.of_nat (length (memoryMappings (cur k))) ->
  fault_mapping (cur k) va = Some (i, map) ->
  has (m_flags map) MAP_ANONYMOUS = true ->
  has (m_flags map) MAP_GROWSUP = false ->
  m_fd map <= 0 ->
  kmem k = mem :: fl -> (2 <= length fl)%nat ->
  0 <= va -> va + PGSIZE <= 2 ^ 32 -> va mod PGSIZE <> 0 ->
  present (pgdir (cur k)) va = false ->
  present (pgdir (cur k)) (va + PGSIZE) = false ->
  exists k',
    page_fault_handler buffer0 va k = Ret (1, k')
    /\ lookup_pte (pgdir (cur k')) va
       = Some (Z.lor (Z.lor (V2P mem) (Z.lor PTE_W PTE_U)) PTE_P)
    /\ lookup_pte (pgdir (cur k')) (va + PGSIZE)
       = Some (Z.lor (Z.lor (u32 (V2P mem + PGSIZE)) (Z.lor PTE_W PTE_U)) PTE_P)
    /\ (forall a, a <> mem -> phys k' !! a = phys k !! a).
Proof.
  intros Hcow Hn Hfind Hanon Hgrow Hfd Hmem Hfl Hva Hend Hun Hp1 Hp2.
  assert (Hip : ip_of k map = Ret 0).
  { unfold ip_of. by destruct (Z.gtb_spec (m_fd map) 0); [lia|]. }
  destruct (plain_fault_returns buffer0 va k i map 0 mem fl)
    as (k3 & pd' & fl' & Hfill & Hmap & Hlen & ->); try done.
  { by rewrite Hanon. }
  unfold fill in Hfill. rewrite Hanon in Hfill. cbn [negb] in Hfill.
  injection Hfill as <-.
  assert (Hpos : 0 <= Z.lor (V2P mem) (Z.lor PTE_W PTE_U)).
  { apply Z.lor_nonneg. split; [|done]. unfold V2P. apply u32_range. }
  eexists. split; [reflexivity|].
  cbn [phys cur pgdir set_kmem set_cur set_pgdir set_phys].
  split; [by eapply mappages_installs|].
  split; [by eapply mappages_second_page|].
  by intros a Ha; rewrite lookup_insert_ne.
Qed.

(** X11: [mmap] accepts descriptor 0 for a file mapping, but the handler
    fetches the inode only for [fd > 0].  The first fault on a file-backed
    descriptor of file 0 reaches [ilock] with the null inode pointer. *)
Theorem fault_on_descriptor_zero (buffer0 : list Z) (va : Z) (k : kernel)
    (i : nat) (map : mem_mapping) :
  cow_pending (pgdir (cur k)) va = false ->
  0 <= num_mappings (cur k) <= Z.of_nat (length (memoryMappings (cur k))) ->
  fault_mapping (cur k) va = Some (i, map) ->
  has (m_flags map) MAP_ANONYMOUS = false ->
  has (m_flags map) MAP_GROWSUP = false ->
  m_fd map = 0 -> kmem k <> [] ->
  page_fault_handler buffer0 va k = Panic "ilock".
Proof.
  intros Hcow Hn Hfind Hanon Hgrow Hfd Hmem.
  rewrite handler_no_cow, pf_scan_find, Hfind by done.
  unfold pf_found. rewrite Hfd. change (0 >? 0) with false. cbn [mbind result_bind].
  unfold kalloc. destruct (kmem k) as [|mem fl]; [done|].
  unfold growsup. rewrite Hgrow. cbn [mbind result_bind].
  unfold fill. rewrite Hanon. cbn [negb]. done.
Qed.

(** X12: the copy-on-write branch touches one entry and one frame.  The
    entries of the other pages, the content of every frame but the new one
    (the old frame included), the descriptors, the open files and the other
    processes are as before; the old frame is not returned to the free
    list. *)
Theorem cow_fault_isolated (buffer0 : list Z) (va : Z) (k : kernel)
    (pte mem : Z) (fl : list Z) :
  lookup_pte (pgdir (cur k)) va = Some pte ->
  has pte PTE_COW = true -> has pte PTE_W = false -> kmem k = mem :: fl ->
  exists k',
    page_fault_handler buffer0 va k = Ret (1, k')
    /\ (forall va', slot_of va' <> slot_of va ->
          lookup_pte (pgdir (cur k')) va' = lookup_pte (pgdir (cur k)) va')
    /\ (forall a, a <> mem -> phys k' !! a = phys k !! a)
    /\ kmem k' = fl
    /\ memoryMappings (cur k') = memoryMappings (cur k)
    /\ ofile (cur k') = ofile (cur k)
    /\ ptable k' = ptable k /\ disk k' = disk k.
Proof.
  intros Hpte HC HW Hfl.
  destruct (lookup_pte_Some _ _ _ Hpte) as [Hdir _].
  rewrite (cow_fault_run buffer0 va k pte mem fl) by done.
  eexists. split; [reflexivity|].
  cbn [cow_resolved kmem phys cur pgdir trace memoryMappings ofile ptable disk
       log set_cur set_phys set_kmem set_pgdir].
  split.
  { intros va' Hne. rewrite !lookup_pte_at.
    rewrite pte_at_write by done. by rewrite decide_False. }
  split; [by intros a Ha; rewrite lookup_insert_ne|]. done.
Qed.
(** X23: the first fault on a page of a file-backed descriptor that does
    not grow, whose file is open on a descriptor above 0, when the fault is
    not a pending copy-on-write, the entries it installs are not present and
    two frames are left for page tables, returns 1: one page is read from the
    inode at offset [PGROUNDDOWN(va) - addr], between [begin_op]/[ilock] and
    [iunlock]/[end_op]; the buffer read is the content of the new frame, which
    is installed at [va]; no inode changes. *)
Theorem file_fault_reads_page (buffer0 : list Z) (va : Z) (k : kernel)
    (i : nat) (map : mem_mapping) (f : file) (mem : Z) (fl : list Z) :
  cow_pending (pgdir (cur k)) va = false ->
  0 <= num_mappings (cur k) <= Z.of_nat (length (memoryMappings (cur k))) ->
  fault_mapping (cur k) va = Some (i, map) ->
  has (m_flags map) MAP_ANONYMOUS = false ->
  has (m_flags map) MAP_GROWSUP = false ->
  0 < m_fd map -> ofile (cur k) !! Z.to_nat (m_fd map) = Some (Some f) ->
  f_ip f <> 0 ->
  kmem k = mem :: fl -> (2 <= length fl)%nat ->
  0 <= va -> va + PGSIZE <= 2 ^ 32 ->
  present (pgdir (cur k)) va = false ->
  (va mod PGSIZE <> 0 -> present (pgdir (cur k)) (va + PGSIZE) = false) ->
  let ip := f_ip f in
  let off := u32 (PGROUNDDOWN va - m_addr map) in
  exists k',
    page_fault_handler buffer0 va k = Ret (1, k')
    /\ trace k' = Eend_op :: Eiunlock ip :: Ereadi ip off PGSIZE :: Eilock ip
                  :: Ebegin_op :: trace k
    /\ frame (phys k') mem = (readi (disk k) ip buffer0 off PGSIZE).2
    /\ disk k' = disk k
    /\ lookup_pte (pgdir (cur k')) va
       = Some (Z.lor (Z.lor (V2P mem) (Z.lor PTE_W PTE_U)) PTE_P).
Proof.
  intros Hcow Hn Hfind Hanon Hgrow Hfd Hof Hipne Hmem Hfl Hva Hend Hp1 Hp2 ip off.
  assert (Hip : ip_of k map = Ret ip).
  { unfold ip_of. destruct (Z.gtb_spec (m_fd map) 0); [|lia].
    unfold read_ofile. destruct (Z.ltb_spec (m_fd map) 0); [lia|]. by rewrite Hof. }
  destruct (plain_fault_returns buffer0 va k i map ip mem fl)
    as (k3 & pd' & fl' & Hfill & Hmap & Hlen & Hrun); try done.
  eexists. split; [exact Hrun|].
  destruct (file_fault_spec buffer0 va k _ i map Hcow Hn Hfind Hanon Hrun)
    as (f' & mem' & fl0 & _ & Hof' & _ & Hmem' & Ht & Hfr & Hd & _ & Hinst).
  rewrite Hof in Hof'. injection Hof' as <-.
  rewrite Hmem in Hmem'. injection Hmem' as <- <-.
  split; [exact Ht|]. split; [exact Hfr|]. split; [exact Hd|].
  by destruct (Hinst _ _ Hmap).
Qed.
End Handler2.

Section Fork2.
Context `{Hdr : Header} `{Ext : Extern}.

(** X13: [allocproc] takes the first [UNUSED] entry of the table.  The
    entry becomes [EMBRYO] with pid [nextpid] and the head of the free list
    as kernel stack, [nextpid] advances by one as an [int], and no other
    entry changes. *)
Theorem allocproc_first_unused (k k1 : kernel) (j : nat) :
  allocproc k = (Some j, k1) ->
  exists p p' ks,
    ptable k !! j = Some p /\ state p = UNUSED
    /\ (forall i q, (i < j)%nat -> ptable k !! i = Some q -> state q <> UNUSED)
    /\ ptable k1 !! j = Some p'
    /\ state p' = EMBRYO /\ pid p' = nextpid k /\ kstack p' = ks
    /\ kmem k = ks :: kmem k1
    /\ nextpid k1 = s32 (nextpid k + 1)
    /\ (forall i, i <> j -> ptable k1 !! i = ptable k !! i)
    /\ length (ptable k1) = length (ptable k)
    /\ cur k1 = cur k.
Proof.
  intros Halloc.
  destruct (allocproc_Some _ _ _ Halloc)
    as (p & ks & fl & Hf & Hk & Hpt & Hfl & Hnp & Hc & _).
  apply list_find_Some in Hf as (Hj & Hst & Hbefore).
  eexists p, _, ks. split; [done|]. split; [done|]. split; [by eauto|].
  rewrite Hpt. split.
  { apply list_lookup_insert_eq. by eapply lookup_lt_Some. }
  cbn [state pid kstack set_kstack set_pid set_state].
  do 3 (split; [done|]). split; [by rewrite Hk, Hfl|]. split; [done|].
  split; [|split; [apply length_insert|done]].
  intros i Hi. by apply list_lookup_insert_ne.
Qed.

(** X14: when an entry is free but no frame is, [allocproc] returns the
    null pointer after it has consumed a pid: [nextpid] has advanced and the
    entry, [UNUSED] again, keeps the pid it was given. *)
Theorem allocproc_without_memory (k : kernel) (j : nat) (p : proc) :
  list_find (fun p => state p = UNUSED) (ptable k) = Some (j, p) ->
  kmem k = [] ->
  exists k1 p',
    allocproc k = (None, k1)
    /\ nextpid k1 = s32 (nextpid k + 1)
    /\ ptable k1 !! j = Some p' /\ state p' = UNUSED /\ pid p' = nextpid k
    /\ (forall i, i <> j -> ptable k1 !! i = ptable k !! i)
    /\ cur k1 = cur k /\ kmem k1 = [].
Proof.
  intros Hf Hk. unfold allocproc, kalloc. rewrite Hf. cbn [kmem set_ptable].
  rewrite Hk. apply list_find_Some in Hf as (Hj & _ & _).
  eexists _, _. split; [reflexivity|].
  cbn [ptable kmem nextpid cur set_ptable]. split; [done|].
  rewrite list_insert_insert_eq. split.
  { apply list_lookup_insert_eq. by eapply lookup_lt_Some. }
  cbn [state pid set_state set_pid]. do 2 (split; [done|]).
  split; [|done]. intros i Hi. by apply list_lookup_insert_ne.
Qed.

(** X15: with no [UNUSED] entry in the table, [fork] returns -1 and
    changes nothing. *)
Theorem fork_without_slot (fuel : nat) (k : kernel) :
  Forall (fun p => state p <> UNUSED) (ptable k) ->
  fork fuel k = Ret (-1, k).
Proof.
  intros Hfull. unfold fork, allocproc.
  destruct (list_find _ (ptable k)) as [[j p]|] eqn:Hf; [|done].
  apply list_find_Some in Hf as (Hj & Hst & _).
  rewrite Forall_lookup in Hfull. by destruct (Hfull _ _ Hj).
Qed.




Lemma dup_ofile_lookup (pf : list (option file)) :
  forall cf i,
  dup_ofile pf cf !! i
  = match pf !! i, cf !! i with
    | Some (Some f), Some _ => Some (Some f)
    | _, c => c
    end.
Proof.
  induction pf as [|a pf IH]; intros cf i.
  { rewrite lookup_nil. by destruct cf. }
  destruct a as [f|], cf as [|c cf]; cbn [dup_ofile].
  - rewrite lookup_nil. by destruct (_ !! i) as [[?|]|].
  - destruct i as [|i]; [reflexivity | exact (IH cf i)].
  - rewrite lookup_nil. by destruct (_ !! i) as [[?|]|].
  - destruct i as [|i]; [reflexivity | exact (IH cf i)].
Qed.

(** What a [fork] that returned has done to the open files. *)
Lemma fork_files_spec (fuel : nat) (k k1 k' : kernel) (j : nat)
    (cpd0 : pgdir_t) (fl0 : list Z) (ph0 : gmap Z (list Z)) (r : Z) :
  allocproc k = (Some j, k1) ->
  copyuvm (pgdir (cur k)) (sz (cur k)) (kmem k1, phys k1) = Some (cpd0, (fl0, ph0)) ->
  fork fuel k = Ret (r, k') ->
  exists np child,
    ptable k !! j = Some np /\ ptable k' !! j = Some child
    /\ sz child = sz (cur k)
    /\ (forall i f, ofile (cur k) !! i = Some (Some f) ->
          (i < length (ofile np))%nat -> ofile child !! i = Some (Some f))
    /\ (forall i, ofile (cur k) !! i = Some None -> ofile child !! i = ofile np !! i)
    /\ length (ofile child) = length (ofile np)
    /\ ofile (cur k') = ofile (cur k).
Proof.
  intros Halloc Hcopy Hfork.
  destruct (allocproc_Some _ _ _ Halloc)
    as (p & ks & fl & Hf & Hk & Hpt & Hfl & Hnp & Hc & Hph & Hd & Htr).
  apply list_find_Some in Hf as (Hj & _ & _).
  assert (Hlt : (j < length (ptable k))%nat) by by eapply lookup_lt_Some.
  unfold fork in Hfork.
  rewrite Halloc, Hpt, list_lookup_insert_eq in Hfork by done.
  cbn [num_mappings memoryMappings set_mappings set_kstack set_pid set_state]
    in Hfork.
  rewrite Hcopy in Hfork.
  match type of Hfork with (?run ≫= _) = _ =>
    destruct run as [[ct [[[ppd cpd] fl1] tr]]| | |] end; try done.
  cbn [mbind result_bind] in Hfork. injection Hfork as <- <-.
  exists p. eexists. split; [done|]. split.
  { cbn [ptable]. rewrite ?Hpt. apply list_lookup_insert_eq. by rewrite length_insert. }
  cbn [sz ofile cur set_state set_sz_ofile set_pgdir set_mappings set_kstack
       set_pid].
  split; [done|]. split.
  { intros i f Hi Hlen. rewrite dup_ofile_lookup, Hi.
    destruct (lookup_lt_is_Some_2 (ofile p) i Hlen) as [c ->]. done. }
  split. { intros i Hi. by rewrite dup_ofile_lookup, Hi. }
  split; [|done].
  assert (Hl : forall pf cf, length (dup_ofile pf cf) = length cf).
  { clear. induction pf as [|[f|] pf IH]; intros [|c cf]; cbn [dup_ofile length];
      try done; by rewrite IH. }
  apply Hl.
Qed.

(** X18: when [allocproc] and [copyuvm] have succeeded, with fuel beyond
    the page count of every private descriptor and a frame for every such
    page, [fork] returns, and after it the child holds, at the same
    descriptor numbers, every file the parent has open, and the parent's
    [sz]; the parent's own open files are as before. *)
Theorem fork_copies_open_files (fuel : nat) (k k1 : kernel) (j : nat)
    (cpd0 : pgdir_t) (fl0 : list Z) (ph0 : gmap Z (list Z)) :
  allocproc k = (Some j, k1) ->
  copyuvm (pgdir (cur k)) (sz (cur k)) (kmem k1, phys k1) = Some (cpd0, (fl0, ph0)) ->
  Forall wf_fork (live (cur k)) ->
  0 <= num_mappings (cur k) <= Z.of_nat (length (memoryMappings (cur k))) ->
  (forall np, ptable k !! j = Some np ->
     num_mappings (cur k) <= Z.of_nat (length (memoryMappings np))) ->
  Forall (fun m => (fork_page_count m < fuel)%nat) (live (cur k)) ->
  (sum_list (fork_page_count <$> live (cur k)) <= length fl0)%nat ->
  exists r k',
    fork fuel k = Ret (r, k')
    /\ exists np child,
      ptable k !! j = Some np /\ ptable k' !! j = Some child
      /\ sz child = sz (cur k)
      /\ (forall i f, ofile (cur k) !! i = Some (Some f) ->
            (i < length (ofile np))%nat -> ofile child !! i = Some (Some f))
      /\ (forall i, ofile (cur k) !! i = Some None -> ofile child !! i = ofile np !! i)
      /\ length (ofile child) = length (ofile np)
      /\ ofile (cur k') = ofile (cur k).
Proof.
  intros Halloc Hcopy Hwf Hn Hroom Hfuel Hframes.
  destruct (fork_returns fuel k k1 j cpd0 fl0 ph0) as (r & k' & Hrun); try done.
  exists r, k'. split; [exact Hrun|].
  by eapply fork_files_spec.
Qed.
End Fork2.

Section MmapFixed.
Context `{Hdr : Header} `{Ext : Extern}.

Lemma live_appended (k : kernel) (d : mem_mapping) :
  0 <= num_mappings (cur k) < Z.of_nat (length (memoryMappings (cur k))) ->
  live (cur (mmap_appended k d)) = live (cur k) ++ [d].
Proof.
  intros Hn. unfold live, mmap_appended.
  cbn [cur set_cur set_mappings num_mappings memoryMappings].
  replace (Z.to_nat (num_mappings (cur k) + 1))
    with (S (Z.to_nat (num_mappings (cur k)))) by lia.
  erewrite take_S_r by (apply list_lookup_insert_eq; lia).
  by rewrite take_insert_ge by lia.
Qed.

(** X19: [MAP_FIXED] places the region at the hint without looking at the
    table.  The same fixed anonymous call made twice succeeds twice at the
    same address and leaves two live descriptors over the same range. *)
Theorem mmap_fixed_ignores_overlap (fuel : nat) (a len prot flags : Z)
    (new_mapping0 : mem_mapping) (k : kernel) :
  has flags MAP_FIXED = true -> has flags MAP_ANONYMOUS = true ->
  has flags MAP_SHARED || has flags MAP_PRIVATE = true ->
  0 < len -> MMAP_AREA_START <= a <= MMAP_AREA_END - PGSIZE -> a mod PGSIZE = 0 ->
  0 <= num_mappings (cur k) ->
  num_mappings (cur k) + 1 < Z.of_nat (length (memoryMappings (cur k))) ->
  num_mappings (cur k) < 2 ^ 31 - 2 ->
  let d := {| m_addr := a; m_length := len; m_originalLength := len;
              m_flags := flags; m_prot := m_prot new_mapping0; m_fd := -1;
              m_offset := m_offset new_mapping0;
              m_allocated := m_allocated new_mapping0 |} in
  exists k1 k2,
    sys_mmap fuel [a; len; prot; flags; -1; 0] new_mapping0 k = Ret (a, k1)
    /\ sys_mmap fuel [a; len; prot; flags; -1; 0] new_mapping0 k1 = Ret (a, k2)
    /\ live (cur k2) = live (cur k) ++ [d; d].
Proof.
  intros Hfix Hanon Hsp Hlen Ha Hal Hn0 Hn1 Hn31 d.
  assert (Hu : u32 a = a).
  { apply u32_small. unfold MMAP_AREA_START, MMAP_AREA_END, PGSIZE in *. lia. }
  assert (Hcall : forall k0,
    0 <= num_mappings (cur k0) < Z.of_nat (length (memoryMappings (cur k0))) ->
    num_mappings (cur k0) < 2 ^ 31 - 1 ->
    sys_mmap fuel [a; len; prot; flags; -1; 0] new_mapping0 k0
    = Ret (a, mmap_appended k0 d)).
  { intros k0 Hk0 Hk31.
    apply (sys_mmap_placed fuel a len prot flags (-1) 0 new_mapping0 k0 a
             {| f_ip := 0 |}); try done.
    - right. by rewrite Hu.
    - by rewrite Hanon.
    - rewrite Hu. unfold MMAP_AREA_START in *. lia.
    - unfold mmap_place. by rewrite Hfix.
    - unfold MMAP_AREA_START, MMAP_AREA_END, PGSIZE in *. lia. }
  exists (mmap_appended k d), (mmap_appended (mmap_appended k d) d).
  split; [apply Hcall; lia|]. split.
  - apply Hcall; unfold mmap_appended;
      cbn [cur set_cur set_mappings num_mappings memoryMappings];
      rewrite ?length_insert; lia.
  - rewrite !live_appended, <- app_assoc; [done|lia|].
    unfold mmap_appended.
    cbn [cur set_cur set_mappings num_mappings memoryMappings].
    rewrite length_insert. lia.
Qed.
End MmapFixed.

Section ProcessTable.

(** X20: [kill] acts on the first entry that holds the pid, whatever its
    state (an [UNUSED] or [ZOMBIE] entry is found as well): it sets [killed],
    makes a sleeper [RUNNABLE] and returns 0, and no other entry changes;
    when no entry holds the pid it returns -1 and the table is unchanged. *)
Theorem kill_first_match (pid0 : Z) (pt : list slot) :
  kill pid0 pt
  = match list_find (fun p => pid (entry p) = pid0) pt with
    | Some (i, p) => (0, <[i := killed_entry p]> pt)
    | None => (-1, pt)
    end.
Proof.
  induction pt as [|p rest IH]; [done|].
  cbn [kill list_find].
  destruct (Z.eqb_spec (pid (entry p)) pid0) as [Heq|Hne].
  - rewrite decide_True by done. cbn [list_insert insert].
    unfold killed_entry, set_entry_state, set_killed. cbn [entry killed chan parent].
    by destruct (bool_decide _).
  - rewrite decide_False by done. rewrite IH.
    destruct (list_find _ rest) as [[i q]|]; done.
Qed.

(** X21: [wakeup1] makes [RUNNABLE] exactly the entries that sleep on the
    channel: afterwards none sleeps on it, every other entry is as before,
    and a second call changes nothing. *)
Theorem wakeup1_wakes_sleepers (chan0 : Z) (pt : list slot) :
  Forall (fun p => ~ (state (entry p) = SLEEPING /\ chan p = chan0)) (wakeup1 chan0 pt)
  /\ (forall i p, pt !! i = Some p ->
        ~ (state (entry p) = SLEEPING /\ chan p = chan0) ->
        wakeup1 chan0 pt !! i = Some p)
  /\ (forall i p, pt !! i = Some p ->
        state (entry p) = SLEEPING -> chan p = chan0 ->
        wakeup1 chan0 pt !! i = Some (set_entry_state p RUNNABLE))
  /\ wakeup1 chan0 (wakeup1 chan0 pt) = wakeup1 chan0 pt.
Proof.
  assert (Hstep : forall p,
    ~ (state (entry p) = SLEEPING /\ chan p = chan0) ->
    (if bool_decide (state (entry p) = SLEEPING) && (chan p =? chan0)
     then set_entry_state p RUNNABLE else p) = p).
  { intros p Hp. destruct (bool_decide_reflect (state (entry p) = SLEEPING)); [|done].
    destruct (Z.eqb_spec (chan p) chan0); [|done]. by destruct Hp. }
  assert (Hawake : Forall (fun p => ~ (state (entry p) = SLEEPING /\ chan p = chan0))
                     (wakeup1 chan0 pt)).
  { unfold wakeup1. apply Forall_fmap, Forall_forall. intros p _.
    cbn [compose].
    destruct (bool_decide_reflect (state (entry p) = SLEEPING)) as [Hs|Hs];
      [destruct (Z.eqb_spec (chan p) chan0)|]; cbn [andb].
    - intros [Hst _]. done.
    - intros [_ ?]. done.
    - intros [? _]. done. }
  split; [done|]. split; [|split].
  - intros i p Hi Hp. unfold wakeup1. rewrite list_lookup_fmap, Hi. cbn.
    by rewrite Hstep.
  - intros i p Hi Hs Hc. unfold wakeup1. rewrite list_lookup_fmap, Hi. cbn.
    rewrite bool_decide_eq_true_2 by done.
    destruct (Z.eqb_spec (chan p) chan0); done.
  - apply list_eq. intros i. unfold wakeup1 at 1. rewrite list_lookup_fmap.
    destruct (wakeup1 chan0 pt !! i) as [p|] eqn:Hi; [|done]. cbn.
    rewrite Forall_lookup in Hawake. by rewrite (Hstep p (Hawake _ _ Hi)).
Qed.

(** X22: [count_children] counts the entries whose [parent] is the given
    process, in every state ([UNUSED] and [ZOMBIE] entries count as well); the
    result lies between 0 and the size of the table. *)
Theorem count_children_counts (parent_proc : Z) (pt : list slot) :
  Z.of_nat (length pt) < 2 ^ 31 ->
  count_children parent_proc pt
  = Z.of_nat (length (filter (fun p => parent p = parent_proc) pt))
  /\ 0 <= count_children parent_proc pt <= Z.of_nat (length pt).
Proof.
  intros Hlen. unfold count_children.
  assert (Hgen : forall l c,
    0 <= c -> c + Z.of_nat (length l) < 2 ^ 31 ->
    fold_left (fun count p => if parent p =? parent_proc then s32 (count + 1) else count)
              l c
    = c + Z.of_nat (length (filter (fun p => parent p = parent_proc) l))).
  { induction l as [|p l IH]; intros c Hc Hb; [cbn; lia|].
    cbn [fold_left]. rewrite filter_cons. cbn [length] in Hb.
    destruct (Z.eqb_spec (parent p) parent_proc).
    - rewrite decide_True by done. rewrite s32_small by lia.
      rewrite IH by lia. cbn [length]. lia.
    - rewrite decide_False by done. apply IH; lia. }
  rewrite Hgen by lia. split; [done|].
  pose proof (length_filter (fun p => parent p = parent_proc) pt). lia.
Qed.
End ProcessTable.

(** * The concrete configuration at work *)

(** ** A concrete configuration *)

Section Bugs.
#[local] Existing Instance stock_header.
#[local] Existing Instance stock_extern.

(** C1: with two descriptors, [munmap] of the second one's range returns
    -1 and removes the first descriptor; the second stays. *)
Lemma munmap_second_descriptor :
  exists k',
    sys_munmap 64 [0x60001000; 4096]
      (kernel_with [anon 0x60000000 4096; anon 0x60001000 4096] frames)
    = Ret (-1, k')
    /\ live (cur k') = [anon 0x60001000 4096].
Proof. eexists. split; reflexivity. Qed.

(** C2: [munmap] of a range that no descriptor holds returns -1, and the
    first descriptor is removed all the same. *)
Lemma munmap_outside_every_descriptor :
  exists k',
    sys_munmap 64 [0x60010000; 4096] (kernel_with [anon 0x60000000 4096] frames)
    = Ret (-1, k')
    /\ num_mappings (cur k') = 0 /\ live (cur k') = [].
Proof. eexists. split; [|split]; reflexivity. Qed.

(** C3: from the empty table 32 one-page calls of [mmap] succeed, at
    consecutive pages from [MMAP_AREA_START]; the 33rd is not refused, it
    stores past the end of the 32-entry array. *)
Lemma mmap_thirty_third :
  mmap_times 33 (kernel_with [] frames)
  = (map (fun i => MMAP_AREA_START + Z.of_nat i * PGSIZE) (seq 0 32), Undef).
Proof. vm_compute. reflexivity. Qed.

(** C5: when [mappages] fails for want of a page table page, the handler
    frees the frame and still returns 1, with no entry installed. *)
Lemma fault_install_failure :
  exists k',
    page_fault_handler [] 0x60000004 (kernel_with [anon 0x60000000 4096] [0x80400000])
    = Ret (1, k')
    /\ lookup_pte (pgdir (cur k')) 0x60000004 = None
    /\ kmem k' = [0x80400000].
Proof. eexists. split; [|split]; reflexivity. Qed.
End Bugs.

Section MoreExamples.
#[local] Existing Instance stock_header.
#[local] Existing Instance stock_extern.


(** C6: [mmap] takes the file offset but never stores it, and the fault
    handler reads at [PGROUNDDOWN(va) - addr] alone.  After [mmap] of a file
    with offset 4096, the fault on the first page reads the file at offset 0,
    and the frame holds the file's first page, not its second. *)
Lemma file_offset_ignored :
  exists k1 k2,
    sys_mmap 64 [0; 4096; 1; 1; 3; 4096] (mapping 0 0 0 0) kernel_file
    = Ret (0x60000000, k1)
    /\ page_fault_handler (replicate (Z.to_nat PGSIZE) 0) 0x60000000 k1 = Ret (1, k2)
    /\ trace k2 = [Eend_op; Eiunlock 7; Ereadi 7 0 4096; Eilock 7; Ebegin_op]
    /\ frame (phys k2) 0x80400000 = replicate (Z.to_nat PGSIZE) 65
    /\ (readi (disk k1) 7 (replicate (Z.to_nat PGSIZE) 0) 4096 PGSIZE).2
       = replicate (Z.to_nat PGSIZE) 66.
Proof. eexists _, _. repeat split; reflexivity. Qed.
End MoreExamples.

Section Witnesses.
#[local] Existing Instance stock_header.
#[local] Existing Instance stock_extern.

Lemma cow_fault_copies_witness :
  exists k' pte',
    page_fault_handler [] 0x60000004 kernel_cow = Ret (1, k')
    /\ kmem k' = [0x80401000; 0x80402000]
    /\ frame (phys k') 0x80400000 = frame (phys kernel_cow) (P2V (PTE_ADDR 0x500205))
    /\ lookup_pte (pgdir (cur k')) 0x60000004 = Some pte'
    /\ PTE_ADDR pte' = V2P 0x80400000
    /\ PTE_FLAGS pte' = Z.land (Z.lor (PTE_FLAGS 0x500205) PTE_W) (Z.lnot PTE_COW)
    /\ has pte' PTE_W = true /\ has pte' PTE_COW = false
    /\ trace k' = Elcr3 (pid (cur kernel_cow)) :: trace kernel_cow
    /\ memoryMappings (cur k') = memoryMappings (cur kernel_cow)
    /\ num_mappings (cur k') = num_mappings (cur kernel_cow).
Proof.
  apply (cow_fault_copies [] 0x60000004 kernel_cow 0x500205 0x80400000
           [0x80401000; 0x80402000]); try reflexivity.
  - unfold KERNBASE. lia.
Defined.

End Witnesses.

Section Witnesses2.
#[local] Existing Instance stock_header.
#[local] Existing Instance stock_extern.

Lemma find_available_address_first_fit_witness :
  exists r,
    find_available_address (Z.to_nat 131073) (proc_with [anon 0x60000000 4096]) 8192
    = Ret r
    /\ ((fits (proc_with [anon 0x60000000 4096]) 8192 r
         /\ forall A, fits (proc_with [anon 0x60000000 4096]) 8192 A -> r <= A)
        \/ (r = 0 /\ forall A, ~ fits (proc_with [anon 0x60000000 4096]) 8192 A))
    /\ (num_mappings (proc_with [anon 0x60000000 4096]) = 0 ->
        8192 <= MMAP_AREA_END - MMAP_AREA_START -> r = MMAP_AREA_START).
Proof.
  apply (find_available_address_first_fit (Z.to_nat 131073)
           (proc_with [anon 0x60000000 4096]) 8192).
  - split; [cbn; lia|]. repeat constructor; cbn; lia.
  - lia.
  - rewrite Z2Nat.id by lia. reflexivity.
Defined.

Lemma sys_mmap_validation_witness :
  sys_mmap 64 [0; 0; 3; 5; -1; 0] (mapping 0 0 0 0) (kernel_with [] frames)
  = Ret (-1, kernel_with [] frames)
  /\ sys_mmap 64 [0; 4096; 3; 7; -1; 0] (mapping 0 0 0 0) (kernel_with [] frames)
     = Ret (0x60000000,
            mmap_appended (kernel_with [] frames) (mapping 0x60000000 4096 7 (-1))).
Proof.
  split.
  - apply (proj1 (sys_mmap_validation 64 0 0 3 5 (-1) 0 (mapping 0 0 0 0)
                    (kernel_with [] frames))).
    left. lia.
  - apply (proj2 (sys_mmap_validation 64 0 4096 3 7 (-1) 0 (mapping 0 0 0 0)
                    (kernel_with [] frames)) 0x60000000 {| f_ip := 0 |});
      try reflexivity; try (cbn; lia).
    + by left.
    + cbn. done.
    + cbn. done.
    + cbn. split; [reflexivity | done].
Defined.

End Witnesses2.

Section Witnesses3.
#[local] Existing Instance stock_header.
#[local] Existing Instance stock_extern.

(** Closed side conditions are settled by evaluation. *)
Ltac ev := first [reflexivity | lia | split; by lazy | by lazy].

Lemma munmap_first_descriptor_witness :
  exists t',
    sys_munmap 64 [0x60000000; 4096] kernel_two
    = Ret (0, set_cur kernel_two (set_mappings (cur kernel_two) t' (2 - 1)))
    /\ length t' = 32%nat
    /\ take (Z.to_nat (2 - 1)) t' = drop 1 (live (cur kernel_two)).
Proof.
  apply (munmap_first_descriptor 64 0x60000000 4096 kernel_two (anon 0x60000000 4096));
    try reflexivity; try (split; by lazy); by lazy.
Defined.

Lemma munmap_miss_drops_first_witness :
  exists t',
    sys_munmap 64 [0x60001000; 4096] kernel_two
    = Ret (-1, set_cur kernel_two (set_mappings (cur kernel_two) t' (2 - 1)))
    /\ length t' = 32%nat
    /\ take (Z.to_nat (2 - 1)) t' = drop 1 (live (cur kernel_two)).
Proof.
  apply (munmap_miss_drops_first 64 0x60001000 4096 kernel_two (anon 0x60000000 4096));
    try reflexivity; try (split; by lazy); by lazy.
Defined.

Lemma munmap_keeps_frames_witness :
  exists r k',
    sys_munmap 64 [0x60000000; 4096] kernel_cow = Ret (r, k')
    /\ pgdir (cur k') = cow_pgdir /\ kmem k' = frames
    /\ phys k' = phys kernel_cow.
Proof.
  assert (Hf : exists r k', sys_munmap 64 [0x60000000; 4096] kernel_cow = Ret (r, k'))
    by (eexists _, _; reflexivity).
  destruct Hf as (r & k' & Hf).
  destruct (munmap_keeps_frames 64 _ kernel_cow k' r Hf) as (Hp & Hk & Hph & _).
  exists r, k'. split; [exact Hf|]. split; [exact Hp|]. split; [exact Hk|exact Hph].
Defined.

Lemma munmap_writes_page_back_witness :
  exists k',
    sys_munmap 64 [0x60000000; 4096] kernel_shared_file = Ret (0, k')
    /\ trace k' = [Eend_op; Eiunlock 7; Ewritei 7 0 4096; Eilock 7; Ebegin_op]
    /\ num_mappings (cur k') = 0.
Proof.
  destruct (munmap_writes_page_back 64 0x60000000 4096 kernel_shared_file
              (mapping 0x60000000 4096 2 3) {| f_ip := 7 |} 0x500007)
    as (k' & Hrun & Htr & _ & _ & Hok); [ev..|].
  exists k'. split; [exact Hrun|]. split; [exact Htr|].
  apply Hok. by vm_compute.
Defined.

Lemma mmap_is_lazy_witness :
  exists r k',
    sys_mmap (Z.to_nat 131073) [0; 8192; 3; 5; -1; 0] (mapping 0 0 0 0) kernel_cow
    = Ret (r, k')
    /\ pgdir (cur k') = cow_pgdir /\ kmem k' = frames /\ trace k' = [].
Proof.
  destruct (mmap_is_lazy (Z.to_nat 131073) [0; 8192; 3; 5; -1; 0] (mapping 0 0 0 0)
              kernel_cow) as (r & k' & Hf & Hp & Hk & _ & _ & Ht & _).
  - split; by lazy.
  - by lazy.
  - rewrite Z2Nat.id by lia. reflexivity.
  - intros len Hlen. apply (inj Some) in Hlen as <-. lia.
  - exists r, k'. split; [exact Hf|]. split; [exact Hp|]. split; [exact Hk|exact Ht].
Defined.

Lemma mmap_placement_is_free_witness :
  exists k',
    sys_mmap 64 [0; 8192; 3; 5; -1; 0] (mapping 0 0 0 0) kernel_two
    = Ret (0x60002000, k')
    /\ Forall (fun m => ~ overlaps 0x60002000 8192 m) (live (cur kernel_two))
    /\ num_mappings (cur k') = 3.
Proof.
  assert (Hf : exists k',
    sys_mmap 64 [0; 8192; 3; 5; -1; 0] (mapping 0 0 0 0) kernel_two
    = Ret (0x60002000, k')) by (eexists; reflexivity).
  destruct Hf as (k' & Hf).
  destruct (mmap_placement_is_free 64 0 8192 3 5 (-1) 0 (mapping 0 0 0 0)
              kernel_two k' 0x60002000) as (_ & _ & _ & Hfree & _ & Hn);
    [| lia | reflexivity | exact Hf | lia |].
  - split; [by lazy|]. repeat constructor; by lazy.
  - exists k'. split; [exact Hf|]. split; [exact Hfree|exact Hn].
Defined.

Lemma mmap_munmap_round_trip_witness :
  exists k1 t',
    sys_mmap 64 [0; 8192; 3; 5; -1; 0] (mapping 0 0 0 0) (kernel_with [] frames)
    = Ret (0x60000000, k1)
    /\ sys_munmap 64 [0x60000000; 8192] k1
       = Ret (0, set_cur (kernel_with [] frames)
                   (set_mappings (cur (kernel_with [] frames)) t' 0)).
Proof.
  assert (Hf : exists k1,
    sys_mmap 64 [0; 8192; 3; 5; -1; 0] (mapping 0 0 0 0) (kernel_with [] frames)
    = Ret (0x60000000, k1)) by (eexists; reflexivity).
  destruct Hf as (k1 & Hf).
  destruct (mmap_munmap_round_trip 64 64 0 8192 3 5 (-1) 0 (mapping 0 0 0 0)
              (kernel_with [] frames) k1 0x60000000) as (t' & Hun & _);
    [reflexivity | lia | reflexivity | reflexivity | by lazy | exact Hf | lia |].
  exists k1, t'. split; [exact Hf|exact Hun].
Defined.

Lemma mmap_fixed_ignores_overlap_witness :
  exists k1 k2,
    sys_mmap 64 [0x60000000; 4096; 3; 13; -1; 0] (mapping 0 0 0 0)
      (kernel_with [] frames) = Ret (0x60000000, k1)
    /\ sys_mmap 64 [0x60000000; 4096; 3; 13; -1; 0] (mapping 0 0 0 0) k1
       = Ret (0x60000000, k2)
    /\ live (cur k2)
       = live (cur (kernel_with [] frames))
         ++ [mapping 0x60000000 4096 13 (-1); mapping 0x60000000 4096 13 (-1)].
Proof.
  apply (mmap_fixed_ignores_overlap 64 0x60000000 4096 3 13 (mapping 0 0 0 0)
           (kernel_with [] frames)); try reflexivity; try (split; by lazy); by lazy.
Defined.
(** A process with descriptor 0 open on inode 7. *)
Definition kernel_fd0 : kernel :=
  {| cur := {| state := RUNNING; pid := 1; sz := 0; pgdir := ∅; kstack := 0;
               ofile := <[0%nat := Some {| f_ip := 7 |}]> (replicate 16 None);
               memoryMappings := empty_table; num_mappings := 0 |};
     ptable := []; nextpid := 2; kmem := frames; phys := ∅;
     disk := {[ 7 := two_pages ]}; trace := [] |}.

Lemma fault_outside_every_mapping_witness :
  page_fault_handler [] 0x60005000 (kernel_with [anon 0x60000000 4096] frames)
  = Ret (-1, log (kernel_with [anon 0x60000000 4096] frames)
               (Ecprintf segfault_msg)).
Proof.
  apply (fault_outside_every_mapping [] 0x60005000
           (kernel_with [anon 0x60000000 4096] frames)); [ev | ev |].
  repeat constructor. intros [_ Hhi]. by lazy in Hhi.
Defined.

Lemma anonymous_fault_zero_fills_witness :
  exists k',
    page_fault_handler [] 0x60000000 (kernel_with [anon 0x60000000 4096] frames)
    = Ret (1, k')
    /\ frame (phys k') 0x80400000 = replicate (Z.to_nat PGSIZE) 0
    /\ trace k' = []
    /\ lookup_pte (pgdir (cur k')) 0x60000000
       = Some (Z.lor (Z.lor (V2P 0x80400000) (Z.lor PTE_W PTE_U)) PTE_P).
Proof.
  destruct (anonymous_fault_zero_fills [] 0x60000000
              (kernel_with [anon 0x60000000 4096] frames) 0 (anon 0x60000000 4096)
              0x80400000 [0x80401000; 0x80402000])
    as (k' & Hrun & Hfr & _ & Htr & _ & _ & _ & Hpte & _);
    [ev | ev | ev | ev | ev | ev | ev | cbn [length]; lia | ev | ev | ev
     | intros _; by lazy |].
  exists k'. split; [exact Hrun|]. split; [exact Hfr|]. split; [exact Htr|exact Hpte].
Defined.

Lemma unaligned_fault_maps_two_pages_witness :
  exists k',
    page_fault_handler [] 0x60000004 (kernel_with [anon 0x60000000 4096] frames)
    = Ret (1, k')
    /\ lookup_pte (pgdir (cur k')) 0x60000004
       = Some (Z.lor (Z.lor (V2P 0x80400000) (Z.lor PTE_W PTE_U)) PTE_P)
    /\ lookup_pte (pgdir (cur k')) (0x60000004 + PGSIZE)
       = Some (Z.lor (Z.lor (u32 (V2P 0x80400000 + PGSIZE)) (Z.lor PTE_W PTE_U))
                 PTE_P).
Proof.
  destruct (unaligned_fault_maps_two_pages [] 0x60000004
              (kernel_with [anon 0x60000000 4096] frames) 0 (anon 0x60000000 4096)
              0x80400000 [0x80401000; 0x80402000])
    as (k' & Hrun & Hp1 & Hp2 & _);
    [ev | ev | ev | ev | ev | ev | ev | cbn [length]; lia | ev | ev | by lazy
     | ev | ev |].
  exists k'. split; [exact Hrun|]. split; [exact Hp1|exact Hp2].
Defined.

Lemma file_fault_reads_page_witness :
  exists k1 k2,
    sys_mmap 64 [0; 4096; 1; 1; 3; 0] (mapping 0 0 0 0) kernel_file
    = Ret (0x60000000, k1)
    /\ page_fault_handler (replicate (Z.to_nat PGSIZE) 0) 0x60000010 k1 = Ret (1, k2)
    /\ trace k2 = Eend_op :: Eiunlock 7
                  :: Ereadi 7 (u32 (PGROUNDDOWN 0x60000010 - 0x60000000)) PGSIZE
                  :: Eilock 7 :: Ebegin_op :: trace k1
    /\ frame (phys k2) 0x80400000
       = (readi (disk k1) 7 (replicate (Z.to_nat PGSIZE) 0)
            (u32 (PGROUNDDOWN 0x60000010 - 0x60000000)) PGSIZE).2.
Proof.
  assert (Hm : exists k1,
    sys_mmap 64 [0; 4096; 1; 1; 3; 0] (mapping 0 0 0 0) kernel_file
    = Ret (0x60000000, k1)
    /\ cow_pending (pgdir (cur k1)) 0x60000010 = false
    /\ 0 <= num_mappings (cur k1) <= Z.of_nat (length (memoryMappings (cur k1)))
    /\ fault_mapping (cur k1) 0x60000010 = Some (0%nat, mapping 0x60000000 4096 1 3)
    /\ ofile (cur k1) !! Z.to_nat 3 = Some (Some {| f_ip := 7 |})
    /\ kmem k1 = 0x80400000 :: [0x80401000; 0x80402000]
    /\ present (pgdir (cur k1)) 0x60000010 = false
    /\ present (pgdir (cur k1)) (0x60000010 + PGSIZE) = false).
  { eexists. split; [reflexivity|]. split; [reflexivity|].
    split; [split; by lazy|]. repeat split; reflexivity. }
  destruct Hm as (k1 & Hmmap & Hcow & Hn & Hfind & Hof & Hmem & Hp1 & Hp2).
  destruct (file_fault_reads_page (replicate (Z.to_nat PGSIZE) 0) 0x60000010 k1 0
              (mapping 0x60000000 4096 1 3) {| f_ip := 7 |} 0x80400000
              [0x80401000; 0x80402000] Hcow Hn Hfind)
    as (k2 & Hrun & Htr & Hfr & _);
    [ev | ev | ev | exact Hof | ev | exact Hmem | cbn [length]; lia | ev | ev
     | exact Hp1 | intros _; exact Hp2 |].
  exists k1, k2. split; [exact Hmmap|]. split; [exact Hrun|].
  split; [exact Htr|exact Hfr].
Defined.

Lemma fault_on_descriptor_zero_witness :
  exists k1,
    sys_mmap 64 [0; 4096; 1; 1; 0; 0] (mapping 0 0 0 0) kernel_fd0
    = Ret (0x60000000, k1)
    /\ page_fault_handler [] 0x60000000 k1 = Panic "ilock".
Proof.
  assert (Hm : exists k1,
    sys_mmap 64 [0; 4096; 1; 1; 0; 0] (mapping 0 0 0 0) kernel_fd0
    = Ret (0x60000000, k1)
    /\ cow_pending (pgdir (cur k1)) 0x60000000 = false
    /\ 0 <= num_mappings (cur k1) <= Z.of_nat (length (memoryMappings (cur k1)))
    /\ fault_mapping (cur k1) 0x60000000 = Some (0%nat, mapping 0x60000000 4096 1 0)
    /\ kmem k1 = frames).
  { eexists. split; [reflexivity|]. split; [reflexivity|].
    split; [split; by lazy|]. split; reflexivity. }
  destruct Hm as (k1 & Hmmap & Hcow & Hn & Hfind & Hmem).
  exists k1. split; [exact Hmmap|].
  apply (fault_on_descriptor_zero [] 0x60000000 k1 0 _ Hcow Hn Hfind);
    [ev | ev | ev |]. by rewrite Hmem.
Defined.

Lemma cow_fault_isolated_witness :
  exists k',
    page_fault_handler [] 0x60000004 kernel_cow = Ret (1, k')
    /\ phys k' !! 0x80500000 = phys kernel_cow !! 0x80500000
    /\ kmem k' = [0x80401000; 0x80402000]
    /\ memoryMappings (cur k') = memoryMappings (cur kernel_cow).
Proof.
  destruct (cow_fault_isolated [] 0x60000004 kernel_cow 0x500205 0x80400000
              [0x80401000; 0x80402000])
    as (k' & Hrun & _ & Hph & Hk & Hm & _); [ev..|].
  exists k'. split; [exact Hrun|]. split; [apply Hph; lia|]. split; [exact Hk|exact Hm].
Defined.

Lemma allocproc_first_unused_witness :
  exists k1 p',
    allocproc kernel_big = (Some 1%nat, k1)
    /\ ptable k1 !! 1%nat = Some p'
    /\ state p' = EMBRYO /\ pid p' = 2 /\ kstack p' = 0x80400000
    /\ nextpid k1 = 3.
Proof.
  assert (Hf : exists k1, allocproc kernel_big = (Some 1%nat, k1))
    by (eexists; reflexivity).
  destruct Hf as (k1 & Hf).
  destruct (allocproc_first_unused kernel_big k1 1 Hf)
    as (p & p' & ks & _ & _ & _ & Hp' & Hst & Hpid & Hks & Hk & Hnp & _).
  exists k1, p'. split; [exact Hf|]. split; [exact Hp'|]. split; [exact Hst|].
  split; [exact Hpid|]. split; [|exact Hnp].
  rewrite Hks. injection Hk as Hk _. by symmetry.
Defined.

Lemma allocproc_without_memory_witness :
  exists k1 p',
    allocproc (set_kmem kernel_big []) = (None, k1)
    /\ nextpid k1 = 3
    /\ ptable k1 !! 1%nat = Some p' /\ state p' = UNUSED /\ pid p' = 2.
Proof.
  destruct (allocproc_without_memory (set_kmem kernel_big []) 1 unused_proc)
    as (k1 & p' & Hrun & Hnp & Hp' & Hst & Hpid & _); [ev..|].
  exists k1, p'. split; [exact Hrun|]. split; [exact Hnp|].
  split; [exact Hp'|]. split; [exact Hst|exact Hpid].
Defined.

Lemma fork_without_slot_witness :
  fork 64 (set_ptable kernel_big [proc_with []] 2)
  = Ret (-1, set_ptable kernel_big [proc_with []] 2).
Proof.
  apply (fork_without_slot 64 (set_ptable kernel_big [proc_with []] 2)).
  repeat constructor. discriminate.
Defined.



Lemma fork_copies_open_files_witness :
  exists r k' child,
    fork 64 kernel_file_fork = Ret (r, k')
    /\ ptable k' !! 0%nat = Some child
    /\ ofile child !! 3%nat = Some (Some {| f_ip := 7 |}).
Proof.
  edestruct (fork_copies_open_files 64 kernel_file_fork)
    as (r & k' & Hf & np & child & Hnp & Hc & _ & Hopen & _);
    [reflexivity | reflexivity | | | | | |].
  - repeat constructor; unfold PGSIZE; cbn; lia.
  - split; by lazy.
  - intros np Hnp. apply (inj Some) in Hnp as <-. by lazy.
  - apply Forall_forall. intros m Hm. lazy in Hm.
    apply list_elem_of_singleton in Hm as ->. lazy. lia.
  - lazy. lia.
  - exists r, k', child. split; [exact Hf|]. split; [exact Hc|].
    apply Hopen; [reflexivity|].
    change (ptable kernel_file_fork !! 0%nat) with (Some unused_proc) in Hnp.
    apply (inj Some) in Hnp as <-. lazy. lia.
Defined.

Lemma count_children_counts_witness :
  count_children 5 [slot_of_state RUNNABLE 2 0 5; slot_of_state UNUSED 3 0 5;
                    slot_of_state SLEEPING 4 0 1]
  = 2.
Proof.
  destruct (count_children_counts 5
              [slot_of_state RUNNABLE 2 0 5; slot_of_state UNUSED 3 0 5;
               slot_of_state SLEEPING 4 0 1]) as [Hcount _]; [by lazy|].
  rewrite Hcount. reflexivity.
Defined.
End Witnesses3.
